(** * Mobile Maker: the Android rebuild script [scripts/recreate-android.js]

    A shallow embedding of the build script and the proofs of its
    glue-level properties: permission injection into the manifest, plugin
    reconciliation, the bridge configuration update, the SDK location
    file, and the exit status of the whole run. *)

From Stdlib Require Import String Ascii List ZArith Lia Bool DecimalString.
From stdpp Require Import base strings gmap.
Import ListNotations.

#[local] Set Warnings "-register-all".

Local Open Scope Z_scope.

(** ** JavaScript strings

    A text is held as the bytes of its UTF-8 encoding. The script only
    ever compares texts, searches one text in another, cuts a text at a
    position it has found that way, and concatenates: on texts held as
    UTF-8 these give what they give on the code units of the JavaScript
    string. String concatenation is written [+:+]. *)

Module JsString.

(** A double quote, for the literals of the script that contain one. *)
Definition dq : string := String (ascii_of_nat 34) EmptyString.

(** [s.startsWith(t)]. *)
Fixpoint startsWith (s t : string) {struct t} : bool :=
  match t, s with
  | EmptyString, _ => true
  | String _ _, EmptyString => false
  | String c t', String d s' => if Ascii.eqb c d then startsWith s' t' else false
  end.

(** [s.includes(t)]: [t] starts at some position of [s]. *)
Fixpoint includes (s t : string) : bool :=
  startsWith s t ||
  match s with
  | EmptyString => false
  | String _ s' => includes s' t
  end.

(** [s.lastIndexOf(t)], searched in the text that starts at offset [pos]:
    the greatest position at which [t] starts, or [-1]. *)
Fixpoint lastIndexOf_from (s t : string) (pos : Z) : Z :=
  match s with
  | EmptyString => if startsWith s t then pos else -1
  | String _ s' =>
      let later := lastIndexOf_from s' t (pos + 1) in
      if later =? -1 then (if startsWith s t then pos else -1) else later
  end.

Definition lastIndexOf (s t : string) : Z := lastIndexOf_from s t 0.

Fixpoint take (n : nat) (s : string) : string :=
  match n, s with
  | S n', String c s' => String c (take n' s')
  | _, _ => EmptyString
  end.

Fixpoint drop (n : nat) (s : string) : string :=
  match n, s with
  | S n', String _ s' => drop n' s'
  | _, _ => s
  end.

(** An index argument of [substring]: negative becomes 0, too large
    becomes the length. *)
Definition clamp (s : string) (i : Z) : nat :=
  Z.to_nat (Z.min (Z.max i 0) (Z.of_nat (String.length s))).

(** [s.substring(a, b)]; the two indices are swapped when [a > b]. *)
Definition substring2 (s : string) (a b : Z) : string :=
  let lo := Nat.min (clamp s a) (clamp s b) in
  let hi := Nat.max (clamp s a) (clamp s b) in
  take (hi - lo) (drop lo s).

(** [s.substring(a)]. *)
Definition substring1 (s : string) (a : Z) : string := drop (clamp s a) s.

(** [l.join(sep)] on an array of strings. *)
Fixpoint join (sep : string) (l : list string) : string :=
  match l with
  | [] => EmptyString
  | [x] => x
  | x :: l' => x +:+ sep +:+ join sep l'
  end.

(** [s.replace(/\\/g, '\\\\')]: every backslash becomes two. *)
Fixpoint escape_backslashes (s : string) : string :=
  match s with
  | EmptyString => EmptyString
  | String c s' =>
      if Ascii.eqb c (ascii_of_nat 92)
      then String c (String c (escape_backslashes s'))
      else String c (escape_backslashes s')
  end.

(** Number of positions of [s] at which [t] starts. *)
Fixpoint occurrences (s t : string) : nat :=
  ((if startsWith s t then 1 else 0) +
   match s with
   | EmptyString => 0
   | String _ s' => occurrences s' t
   end)%nat.

Fixpoint count_char (c : ascii) (s : string) : nat :=
  match s with
  | EmptyString => 0%nat
  | String d s' => ((if Ascii.eqb c d then 1 else 0) + count_char c s')%nat
  end.

Fixpoint mem_char (c : ascii) (s : string) : bool :=
  match s with
  | EmptyString => false
  | String d s' => Ascii.eqb c d || mem_char c s'
  end.

End JsString.
Export JsString.

(** ** JSON documents and JavaScript values *)

(** A number of the script is a double: a finite one, [mantissa] times
    two to the [exponent] with a sign (zero has one too), an infinity,
    or NaN. [JSON.parse] gives the double nearest to the numeral it
    reads, and an infinity for a numeral out of range such as [1e400]. *)
Inductive number : Type :=
| Finite (negative : bool) (mantissa : N) (exponent : Z)
| Infinite (negative : bool)
| NaN.

(** The number of items of a list, as the script prints it. *)
Definition count (n : nat) : number := Finite false (N.of_nat n) 0.

(** [if (n)]: zero, of either sign, and NaN are falsy. *)
Definition nonzero (n : number) : bool :=
  match n with
  | Finite _ m _ => negb (m =? 0)%N
  | Infinite _ => true
  | NaN => false
  end.

(** The number [JSON.stringify] writes for a number: zero loses its
    sign, a finite number is written as it is, and an infinity or NaN
    has no numeral ([null] is written in its place). *)
Definition written_number (n : number) : option number :=
  match n with
  | Finite s m e => Some (Finite (s && negb (m =? 0)%N) m e)
  | _ => None
  end.

(** What [JSON.parse] can return, and the document [JSON.stringify]
    writes (the numbers of that one are finite). An object is the list
    of its own properties in enumeration order, with distinct keys. *)
Inductive json : Type :=
| JNull
| JBool (b : bool)
| JNum (n : number)
| JStr (s : string)
| JArr (items : list json)
| JObj (props : list (string * json)).

(** Values of the running script: JSON values, [undefined], and the
    members every object inherits from [Object.prototype]. *)
Inductive value : Type :=
| VUndefined
| VNull
| VBool (b : bool)
| VNum (n : number)
| VStr (s : string)
| VArr (items : list value)
| VObj (props : list (string * value))
| VBuiltin.

Fixpoint of_json (j : json) : value :=
  match j with
  | JNull => VNull
  | JBool b => VBool b
  | JNum n => VNum n
  | JStr s => VStr s
  | JArr l => VArr (map of_json l)
  | JObj l => VObj (map (fun kv => (fst kv, of_json (snd kv))) l)
  end.

(** The document [JSON.stringify] serialises: a property whose value is
    [undefined] or a function is left out, an array item of that kind
    becomes [null]; at top level there is no document at all. *)
Fixpoint to_json (v : value) : option json :=
  match v with
  | VUndefined | VBuiltin => None
  | VNull => Some JNull
  | VBool b => Some (JBool b)
  | VNum n =>
      match written_number n with
      | Some n' => Some (JNum n')
      | None => Some JNull
      end
  | VStr s => Some (JStr s)
  | VArr l =>
      Some (JArr (map (fun x => match to_json x with
                                | Some j => j
                                | None => JNull
                                end) l))
  | VObj l =>
      Some (JObj ((fix props (l : list (string * value)) : list (string * json) :=
                     match l with
                     | [] => []
                     | (k, x) :: r =>
                         match to_json x with
                         | Some j => (k, j) :: props r
                         | None => props r
                         end
                     end) l))
  end.

(** The properties of a serialised object, as a function of its own. *)
Fixpoint to_json_props (l : list (string * value)) : list (string * json) :=
  match l with
  | [] => []
  | (k, x) :: r =>
      match to_json x with
      | Some j => (k, j) :: to_json_props r
      | None => to_json_props r
      end
  end.

(** What [JSON.stringify] writes for a value that [JSON.parse] returned:
    the value itself, but for its numbers. *)
Fixpoint stringified (j : json) : json :=
  match j with
  | JNum n =>
      match written_number n with
      | Some n' => JNum n'
      | None => JNull
      end
  | JArr l => JArr (map stringified l)
  | JObj l => JObj (map (fun kv => (fst kv, stringified (snd kv))) l)
  | _ => j
  end.

(** A value all of whose numbers are finite and not the negative zero. *)
Fixpoint plain (j : json) : bool :=
  match j with
  | JNum (Finite s m _) => negb (s && (m =? 0)%N)
  | JNum _ => false
  | JArr l => forallb plain l
  | JObj l => forallb (fun kv => plain (snd kv)) l
  | _ => true
  end.

(** Truthiness: [if (v)], [!!v], [v || w]. *)
Definition truthy (v : value) : bool :=
  match v with
  | VUndefined | VNull => false
  | VBool b => b
  | VNum n => nonzero n
  | VStr s => negb (String.eqb s EmptyString)
  | VArr _ | VObj _ | VBuiltin => true
  end.

(** *** Objects *)

Module Obj.

Definition t (A : Type) := list (string * A).

(** Own property lookup. *)
Fixpoint get {A} (o : t A) (k : string) : option A :=
  match o with
  | [] => None
  | (k', v) :: r => if String.eqb k k' then Some v else get r k
  end.

(** [o[k] = v]: an existing property keeps its place, a new one goes last. *)
Fixpoint set {A} (o : t A) (k : string) (v : A) : t A :=
  match o with
  | [] => [(k, v)]
  | (k', v') :: r => if String.eqb k k' then (k', v) :: r else (k', v') :: set r k v
  end.

(** [{ ...o, ...p }] continued: the properties of [p] defined one by one. *)
Definition assign {A} (o p : t A) : t A :=
  fold_left (fun acc kv => set acc (fst kv) (snd kv)) p o.

Definition keys {A} (o : t A) : list string := map fst o.

Definition has {A} (o : t A) (k : string) : bool :=
  match get o k with Some _ => true | None => false end.

End Obj.

(** The properties of a parsed object. *)
Definition of_json_props (l : Obj.t json) : Obj.t value :=
  map (fun kv => (fst kv, of_json (snd kv))) l.

(** Names every plain object inherits from [Object.prototype]. *)
Definition object_prototype_keys : list string :=
  [ "constructor"; "hasOwnProperty"; "isPrototypeOf"; "propertyIsEnumerable";
    "toLocaleString"; "toString"; "valueOf"; "__proto__";
    "__defineGetter__"; "__defineSetter__"; "__lookupGetter__";
    "__lookupSetter__" ]%string.

Definition inherited (k : string) : bool :=
  existsb (String.eqb k) object_prototype_keys.

(** [o[k]] on a plain object, for a key computed at run time. *)
Definition get_computed (o : Obj.t value) (k : string) : value :=
  match Obj.get o k with
  | Some v => v
  | None => if inherited k then VBuiltin else VUndefined
  end.

(** Own enumerable properties, as [Object.entries] and object spread
    see them: the properties of an object, the indexed items of an array,
    the indexed characters of a string (one per byte here, which is what
    they are for ASCII text), nothing for the other values. *)
Definition index_key (n : nat) : string :=
  NilEmpty.string_of_uint (Nat.to_uint n).

Definition indexed {A} (l : list A) : list (string * A) :=
  combine (map index_key (seq 0 (List.length l))) l.

Fixpoint code_units (s : string) : list value :=
  match s with
  | EmptyString => []
  | String c s' => VStr (String c EmptyString) :: code_units s'
  end.

Definition entries (v : value) : Obj.t value :=
  match v with
  | VObj o => o
  | VArr l => indexed l
  | VStr s => indexed (code_units s)
  | _ => []
  end.

(** ** The host: file system, environment, child processes *)

(** A directory, or a regular file: [File text] when the bytes of the
    file are the UTF-8 encoding of a text, [Binary bytes] when they are
    not valid UTF-8. *)
Inductive node : Type :=
| Dir
| File (content : string)
| Binary (bytes : string).

Inductive js_error : Type :=
| Error (message : string)
| SyntaxError
| TypeError
| SystemError (code : string)
| ExecError (command : string)
| ProcessExit (status : Z).

(** One call of [console.log] or [console.error]: a text, a template
    with one interpolated value, or an error object. The texts are given
    without the blank lines and pictographs that decorate them. *)
Inductive log_item : Type :=
| Line (text : string)
| LineWith (text : string) (v : value)
| Thrown (e : js_error).

(** What the script does not define itself: Node's [JSON] and [path],
    its UTF-8 decoder, the directory the script lives in, the process
    environment, and the programs it starts. [utf8_decode bytes] is the
    text read from bytes that are not valid UTF-8: every invalid sequence
    is replaced by U+FFFD. [exec cmd files] tells whether a command exits
    with status 0, and the file system it leaves behind: a command that
    fails has run all the same, and what it wrote stays. *)
Record host : Type := {
  JSON_parse : string -> option json;
  JSON_render : json -> string;
  path_sep : string;
  path_join : list string -> string;
  utf8_decode : string -> string;
  project_root : string;
  env : gmap string string;
  platform : string;
  exec : string -> gmap string node -> bool * gmap string node;
}.

(** The world the script acts on. [commands] records, in order, the
    command lines handed to [execSync]. *)
Record world : Type := {
  files : gmap string node;
  stdout : list log_item;
  stderr : list log_item;
  commands : list string;
}.

Inductive result (A : Type) : Type :=
| Ok (a : A)
| Throw (e : js_error).
Arguments Ok {A} a.
Arguments Throw {A} e.

(** Script code: it transforms the world and returns or throws. *)
Definition M (A : Type) : Type := world -> result A * world.

Definition throw {A} (e : js_error) : M A := fun w => (Throw e, w).

#[global] Instance M_ret : MRet M := fun A a w => (Ok a, w).

#[global] Instance M_bind : MBind M := fun A B k m w =>
  match m w with
  | (Ok a, w') => k a w'
  | (Throw e, w') => (Throw e, w')
  end.

Definition ret {A} (a : A) : M A := mret a.

(** Bind with the computation first, so that the type of the bound
    variable is known in the continuation. *)
Definition bind {A B} (m : M A) (k : A -> M B) : M B := m ≫= k.

Notation "'let*' x ':=' m 'in' k" := (bind m (fun x => k))
  (at level 10, x name, m at level 100, k at level 200).

(** [l.forEach(f)] and [for (const x of l)]. *)
Fixpoint forEach {A} (l : list A) (f : A -> M unit) : M unit :=
  match l with
  | [] => ret tt
  | x :: r => f x ;; forEach r f
  end.

(** Steps run in order from [w] all complete and leave [w']. *)
Inductive completes : list (M unit) -> world -> world -> Prop :=
| completes_nil (w : world) : completes [] w w
| completes_cons (s : M unit) (l : list (M unit)) (w w1 w' : world) :
    s w = (Ok tt, w1) -> completes l w1 w' -> completes (s :: l) w w'.

(** Steps run in order from [w]: one of them throws [e] in [w'], the
    ones before it having completed. *)
Inductive fails : list (M unit) -> world -> js_error -> world -> Prop :=
| fails_here (s : M unit) (l : list (M unit)) (w : world) (e : js_error) (w' : world) :
    s w = (Throw e, w') -> fails (s :: l) w e w'
| fails_later (s : M unit) (l : list (M unit)) (w w1 : world) (e : js_error) (w' : world) :
    s w = (Ok tt, w1) -> fails l w1 e w' -> fails (s :: l) w e w'.

Definition set_files (fs : gmap string node) (w : world) : world :=
  {| files := fs; stdout := stdout w; stderr := stderr w; commands := commands w |}.

Definition print (i : log_item) : M unit :=
  fun w => (Ok tt, {| files := files w; stdout := stdout w ++ [i];
                      stderr := stderr w; commands := commands w |}).

Definition eprint (i : log_item) : M unit :=
  fun w => (Ok tt, {| files := files w; stdout := stdout w;
                      stderr := stderr w ++ [i]; commands := commands w |}).

Definition spawned (cmd : string) (w : world) : world :=
  {| files := files w; stdout := stdout w; stderr := stderr w;
     commands := commands w ++ [cmd] |}.

Definition log (msg : string) : M unit := print (Line msg).
Definition error (msg : string) : M unit := eprint (Line msg).

(** [fs.existsSync]. *)
Definition existsSync (p : string) : M bool :=
  fun w => (Ok (bool_decide (is_Some (files w !! p))), w).

(** [v.k], read. No name the script reads is an index, [length] or a
    method name, so on an array, a string, a number or a boolean the
    result is [undefined]. *)
Definition member (v : value) (k : string) : M value :=
  match v with
  | VUndefined | VNull => throw TypeError
  | VObj o => ret (get_computed o k)
  | _ => ret VUndefined
  end.

(** [v.k = x] in strict mode (the script is an ES module). A property
    set on an array under a name that is not an index is seen neither
    by [JSON.stringify] nor by any later read of the script. *)
Definition assign_member (v : value) (k : string) (x : value) : M value :=
  match v with
  | VObj o => ret (VObj (Obj.set o k x))
  | VArr l => ret (VArr l)
  | VBuiltin => ret VBuiltin
  | _ => throw TypeError
  end.

(** A computation leaves the entry of the file system at [p] as it is. *)
Definition keeps (p : string) {A} (m : M A) : Prop :=
  forall w, files (snd (m w)) !! p = files w !! p.

(** [a || b]. *)
Definition or_else (a b : value) : value := if truthy a then a else b.

(** [{ ...v }]: a fresh object with the own properties of [v]. *)
Definition spread (v : value) : Obj.t value := Obj.assign [] (entries v).

(** ** The script *)

Section Script.

Variable h : host.

(** [PATHS]: every path is resolved from the project root. *)
Definition under (dir name : string) : string := dir +:+ path_sep h +:+ name.

Definition ROOT : string := project_root h.
Definition ANDROID : string := under ROOT "android".
Definition APP_CONFIG : string := under ROOT "app-config.json".
Definition CAP_CONFIG : string := under ROOT "capacitor.config.json".
Definition PACKAGE_JSON : string := under ROOT "package.json".
Definition MANIFEST : string :=
  under (under (under (under ANDROID "app") "src") "main") "AndroidManifest.xml".
Definition LOCAL_PROPS : string := under ANDROID "local.properties".

(** The directory a path is in: the path up to its last separator. *)
Definition parent (p : string) : string :=
  let i := lastIndexOf p (path_sep h) in
  if i <? 0 then "." else if i =? 0 then path_sep h else take (Z.to_nat i) p.

(** [fs.readFileSync(p, 'utf8')]: the text of a file, decoded. *)
Definition readFileSync (p : string) : M string :=
  fun w =>
    match files w !! p with
    | Some (File s) => (Ok s, w)
    | Some (Binary b) => (Ok (utf8_decode h b), w)
    | Some Dir => (Throw (SystemError "EISDIR"), w)
    | None => (Throw (SystemError "ENOENT"), w)
    end.

(** The text a read of a node gives, when it is a file. *)
Definition text_of (n : node) : option string :=
  match n with
  | File s => Some s
  | Binary b => Some (utf8_decode h b)
  | Dir => None
  end.

(** [fs.writeFileSync(p, s, 'utf8')]: the file at [p] is replaced by the
    encoding of [s], or created in the directory [p] is in. The write
    fails on a directory, and on a path whose directory does not exist
    or is a file; nothing is written then. *)
Definition writeFileSync (p : string) (s : string) : M unit :=
  fun w =>
    match files w !! p with
    | Some Dir => (Throw (SystemError "EISDIR"), w)
    | Some _ => (Ok tt, set_files (<[p := File s]> (files w)) w)
    | None =>
        match files w !! parent p with
        | Some Dir => (Ok tt, set_files (<[p := File s]> (files w)) w)
        | Some _ => (Throw (SystemError "ENOTDIR"), w)
        | None => (Throw (SystemError "ENOENT"), w)
        end
    end.

(** [runs(cmd)]: [execSync] returns once the command has ended, and
    throws when its exit status is not 0. *)
Definition runs (cmd : string) : M unit :=
  fun w =>
    let after := set_files (snd (exec h cmd (files w))) (spawned cmd w) in
    if fst (exec h cmd (files w)) then (Ok tt, after)
    else (Throw (ExecError cmd), after).

Definition readJson (filePath : string) : M value :=
  let* found := existsSync filePath in
  if negb found then throw (Error ("File not found: " +:+ filePath))
  else
    let* text := readFileSync filePath in
    match JSON_parse h text with
    | Some j => ret (of_json j)
    | None => throw SyntaxError
    end.

(** [JSON.stringify(data, null, 2)] gives no text for [undefined]; writing
    that is a type error. *)
Definition writeJson (filePath : string) (data : value) : M unit :=
  match to_json data with
  | Some j => writeFileSync filePath (JSON_render h j)
  | None => throw TypeError
  end.

Definition step0_updateConfig : M value :=
  log "Step 0: Updating Project Configuration...";;
  let* appConfig := readJson APP_CONFIG in
  let* appName := member appConfig "appName" in
  print (LineWith "App Name: " appName);;
  let* appId := member appConfig "appId" in
  print (LineWith "App ID: " appId);;
  let* found := existsSync CAP_CONFIG in
  (if found then
     let* capConfig := readJson CAP_CONFIG in
     let* appId := member appConfig "appId" in
     let* capConfig := assign_member capConfig "appId" appId in
     let* appName := member appConfig "appName" in
     let* capConfig := assign_member capConfig "appName" appName in
     let* server := member capConfig "server" in
     let* webUrl := member appConfig "webUrl" in
     let* capConfig := assign_member capConfig "server"
       (VObj (Obj.set (Obj.set (spread (or_else server (VObj []))) "url" webUrl)
                "cleartext" (VBool true))) in
     let* backgroundColor := member appConfig "backgroundColor" in
     let* capConfig := (if truthy backgroundColor
                        then assign_member capConfig "backgroundColor" backgroundColor
                        else ret capConfig) in
     writeJson CAP_CONFIG capConfig;;
     log "capacitor.config.json updated."
   else error "capacitor.config.json not found.");;
  ret appConfig.

(** The object step 0 has built when it calls [writeJson], from the
    properties of the two parsed configurations. *)
Definition updated_capConfig (appConfig capConfig : Obj.t value) : Obj.t value :=
  let c1 := Obj.set capConfig "appId" (get_computed appConfig "appId") in
  let c2 := Obj.set c1 "appName" (get_computed appConfig "appName") in
  let server := get_computed c2 "server" in
  let c3 := Obj.set c2 "server"
              (VObj (Obj.set (Obj.set (spread (or_else server (VObj []))) "url"
                                (get_computed appConfig "webUrl"))
                       "cleartext" (VBool true))) in
  if truthy (get_computed appConfig "backgroundColor")
  then Obj.set c3 "backgroundColor" (get_computed appConfig "backgroundColor")
  else c3.

(** The [server] object among them: the old one spread, then [url] and
    [cleartext]. *)
Definition updated_server (appConfig capConfig : Obj.t value) : Obj.t value :=
  Obj.set (Obj.set (spread (or_else (get_computed capConfig "server") (VObj []))) "url"
             (get_computed appConfig "webUrl"))
    "cleartext" (VBool true).

(** [{ ...pkg.dependencies, ...pkg.devDependencies }]. *)
Definition dependency_table (dependencies devDependencies : value) : Obj.t value :=
  Obj.assign (spread dependencies) (entries devDependencies).

(** The body of the loop over [Object.entries(plugins)]. *)
Definition manage_plugin (installed : Obj.t value) (entry : string * value) : M unit :=
  let plugin := fst entry in
  let isEnabled := truthy (snd entry) in
  let isInstalled := truthy (get_computed installed plugin) in
  if isEnabled && negb isInstalled then
    log ("Installing " +:+ plugin +:+ "...");;
    runs ("npm install " +:+ plugin)
  else if negb isEnabled && isInstalled then
    log ("Uninstalling " +:+ plugin +:+ "...");;
    runs ("npm uninstall " +:+ plugin)
  else ret tt.

Definition step0_5_managePlugins (plugins : value) : M unit :=
  if negb (truthy plugins) then ret tt
  else
    log "Step 0.5: Managing Plugins...";;
    let* pkg := readJson PACKAGE_JSON in
    let* dependencies := member pkg "dependencies" in
    let* devDependencies := member pkg "devDependencies" in
    let installed := dependency_table dependencies devDependencies in
    forEach (entries plugins) (manage_plugin installed).

(** The combined dependencies that [package.json] lists in a file
    system, and whether a package is among them. *)
Definition listed_dependencies (fs : gmap string node) : Obj.t value :=
  match fs !! PACKAGE_JSON ≫= text_of with
  | Some text =>
      match JSON_parse h text with
      | Some (JObj pkg) =>
          dependency_table (get_computed (of_json_props pkg) "dependencies")
            (get_computed (of_json_props pkg) "devDependencies")
      | _ => []
      end
  | None => []
  end.

Definition present (fs : gmap string node) (package : string) : bool :=
  Obj.has (listed_dependencies fs) package.

(** The test [!!installed[plugin]] of the loop agrees with the package
    being listed: its entry, if any, is truthy, and a package that is not
    listed is not named like an inherited member. *)
Definition test_agrees (installed : Obj.t value) (package : string) : Prop :=
  truthy (get_computed installed package) = Obj.has installed package.

(** The command the loop body issues for one plugin, if any. *)
Definition plugin_command (installed : Obj.t value) (entry : string * value)
  : list string :=
  if truthy (snd entry) && negb (truthy (get_computed installed (fst entry)))
  then ["npm install " +:+ fst entry]
  else if negb (truthy (snd entry)) && truthy (get_computed installed (fst entry))
  then ["npm uninstall " +:+ fst entry]
  else [].

(** The standard effect of the commands the loop issues for the plugins
    [l]: such a command succeeds, its package is then listed (installed)
    or not listed (uninstalled), and whether any other package is listed
    does not change. Nothing is asked of a command the loop does not
    issue. *)
Definition issued_standard (installed : Obj.t value) (l : list (string * value)) : Prop :=
  forall (e : string * value) (cmd : string) (fs : gmap string node),
    In e l -> plugin_command installed e = [cmd] ->
    fst (exec h cmd fs) = true /\
    present (snd (exec h cmd fs)) (fst e) = truthy (snd e) /\
    forall q, q <> fst e -> present (snd (exec h cmd fs)) q = present fs q.

Definition step1_buildWeb : M unit :=
  log "Step 1: Building Web Assets (Vite)...";;
  runs "npm run build".

(** [fs.rmSync(dir, { recursive: true, force: true })]: the directory and
    everything below it. *)
Definition below (dir p : string) : bool :=
  String.eqb p dir || startsWith p (dir +:+ path_sep h).

Definition rmSync (dir : string) : M unit :=
  fun w => (Ok tt, set_files (filter (fun kv => below dir (fst kv) = false) (files w)) w).

(** A file system without a directory and what is below it. *)
Definition without (dir : string) (fs : gmap string node) : gmap string node :=
  filter (fun kv => below dir (fst kv) = false) fs.

Definition step2_removeAndroid : M unit :=
  let* found := existsSync ANDROID in
  if found then
    log "Step 2: Removing existing android directory...";;
    rmSync ANDROID
  else ret tt.

Definition step3_generateAndroid : M unit :=
  log "Step 3: Generating fresh Android project...";;
  runs "npx cap add android".

(** [process.env.NAME]: a string, or [undefined]. *)
Definition getenv (name : string) : value :=
  match env h !! name with
  | Some s => VStr s
  | None => VUndefined
  end.

(** [path.join(a, ...)] throws unless every argument is a string. *)
Definition path_join_checked (first : value) (rest : list string) : M value :=
  match first with
  | VStr s => ret (VStr (path_join h (s :: rest)))
  | _ => throw TypeError
  end.

Definition step4_createLocalProperties : M unit :=
  log "Step 4: Generating local.properties...";;
  let sdkPath := or_else (getenv "ANDROID_HOME") (getenv "ANDROID_SDK_ROOT") in
  let* targetPath :=
    (if negb (truthy sdkPath) then
       log "ANDROID_HOME not set. Searching default locations...";;
       if String.eqb (platform h) "win32"
       then path_join_checked (getenv "LOCALAPPDATA") ["Android"; "Sdk"]
       else if String.eqb (platform h) "darwin"
       then path_join_checked (getenv "HOME") ["Library"; "Android"; "sdk"]
       else ret sdkPath
     else ret sdkPath) in
  match targetPath with
  | VStr p =>
      let* found := (if truthy targetPath then existsSync p else ret false) in
      if found then
        writeFileSync LOCAL_PROPS
          ("sdk.dir=" +:+ escape_backslashes p +:+ String (ascii_of_nat 10) "");;
        log ("local.properties -> " +:+ p)
      else error "Android SDK not found. Please set ANDROID_HOME."
  | _ => error "Android SDK not found. Please set ANDROID_HOME."
  end.

Definition nl : string := String (ascii_of_nat 10) "".

(** The SDK location as the script resolves it: the first of
    [ANDROID_HOME] and [ANDROID_SDK_ROOT] that is set and not empty, else
    the default directory of the platform, found from [LOCALAPPDATA] on
    Windows and from [HOME] on macOS; no location on another platform or
    without that variable. *)
Definition set_variable (name : string) : option string :=
  match env h !! name with
  | Some EmptyString => None
  | other => other
  end.

Definition nonempty (s : string) : option string :=
  match s with
  | EmptyString => None
  | _ => Some s
  end.

Definition resolved_sdk_path : option string :=
  match set_variable "ANDROID_HOME" with
  | Some p => Some p
  | None =>
      match set_variable "ANDROID_SDK_ROOT" with
      | Some p => Some p
      | None =>
          if String.eqb (platform h) "win32" then
            match env h !! "LOCALAPPDATA" with
            | Some d => nonempty (path_join h [d; "Android"; "Sdk"])
            | None => None
            end
          else if String.eqb (platform h) "darwin" then
            match env h !! "HOME" with
            | Some d => nonempty (path_join h [d; "Library"; "Android"; "sdk"])
            | None => None
            end
          else None
      end
  end.

(** Neither SDK variable is set to a text that is not empty; and the
    variable the default location of the platform starts from is not set
    either. *)
Definition no_sdk_variable : bool :=
  match set_variable "ANDROID_HOME", set_variable "ANDROID_SDK_ROOT" with
  | None, None => true
  | _, _ => false
  end.

Definition base_missing : bool :=
  if String.eqb (platform h) "win32"
  then negb (bool_decide (is_Some (env h !! "LOCALAPPDATA")))
  else if String.eqb (platform h) "darwin"
  then negb (bool_decide (is_Some (env h !! "HOME")))
  else false.

(** The one line of the SDK location file. *)
Definition sdk_dir_line (p : string) : string :=
  "sdk.dir=" +:+ escape_backslashes p +:+ nl.

Definition closingTag : string := "</manifest>".

(** The declaration line of one permission. *)
Definition permission_tag (name : string) : string :=
  "<uses-permission android:name=" +:+ dq +:+ name +:+ dq +:+ " />".

(** The tags to inject: one per enabled permission, unless the manifest
    already contains it. *)
Definition toInject (content : string) (permissions : value) : list string :=
  List.filter (fun tag => negb (includes content tag))
    (map (fun e => permission_tag (fst e))
       (List.filter (fun e => truthy (snd e)) (entries (or_else permissions (VObj []))))).

(** The text written back when there is something to inject. *)
Definition inject (content : string) (idx : Z) (tags : list string) : string :=
  substring2 content 0 idx +:+
  (nl +:+ "    <!-- Auto-injected permissions -->" +:+ nl +:+ "    ") +:+
  join (nl +:+ "    ") tags +:+ nl +:+
  substring1 content idx.

Definition step5_injectPermissions (permissions : value) : M unit :=
  log "Step 5: Injecting permissions...";;
  let* found := existsSync MANIFEST in
  if negb found then error ("Manifest not found: " +:+ MANIFEST)
  else
    let* content := readFileSync MANIFEST in
    let idx := lastIndexOf content closingTag in
    if idx =? -1 then error "Invalid Manifest format."
    else
      let tags := toInject content permissions in
      if (0 <? Z.of_nat (List.length tags)) then
        writeFileSync MANIFEST (inject content idx tags);;
        print (LineWith "Added permissions: " (VNum (count (List.length tags))))
      else log "No new permissions needed.".

(** The inserted text, line by line: a comment line, then one line per
    tag, each indented by four spaces; nothing when there is no tag. *)
Fixpoint tag_lines (tags : list string) : string :=
  match tags with
  | [] => EmptyString
  | t :: r => nl +:+ "    " +:+ t +:+ tag_lines r
  end.

Definition injected_block (tags : list string) : string :=
  match tags with
  | [] => EmptyString
  | _ => nl +:+ "    <!-- Auto-injected permissions -->" +:+ tag_lines tags +:+ nl
  end.

(** The own properties of the permissions mapping, and the enabled ones. *)
Definition permission_entries (permissions : value) : Obj.t value :=
  entries (or_else permissions (VObj [])).

Definition enabled (permissions : value) (name : string) : Prop :=
  exists v, In (name, v) (permission_entries permissions) /\ truthy v = true.

(** The manifest text in a world, if the manifest is a file. *)
Definition manifest_of (w : world) : option string :=
  match files w !! MANIFEST with
  | Some (File content) => Some content
  | _ => None
  end.

(** Every enabled permission's tag starts at exactly one position. *)
Definition tags_exactly_once (permissions : value) (w : world) : Prop :=
  forall name, enabled permissions name ->
    exists content, manifest_of w = Some content /\
                    occurrences content (permission_tag name) = 1%nat.

Definition step6_finalSync : M unit :=
  log "Step 6: Final Sync...";;
  runs "npx cap sync".

(** The body of [try] in [run]. *)
Definition build : M unit :=
  let* config := step0_updateConfig in
  let* plugins := member config "plugins" in
  step0_5_managePlugins plugins;;
  step1_buildWeb;;
  step2_removeAndroid;;
  step3_generateAndroid;;
  step4_createLocalProperties;;
  let* permissions := member config "permissions" in
  step5_injectPermissions permissions;;
  step6_finalSync;;
  log ("Build Successful! Run " +:+ dq +:+ "npx cap run android" +:+ dq +:+ " to launch.").

(** The steps [run] calls after step 0, in order, with the configuration
    step 0 returned. *)
Definition later_steps (config : value) : list (M unit) :=
  [ (let* plugins := member config "plugins" in step0_5_managePlugins plugins);
    step1_buildWeb;
    step2_removeAndroid;
    step3_generateAndroid;
    step4_createLocalProperties;
    (let* permissions := member config "permissions" in
     step5_injectPermissions permissions);
    step6_finalSync ].

Definition started (w : world) : world :=
  snd (log "Starting Mobile Maker Build Process..." w).

Definition succeeded (w : world) : world :=
  snd (log ("Build Successful! Run " +:+ dq +:+ "npx cap run android" +:+ dq
            +:+ " to launch.") w).

(** Every step of the run completes without throwing, and the run ends
    in [w']. *)
Definition all_complete (w w' : world) : Prop :=
  exists config w0 w1,
    step0_updateConfig (started w) = (Ok config, w0) /\
    completes (later_steps config) w0 w1 /\
    w' = succeeded w1.

(** A step throws [e], the steps before it having completed; [w'] is the
    world at that point. *)
Definition some_step_throws (w : world) (e : js_error) (w' : world) : Prop :=
  step0_updateConfig (started w) = (Throw e, w') \/
  exists config w0,
    step0_updateConfig (started w) = (Ok config, w0) /\
    fails (later_steps config) w0 e w'.

(** [run()]: the exit status of the process and the world it leaves. *)
Definition run (w : world) : Z * world :=
  match (log "Starting Mobile Maker Build Process...";; build) w with
  | (Ok _, w') => (0, w')
  | (Throw e, w') =>
      (1, snd ((error "Build Failed!";; eprint (Thrown e)) w'))
  end.

End Script.

(** ** The injection, in the words of the specification *)

(** The declaration line of a permission. *)
Definition declaration (name : string) : string :=
  "<uses-permission android:name=" +:+ String (ascii_of_nat 34) "" +:+ name
  +:+ String (ascii_of_nat 34) "" +:+ " />".

(** [t] occurs in [s]. *)
Definition occurs_in (t s : string) : Prop := exists a b, s = a +:+ t +:+ b.

(** What is put in for the permissions [names]: a line break, the
    comment line, one declaration line per name, each indented by four
    spaces, and a line break; nothing when there is no name. *)
Fixpoint declaration_lines (names : list string) : string :=
  match names with
  | [] => EmptyString
  | n :: r =>
      String (ascii_of_nat 10) "" +:+ "    " +:+ declaration n +:+ declaration_lines r
  end.

Definition inserted_text (names : list string) : string :=
  match names with
  | [] => EmptyString
  | _ =>
      String (ascii_of_nat 10) "" +:+ "    <!-- Auto-injected permissions -->"
      +:+ declaration_lines names +:+ String (ascii_of_nat 10) ""
  end.

(** The flag mapping a [permissions] field holds: the properties of an
    object, and none when the field is absent or [null]. *)
Definition mapping (permissions : value) : option (list (string * value)) :=
  match permissions with
  | VObj props => Some props
  | VUndefined | VNull => Some []
  | _ => None
  end.

(** The permissions of a mapping to declare in a manifest: those with a
    truthy flag whose declaration does not occur in it, in the order of
    the mapping. *)
Definition to_declare (content : string) (props : list (string * value)) : list string :=
  map fst (List.filter
             (fun e => truthy (snd e) && negb (includes content (declaration (fst e))))
             props).

(** ** The earlier version of the script

    The earlier [recreate-android.js] has the same steps, with the
    configuration update and the plugin management as functions and the
    permission injection inline in [run]. *)

Module Older.

Section OlderScript.

Variable h : host.

(** [JSON.parse(fs.readFileSync(p, 'utf8'))]. *)
Definition parseFile (p : string) : M value :=
  let* text := readFileSync h p in
  match JSON_parse h text with
  | Some j => ret (of_json j)
  | None => throw SyntaxError
  end.

(** [process.exit(status)] ends the process at once. *)
Definition updateConfig : M unit :=
  log "Step 0: Updating Project Configuration...";;
  let* found := existsSync (APP_CONFIG h) in
  if negb found then
    error "app-config.json not found!";;
    throw (ProcessExit 1)
  else
    let* appConfig := parseFile (APP_CONFIG h) in
    let* appName := member appConfig "appName" in
    print (LineWith "App Name: " appName);;
    let* appId := member appConfig "appId" in
    print (LineWith "App ID: " appId);;
    let* webUrl := member appConfig "webUrl" in
    print (LineWith "Web URL: " webUrl);;
    let* found := existsSync (CAP_CONFIG h) in
    if found then
      let* capConfig := parseFile (CAP_CONFIG h) in
      let* appId := member appConfig "appId" in
      let* capConfig := assign_member capConfig "appId" appId in
      let* appName := member appConfig "appName" in
      let* capConfig := assign_member capConfig "appName" appName in
      let* server := member capConfig "server" in
      let* webUrl := member appConfig "webUrl" in
      let* capConfig := assign_member capConfig "server"
        (VObj (Obj.set (Obj.set (spread (or_else server (VObj []))) "url" webUrl)
                 "cleartext" (VBool true))) in
      let* backgroundColor := member appConfig "backgroundColor" in
      let* capConfig := (if truthy backgroundColor
                         then assign_member capConfig "backgroundColor" backgroundColor
                         else ret capConfig) in
      writeJson h (CAP_CONFIG h) capConfig;;
      log "capacitor.config.json updated."
    else error "capacitor.config.json not found.".

Definition managePlugins (plugins : value) : M unit :=
  if negb (truthy plugins) then ret tt
  else
    log "Step 0.5: Managing Plugins...";;
    let* packageJson := parseFile (PACKAGE_JSON h) in
    let* dependencies := member packageJson "dependencies" in
    let* devDependencies := member packageJson "devDependencies" in
    let installedDeps := dependency_table dependencies devDependencies in
    forEach (entries plugins) (manage_plugin h installedDeps).

(** The loop that pushes the tag of every enabled permission. *)
Definition permissionsToInject (configPermissions : value) : list string :=
  fold_left (fun acc e => if truthy (snd e) then acc ++ [permission_tag (fst e)] else acc)
    (entries configPermissions) [].

(** Step 5 of the earlier [run], with the app configuration it read. *)
Definition injectPermissions (appConfig : value) : M unit :=
  log "Step 5: Injecting permissions into AndroidManifest.xml...";;
  let* found := existsSync (MANIFEST h) in
  if found then
    let* manifestContent := readFileSync h (MANIFEST h) in
    let closingTagIndex := lastIndexOf manifestContent closingTag in
    if negb (closingTagIndex =? -1) then
      let* permissions := member appConfig "permissions" in
      let configPermissions := or_else permissions (VObj []) in
      let uniquePermissions :=
        List.filter (fun perm => negb (includes manifestContent perm))
          (permissionsToInject configPermissions) in
      if 0 <? Z.of_nat (List.length uniquePermissions) then
        writeFileSync h (MANIFEST h)
          (inject manifestContent closingTagIndex uniquePermissions);;
        print (LineWith "Added permissions: "
                 (VNum (count (List.length uniquePermissions))))
      else log "No new permissions to add."
    else error "Could not find </manifest> tag."
  else error ("Manifest file not found at " +:+ MANIFEST h).

End OlderScript.

End Older.

(** *** The earlier [run] *)

Module OlderRun.

(** The list the earlier script declares and never reads. *)
Definition REQUIRED_PERMISSIONS : list string :=
  [ permission_tag "android.permission.INTERNET";
    permission_tag "android.permission.RECORD_AUDIO";
    permission_tag "android.permission.MODIFY_AUDIO_SETTINGS" ].

Section OlderRunScript.

Variable h : host.

(** Step 4, inline in the earlier [run]; the notice that [ANDROID_HOME] is
    not set goes to the error stream ([console.warn]). *)
Definition createLocalProperties : M unit :=
  log "Step 4: Generating local.properties...";;
  let sdkPath := or_else (getenv h "ANDROID_HOME") (getenv h "ANDROID_SDK_ROOT") in
  let* pathToWrite :=
    (if truthy sdkPath then ret sdkPath
     else
       error "ANDROID_HOME not set. Trying to find SDK path automatically...";;
       if String.eqb (platform h) "win32"
       then path_join_checked h (getenv h "LOCALAPPDATA") ["Android"; "Sdk"]
       else if String.eqb (platform h) "darwin"
       then path_join_checked h (getenv h "HOME") ["Library"; "Android"; "sdk"]
       else ret VNull) in
  match pathToWrite with
  | VStr p =>
      let* found := (if truthy pathToWrite then existsSync p else ret false) in
      if found then
        writeFileSync h (under h (ANDROID h) "local.properties")
          ("sdk.dir=" +:+ escape_backslashes p +:+ nl);;
        log ("local.properties created pointing to: " +:+ p)
      else error "Could not find Android SDK automatically."
  | _ => error "Could not find Android SDK automatically."
  end.

(** The body of [try] in the earlier [run], step by step. *)
Definition build : M unit :=
  Older.updateConfig h;;
  let* appConfig := Older.parseFile h (APP_CONFIG h) in
  let* plugins := member appConfig "plugins" in
  Older.managePlugins h plugins;;
  (log "Step 1: Building Web Assets (Vite)...";;
   runs h "npm run build");;
  (let* found := existsSync (ANDROID h) in
   if found then
     log "Step 2: Removing existing android directory...";;
     rmSync h (ANDROID h)
   else ret tt);;
  (log "Step 3: Generating fresh Android project...";;
   runs h "npx cap add android");;
  createLocalProperties;;
  Older.injectPermissions h appConfig;;
  (log "Step 6: Final Sync...";;
   runs h "npx cap sync");;
  (log "All Done! Project is ready.";;
   log ("Run " +:+ dq +:+ "npx cap run android" +:+ dq
        +:+ " to launch on device/emulator.")).

(** The earlier [run()]. [process.exit] inside the body ends the process
    with its status, past the [catch] block. *)
Definition run (w : world) : Z * world :=
  match (log "Starting Mobile Maker Build Process...";; build) w with
  | (Ok _, w') => (0, w')
  | (Throw (ProcessExit status), w') => (status, w')
  | (Throw e, w') =>
      (1, snd ((error "Build Process Failed!";; eprint (Thrown e)) w'))
  end.

End OlderRunScript.

End OlderRun.

(** The exit status an error leads to. *)
Definition exit_status (e : js_error) : Z :=
  match e with
  | ProcessExit status => status
  | _ => 1
  end.

(** Two worlds with the same file system and the same commands on
    record; two outcomes that agree in that way, and that both return the
    same value or both throw, the first an error that leads to exit
    status 1 (the status the current [run] gives to whatever is thrown). *)
Definition agree (w1 w2 : world) : Prop :=
  files w1 = files w2 /\ commands w1 = commands w2.

Definition outcomes_agree {A} (r1 r2 : result A * world) : Prop :=
  agree (snd r1) (snd r2) /\
  match fst r1, fst r2 with
  | Ok a, Ok b => a = b
  | Throw e1, Throw _ => exit_status e1 = 1
  | _, _ => False
  end.

(** Two computations that do the same up to what they print. *)
Definition alike {A} (m1 m2 : M A) : Prop :=
  forall w1 w2, agree w1 w2 -> outcomes_agree (m1 w1) (m2 w2).

(** ** A sample host and sample inputs *)

Module Sample.

(** A UTF-8 decoder for the sample hosts: it keeps every well-formed
    sequence and puts the encoding of U+FFFD in place of each ill-formed
    one. [pending] is a sequence that has started: the number of bytes
    still needed, the range the next one must be in, and the bytes seen. *)
Definition replacement : string :=
  String (ascii_of_nat 239) (String (ascii_of_nat 191) (String (ascii_of_nat 189) "")).

Record pending : Type := {
  needed : nat;
  lower : nat;
  upper : nat;
  seen : string;
}.

Definition lead (b : ascii) : string * option pending :=
  let n := nat_of_ascii b in
  let start k lo hi :=
    ("", Some {| needed := k; lower := lo; upper := hi; seen := String b "" |}) in
  if (n <? 128)%nat then (String b "", None)
  else if ((194 <=? n) && (n <=? 223))%nat then start 1%nat 128%nat 191%nat
  else if (n =? 224)%nat then start 2%nat 160%nat 191%nat
  else if (n =? 237)%nat then start 2%nat 128%nat 159%nat
  else if ((225 <=? n) && (n <=? 239))%nat then start 2%nat 128%nat 191%nat
  else if (n =? 240)%nat then start 3%nat 144%nat 191%nat
  else if (n =? 244)%nat then start 3%nat 128%nat 143%nat
  else if ((241 <=? n) && (n <=? 243))%nat then start 3%nat 128%nat 191%nat
  else (replacement, None).

Fixpoint utf8 (bytes : string) (state : option pending) : string :=
  match bytes with
  | EmptyString =>
      match state with
      | None => EmptyString
      | Some _ => replacement
      end
  | String b rest =>
      match state with
      | None => fst (lead b) +:+ utf8 rest (snd (lead b))
      | Some p =>
          let n := nat_of_ascii b in
          if ((lower p <=? n) && (n <=? upper p))%nat then
            match needed p with
            | S (S k) =>
                utf8 rest (Some {| needed := S k; lower := 128; upper := 191;
                                   seen := seen p +:+ String b "" |})
            | _ => seen p +:+ String b "" +:+ utf8 rest None
            end
          else replacement +:+ fst (lead b) +:+ utf8 rest (snd (lead b))
      end
  end.

Definition decode (bytes : string) : string := utf8 bytes None.

Definition byte (n : nat) : string := String (ascii_of_nat n) "".

(** A [JSON.stringify] for the sample hosts, without the indentation and
    without escapes in strings. An integer is printed in decimal, another
    finite number as its mantissa and its binary exponent. *)
Definition print_number (n : number) : string :=
  match n with
  | Finite s m e =>
      (if s then "-" else "") +:+ NilEmpty.string_of_uint (N.to_uint m) +:+
      (if e =? 0 then "" else "p" +:+ NilZero.string_of_int (Z.to_int e))
  | _ => "null"
  end.

Fixpoint print (j : json) : string :=
  match j with
  | JNull => "null"
  | JBool true => "true"
  | JBool false => "false"
  | JNum n => print_number n
  | JStr s => dq +:+ s +:+ dq
  | JArr l => "[" +:+ join "," (map print l) +:+ "]"
  | JObj l =>
      "{" +:+ join "," (map (fun kv => dq +:+ fst kv +:+ dq +:+ ":" +:+ print (snd kv)) l)
      +:+ "}"
  end.

(** A POSIX host on which every command succeeds and changes nothing,
    and no file is valid JSON. *)
Definition quiet_host : host := {|
  JSON_parse := fun _ => None;
  JSON_render := print;
  path_sep := "/";
  path_join := join "/";
  utf8_decode := decode;
  project_root := "/app";
  env := ∅;
  platform := "linux";
  exec := fun _ fs => (true, fs);
|}.

Definition empty_world : world :=
  {| files := ∅; stdout := []; stderr := []; commands := [] |}.

(** Two configuration documents, and a host whose [JSON.parse] reads
    them from the texts that stand for them. *)
Definition app_document : Obj.t json :=
  [("appId", JStr "com.example.shop"); ("appName", JStr "Shop");
   ("webUrl", JStr "https://shop.example/");
   ("plugins", JObj [("@capacitor/camera", JBool true);
                     ("@capacitor/splash-screen", JBool false)]);
   ("permissions", JObj [("android.permission.INTERNET", JBool true)])].

Definition cap_document : Obj.t json :=
  [("appId", JStr "com.old.id"); ("appName", JStr "Old");
   ("webDir", JStr "dist");
   ("server", JObj [("url", JStr "http://old.example/"); ("androidScheme", JStr "https")]);
   ("backgroundColor", JStr "#ffffff")].

Definition package_document : Obj.t json :=
  [("name", JStr "mobile-maker");
   ("dependencies", JObj [("@capacitor/core", JStr "^6.0.0");
                          ("@capacitor/splash-screen", JStr "^6.0.0")]);
   ("devDependencies", JObj [("vite", JStr "^5.0.0")])].

Definition app_text : string := "app-config".
Definition cap_text : string := "capacitor.config".
Definition package_text : string := "package".

Definition json_host : host := {|
  JSON_parse := fun s =>
    if String.eqb s app_text then Some (JObj app_document)
    else if String.eqb s cap_text then Some (JObj cap_document)
    else if String.eqb s package_text then Some (JObj package_document)
    else None;
  JSON_render := print;
  path_sep := "/";
  path_join := join "/";
  utf8_decode := decode;
  project_root := "/app";
  env := ∅;
  platform := "linux";
  exec := fun _ fs => (true, fs);
|}.

Definition with_file (p : string) (content : string) (w : world) : world :=
  set_files (<[p := File content]> (files w)) w.

Definition internet : string := "android.permission.INTERNET".
Definition camera : string := "android.permission.CAMERA".

Definition manifest_text : string :=
  "<manifest>" +:+ nl +:+ "    " +:+ permission_tag internet +:+ nl +:+ "</manifest>" +:+ nl.

Definition permissions : value :=
  VObj [(internet, VBool true); (camera, VBool true); ("android.permission.NFC", VBool false)].

(** Every enabled permission of [granted] is declared in [manifest_text]. *)
Definition granted : value :=
  VObj [(internet, VBool true); ("android.permission.NFC", VBool false)].

(** A manifest that declares one permission twice. *)
Definition doubled_manifest : string :=
  "<manifest>" +:+ permission_tag internet +:+ permission_tag internet +:+ "</manifest>".

(** A permission name that contains the closing tag, in a manifest whose
    only closing tag is the one inside that name. *)
Definition odd_name : string := "a</manifest>b".

Definition odd_permissions : value :=
  VObj [(odd_name, VBool true); (camera, VBool true)].

Definition odd_manifest : string := "<manifest>" +:+ permission_tag odd_name.

Definition manifest_world : world :=
  with_file (MANIFEST quiet_host) manifest_text empty_world.

Definition doubled_world : world :=
  with_file (MANIFEST quiet_host) doubled_manifest empty_world.

Definition odd_world : world :=
  with_file (MANIFEST quiet_host) odd_manifest empty_world.

(** A host with a package manager. Its [package.json] is a ledger of
    entries [+name;] (add the package), [?name;] (add it with an empty
    version) and [-name;] (remove it), the newest first; [npm install]
    and [npm uninstall] put an entry in front. *)
Definition ledger_entry (sign : ascii) (name : string) (d : Obj.t json) : Obj.t json :=
  if Ascii.eqb sign "+" then Obj.set d name (JStr "1.0.0")
  else if Ascii.eqb sign "?" then Obj.set d name (JStr "")
  else List.filter (fun kv => negb (String.eqb (fst kv) name)) d.

Fixpoint ledger (text : string) (reading : option (ascii * string)) : Obj.t json :=
  match text with
  | EmptyString => []
  | String c t =>
      match reading with
      | None => ledger t (Some (c, EmptyString))
      | Some (sign, name) =>
          if Ascii.eqb c ";" then ledger_entry sign name (ledger t None)
          else ledger t (Some (sign, name +:+ String c EmptyString))
      end
  end.

Definition ledger_text (fs : gmap string node) (p : string) : string :=
  match fs !! p with
  | Some (File text) => text
  | Some (Binary bytes) => decode bytes
  | _ => EmptyString
  end.

Definition ledger_host : host := {|
  JSON_parse := fun text => Some (JObj [("dependencies", JObj (ledger text None))]);
  JSON_render := print;
  path_sep := "/";
  path_join := join "/";
  utf8_decode := decode;
  project_root := "/app";
  env := ∅;
  platform := "linux";
  exec := fun cmd fs =>
    let p := "/app/package.json" in
    if startsWith cmd "npm install "
    then (true, <[p := File ("+" +:+ drop 12 cmd +:+ ";" +:+ ledger_text fs p)]> fs)
    else if startsWith cmd "npm uninstall "
    then (true, <[p := File ("-" +:+ drop 14 cmd +:+ ";" +:+ ledger_text fs p)]> fs)
    else (true, fs);
|}.

(** A Windows host without the SDK variables, and one with
    [ANDROID_HOME]; the SDK directories exist in [sdk_world]. *)
Definition windows_host : host := {|
  JSON_parse := fun _ => None;
  JSON_render := print;
  path_sep := "\";
  path_join := join "\";
  utf8_decode := decode;
  project_root := "C:\app";
  env := {[ "LOCALAPPDATA" := "C:\Users\dev\AppData\Local" ]};
  platform := "win32";
  exec := fun _ fs => (true, fs);
|}.

Definition android_home_host : host := {|
  JSON_parse := fun _ => None;
  JSON_render := print;
  path_sep := "\";
  path_join := join "\";
  utf8_decode := decode;
  project_root := "C:\app";
  env := {[ "ANDROID_HOME" := "D:\Sdk"; "ANDROID_SDK_ROOT" := "E:\Other" ]};
  platform := "win32";
  exec := fun _ fs => (true, fs);
|}.

Definition sdk_world : world :=
  {| files := {[ "D:\Sdk" := Dir; "C:\Users\dev\AppData\Local\Android\Sdk" := Dir;
                 "C:\app\android" := Dir ]};
     stdout := []; stderr := []; commands := [] |}.

Definition plugins : value :=
  VObj [("@capacitor/camera", VBool true); ("@capacitor/splash-screen", VBool false)].

Definition ledger_world : world :=
  with_file (PACKAGE_JSON ledger_host) "+@capacitor/splash-screen;+@capacitor/core;"
    empty_world.

(** A package listed with an empty version, and a plugin switched off. *)
Definition unversioned_plugins : value := VObj [("left-pad", VBool false)].

Definition unversioned_world : world :=
  with_file (PACKAGE_JSON ledger_host) "?left-pad;" empty_world.

(** A plugin named like a member every object inherits. *)
Definition inherited_plugins : value := VObj [("constructor", VBool true)].

Definition config_world : world :=
  with_file (APP_CONFIG json_host) app_text
    (with_file (CAP_CONFIG json_host) cap_text
       (with_file (PACKAGE_JSON json_host) package_text empty_world)).

End Sample.

(** ** What a computation hands to [execSync] *)

(** Every command a computation starts satisfies [P]; the commands
    started before it stay on record. *)
Definition emits (P : string -> Prop) {A} (m : M A) : Prop :=
  forall w, exists cmds, commands (snd (m w)) = commands w ++ cmds /\ Forall P cmds.

Definition no_command (cmd : string) : Prop := False.

(** A command of the package manager for one package. *)
Definition npm_command (cmd : string) : Prop :=
  exists package, cmd = "npm install " +:+ package \/ cmd = "npm uninstall " +:+ package.

(** ** More sample hosts *)

Module Cases.

(** The host of [Sample.json_host], on which one command fails, having
    left a log file behind. *)
Definition failure_log : string := "/app/npm-debug.log".

Definition failing_host (bad : string) : host := {|
  JSON_parse := JSON_parse Sample.json_host;
  JSON_render := Sample.print;
  path_sep := "/";
  path_join := join "/";
  utf8_decode := Sample.decode;
  project_root := "/app";
  env := ∅;
  platform := "linux";
  exec := fun cmd fs =>
    if String.eqb cmd bad then (false, <[failure_log := File bad]> fs) else (true, fs);
|}.

(** A project with its configuration files and a generated android
    directory. *)
Definition project_world : world :=
  Sample.with_file (MANIFEST Sample.json_host) Sample.manifest_text
    (set_files (<[ANDROID Sample.json_host := Dir]> (files Sample.config_world))
       Sample.config_world).

(** The sample project on a host where the android project cannot be
    generated, at the point where the web build has completed. *)
Definition generation_fails : host := failing_host "npx cap add android".

Definition after_build : world :=
  snd (step1_buildWeb generation_fails
         (snd ((let* plugins := member (of_json (JObj Sample.app_document)) "plugins" in
                step0_5_managePlugins generation_fails plugins)
                 (snd (step0_updateConfig generation_fails (started project_world)))))).

(** What step 0 writes for the sample documents, and a host whose
    [JSON.stringify] and [JSON.parse] agree on it. *)
Definition synced_document : Obj.t json :=
  Eval vm_compute in
    to_json_props (updated_capConfig (of_json_props Sample.app_document)
                     (of_json_props Sample.cap_document)).

Definition synced_text : string := Sample.print (JObj synced_document).

Definition sync_host : host := {|
  JSON_parse := fun s =>
    if String.eqb s synced_text then Some (JObj synced_document)
    else JSON_parse Sample.json_host s;
  JSON_render := Sample.print;
  path_sep := "/";
  path_join := join "/";
  utf8_decode := Sample.decode;
  project_root := "/app";
  env := ∅;
  platform := "linux";
  exec := fun _ fs => (true, fs);
|}.

(** A bridge configuration whose text gives [timeout] the numeral
    [1e400], which [JSON.parse] reads as an infinity; the document step 0
    writes for it; and a host that reads the two texts. *)
Definition overflow_document : Obj.t json :=
  [("appId", JStr "com.old.id"); ("webDir", JStr "dist");
   ("timeout", JNum (Infinite false))].

Definition overflow_written : Obj.t json :=
  [("appId", JStr "com.example.shop"); ("webDir", JStr "dist"); ("timeout", JNull);
   ("appName", JStr "Shop");
   ("server", JObj [("url", JStr "https://shop.example/"); ("cleartext", JBool true)])].

Definition overflow_host : host := {|
  JSON_parse := fun s =>
    if String.eqb s Sample.cap_text then Some (JObj overflow_document)
    else if String.eqb s (Sample.print (JObj overflow_written))
    then Some (JObj overflow_written)
    else JSON_parse Sample.json_host s;
  JSON_render := Sample.print;
  path_sep := "/";
  path_join := join "/";
  utf8_decode := Sample.decode;
  project_root := "/app";
  env := ∅;
  platform := "linux";
  exec := fun _ fs => (true, fs);
|}.

(** Hosts that read the bridge configuration as an array and as [null]. *)
Definition bridge_host (bridge : json) : host := {|
  JSON_parse := fun s =>
    if String.eqb s Sample.cap_text then Some bridge
    else JSON_parse Sample.json_host s;
  JSON_render := Sample.print;
  path_sep := "/";
  path_join := join "/";
  utf8_decode := Sample.decode;
  project_root := "/app";
  env := ∅;
  platform := "linux";
  exec := fun _ fs => (true, fs);
|}.

(** A Windows host on which no variable of step 4 is set. *)
Definition bare_windows_host : host := {|
  JSON_parse := fun _ => None;
  JSON_render := Sample.print;
  path_sep := "\";
  path_join := join "\";
  utf8_decode := Sample.decode;
  project_root := "C:\app";
  env := ∅;
  platform := "win32";
  exec := fun _ fs => (true, fs);
|}.

(** The SDK directory of [Sample.android_home_host] and the project
    directory, without an android directory in it. *)
Definition sdk_only_world : world :=
  {| files := {[ "D:\Sdk" := Dir; "C:\app" := Dir ]};
     stdout := []; stderr := []; commands := [] |}.

(** A manifest that declares no permission. *)
Definition bare_manifest : string := "<manifest>" +:+ nl +:+ "</manifest>" +:+ nl.

Definition bare_manifest_world : world :=
  Sample.with_file (MANIFEST Sample.quiet_host) bare_manifest Sample.empty_world.

(** Two permissions, the name of the second holding the declaration of
    the first up to its end. *)
Definition quoted_name : string := "a" +:+ dq +:+ " />b".

Definition quoted_permissions : value :=
  VObj [("a", VBool true); (quoted_name, VBool true)].

(** A manifest whose first byte is not valid UTF-8. *)
Definition broken_manifest : string :=
  String (ascii_of_nat 255) "<manifest></manifest>".

Definition broken_world : world :=
  set_files (<[MANIFEST Sample.quiet_host := Binary broken_manifest]> ∅) Sample.empty_world.

(** A manifest without the closing tag. *)
Definition open_manifest_world : world :=
  Sample.with_file (MANIFEST Sample.quiet_host) "<manifest>" Sample.empty_world.

(** An app configuration file that is not valid JSON for the host. *)
Definition bad_config_world : world :=
  Sample.with_file (APP_CONFIG Sample.quiet_host) "{ appId: " Sample.empty_world.

End Cases.

(** * Facts about strings *)

Section StringFacts.

#[local] Arguments String.append : simpl nomatch.

Lemma app_nil_r (s : string) : s +:+ "" = s.
Proof. induction s as [|c s IH]; simpl; [reflexivity | now rewrite IH]. Qed.

Lemma app_assoc (a b c : string) : (a +:+ b) +:+ c = a +:+ b +:+ c.
Proof. induction a as [|x a IH]; simpl; [reflexivity | now rewrite IH]. Qed.

Lemma length_app (a b : string) :
  String.length (a +:+ b) = (String.length a + String.length b)%nat.
Proof. induction a as [|x a IH]; simpl; [reflexivity | now rewrite IH]. Qed.

Lemma app_inj_r (a b t : string) : a +:+ t = b +:+ t -> a = b.
Proof.
  revert b. induction a as [|x a IH]; intros [|y b] E; simpl in E.
  - reflexivity.
  - apply (f_equal String.length) in E. simpl in E. rewrite length_app in E. lia.
  - apply (f_equal String.length) in E. simpl in E. rewrite length_app in E. lia.
  - injection E as -> E. f_equal. now apply IH.
Qed.

(** Two ways of cutting one string: one cut comes first. *)
Lemma app_eq_app (a b c d : string) :
  a +:+ b = c +:+ d ->
  (exists m, c = a +:+ m /\ b = m +:+ d) \/ (exists m, a = c +:+ m /\ d = m +:+ b).
Proof.
  revert c. induction a as [|x a IH]; intros c E; simpl in E.
  - left. exists c. now split.
  - destruct c as [|y c]; simpl in E.
    + right. exists (String x a). now split.
    + injection E as -> E. destruct (IH _ E) as [[m [-> ->]]|[m [-> ->]]].
      * left. exists m. now split.
      * right. exists m. now split.
Qed.

Lemma take_drop (n : nat) (s : string) : take n s +:+ drop n s = s.
Proof.
  revert s. induction n as [|n IH]; intros [|c s]; simpl; try reflexivity.
  now rewrite IH.
Qed.

Lemma length_take (n : nat) (s : string) :
  String.length (take n s) = Nat.min n (String.length s).
Proof.
  revert s. induction n as [|n IH]; intros [|c s]; simpl; try reflexivity.
  now rewrite IH.
Qed.

Lemma take_app_length (a b : string) : take (String.length a) (a +:+ b) = a.
Proof. induction a as [|x a IH]; simpl; [now destruct b | now rewrite IH]. Qed.

Lemma drop_app_length (a b : string) : drop (String.length a) (a +:+ b) = b.
Proof. induction a as [|x a IH]; simpl; [now destruct b | exact IH]. Qed.

Lemma startsWith_iff (s t : string) :
  startsWith s t = true <-> exists r, s = t +:+ r.
Proof.
  revert s. induction t as [|c t IH]; intros s; simpl.
  - split; [intros _; now exists s | reflexivity].
  - destruct s as [|d s].
    + split; [discriminate | intros [r E]; discriminate].
    + destruct (Ascii.eqb_spec c d) as [->|N].
      * rewrite IH. split; intros [r E]; exists r; [now rewrite E | now injection E].
      * split; [discriminate | intros [r E]; injection E as E1 _; congruence].
Qed.

Lemma startsWith_app (t r : string) : startsWith (t +:+ r) t = true.
Proof. apply startsWith_iff. now exists r. Qed.

Lemma includes_iff (s t : string) :
  includes s t = true <-> exists a b, s = a +:+ t +:+ b.
Proof.
  induction s as [|c s IH]; simpl.
  - rewrite orb_false_r, startsWith_iff. split.
    + intros [r E]. exists "", r. exact E.
    + intros [a [b E]]. destruct a; [now exists b | discriminate].
  - rewrite orb_true_iff, IH, startsWith_iff. split.
    + intros [[r E]|[a [b E]]].
      * exists "", r. exact E.
      * exists (String c a), b. simpl. now rewrite E.
    + intros [[|x a] [b E]]; simpl in E.
      * left. now exists b.
      * right. injection E as _ E. now exists a, b.
Qed.

Lemma includes_app (a t b : string) : includes (a +:+ t +:+ b) t = true.
Proof. apply includes_iff. now exists a, b. Qed.

Lemma includes_false_startsWith (s t : string) (k : nat) :
  includes s t = false -> startsWith (drop k s) t = false.
Proof.
  intros H. destruct (startsWith (drop k s) t) eqn:E; [|reflexivity].
  apply startsWith_iff in E as [r E].
  assert (includes s t = true); [|congruence].
  apply includes_iff. exists (take k s), r. now rewrite <- E, take_drop.
Qed.

(** [lastIndexOf] fails exactly when the text is not included. *)
Lemma lastIndexOf_from_none (s t : string) (pos : Z) :
  0 <= pos -> (lastIndexOf_from s t pos = -1 <-> includes s t = false).
Proof.
  revert pos. induction s as [|c s IH]; intros pos Hpos; simpl.
  - rewrite orb_false_r. destruct (startsWith "" t); split; (lia || congruence).
  - specialize (IH (pos + 1) ltac:(lia)).
    destruct (lastIndexOf_from s t (pos + 1) =? -1) eqn:E.
    + apply Z.eqb_eq in E. apply IH in E. rewrite E, orb_false_r.
      destruct (startsWith (String c s) t); split; (lia || congruence).
    + apply Z.eqb_neq in E. split; [contradiction|].
      intros F. apply orb_false_iff in F as [_ F]. now apply IH in F.
Qed.

(** Otherwise it is a position where the text starts, and the last one. *)
Lemma lastIndexOf_from_some (s t : string) (pos : Z) :
  0 <= pos -> lastIndexOf_from s t pos <> -1 ->
  exists k : nat,
    lastIndexOf_from s t pos = pos + Z.of_nat k /\
    (k <= String.length s)%nat /\
    startsWith (drop k s) t = true /\
    forall j : nat, (k < j <= String.length s)%nat -> startsWith (drop j s) t = false.
Proof.
  revert pos. induction s as [|c s IH]; intros pos Hpos; simpl.
  - destruct (startsWith "" t) eqn:E; [|congruence]. intros _.
    exists 0%nat. repeat split; [lia | lia | exact E |].
    intros j Hj; lia.
  - destruct (lastIndexOf_from s t (pos + 1) =? -1) eqn:E.
    + apply Z.eqb_eq in E. apply lastIndexOf_from_none in E; [|lia].
      destruct (startsWith (String c s) t) eqn:F; [|congruence]. intros _.
      exists 0%nat. repeat split; [lia | lia | exact F |].
      intros [|j] Hj; [lia|]. simpl. now apply includes_false_startsWith.
    + apply Z.eqb_neq in E. intros _.
      destruct (IH (pos + 1) ltac:(lia) E) as [k [Hk [Hlen [Hst Hlast]]]].
      exists (S k). repeat split; [lia | lia | exact Hst |].
      intros [|j] Hj; [lia|]. simpl. apply Hlast. lia.
Qed.

End StringFacts.

Section MoreStringFacts.

#[local] Arguments String.append : simpl nomatch.

Lemma drop_drop (n m : nat) (s : string) : drop (n + m) s = drop m (drop n s).
Proof.
  revert s. induction n as [|n IH]; intros s; simpl; [reflexivity|].
  destruct s as [|c s]; [now destruct m | apply IH].
Qed.

Lemma drop_app_ge (a b : string) (m : nat) :
  drop (String.length a + m) (a +:+ b) = drop m b.
Proof. now rewrite drop_drop, drop_app_length. Qed.

Lemma length_drop (n : nat) (s : string) :
  String.length (drop n s) = (String.length s - n)%nat.
Proof.
  revert s. induction n as [|n IH]; intros [|c s]; simpl; try reflexivity; try lia.
  apply IH.
Qed.

Lemma includes_of_startsWith (s t : string) (k : nat) :
  startsWith (drop k s) t = true -> includes s t = true.
Proof.
  intros H. destruct (includes s t) eqn:E; [reflexivity|].
  now rewrite (includes_false_startsWith s t k E) in H.
Qed.

(** A position where the text starts and after which it starts nowhere
    is what [lastIndexOf] returns. *)
Lemma lastIndexOf_unique (s t : string) (k : nat) :
  (k <= String.length s)%nat ->
  startsWith (drop k s) t = true ->
  (forall j : nat, (k < j <= String.length s)%nat -> startsWith (drop j s) t = false) ->
  lastIndexOf s t = Z.of_nat k.
Proof.
  intros Hk Hst Hlast. unfold lastIndexOf.
  destruct (Z.eq_dec (lastIndexOf_from s t 0) (-1)) as [E|E].
  - apply lastIndexOf_from_none in E; [|lia].
    now rewrite (includes_of_startsWith s t k Hst) in E.
  - destruct (lastIndexOf_from_some s t 0 ltac:(lia) E) as [k' [-> [Hk' [Hst' Hlast']]]].
    destruct (Nat.lt_trichotomy k' k) as [L|[->|L]]; [| reflexivity |].
    + rewrite Hlast' in Hst by lia. discriminate.
    + rewrite Hlast in Hst' by lia. discriminate.
Qed.

Lemma lastIndexOf_spec (s t : string) :
  includes s t = true ->
  exists k : nat,
    lastIndexOf s t = Z.of_nat k /\
    (k <= String.length s)%nat /\
    startsWith (drop k s) t = true /\
    forall j : nat, (k < j <= String.length s)%nat -> startsWith (drop j s) t = false.
Proof.
  intros H. unfold lastIndexOf.
  destruct (Z.eq_dec (lastIndexOf_from s t 0) (-1)) as [E|E].
  - apply lastIndexOf_from_none in E; [congruence | lia].
  - destruct (lastIndexOf_from_some s t 0 ltac:(lia) E) as [k [Hk R]].
    exists k. split; [rewrite Hk; lia | exact R].
Qed.

(** Text inserted just before the last occurrence leaves it the last. *)
Lemma lastIndexOf_insert (s t block : string) (k : nat) :
  (k <= String.length s)%nat ->
  startsWith (drop k s) t = true ->
  (forall j : nat, (k < j <= String.length s)%nat -> startsWith (drop j s) t = false) ->
  lastIndexOf (take k s +:+ block +:+ drop k s) t
  = Z.of_nat (k + String.length block).
Proof.
  intros Hk Hst Hlast.
  assert (Lp : String.length (take k s) = k) by (rewrite length_take; lia).
  assert (D : forall m, drop (k + String.length block + m) (take k s +:+ block +:+ drop k s)
                        = drop (k + m) s).
  { intros m. rewrite <- (Nat.add_assoc k), <- Lp at 1.
    rewrite drop_app_ge, drop_app_ge. now rewrite drop_drop. }
  apply lastIndexOf_unique.
  - rewrite !length_app, Lp, length_drop. lia.
  - specialize (D 0%nat). rewrite !Nat.add_0_r in D. now rewrite D.
  - intros j Hj. rewrite !length_app, Lp, length_drop in Hj.
    replace j with (k + String.length block + (j - k - String.length block))%nat by lia.
    rewrite D. apply Hlast. lia.
Qed.

Lemma clamp_of_nat (s : string) (k : nat) :
  (k <= String.length s)%nat -> clamp s (Z.of_nat k) = k.
Proof. intros H. unfold clamp. lia. Qed.

Lemma substring2_take (s : string) (k : nat) :
  (k <= String.length s)%nat -> substring2 s 0 (Z.of_nat k) = take k s.
Proof.
  intros H. unfold substring2. rewrite (clamp_of_nat s k H).
  replace (clamp s 0) with 0%nat by (unfold clamp; lia).
  now rewrite Nat.min_0_l, Nat.max_0_l, Nat.sub_0_r.
Qed.

Lemma substring1_drop (s : string) (k : nat) :
  (k <= String.length s)%nat -> substring1 s (Z.of_nat k) = drop k s.
Proof. intros H. unfold substring1. now rewrite clamp_of_nat. Qed.

End MoreStringFacts.

(** * Permission injection *)

Section Injection.

#[local] Arguments String.append : simpl nomatch.
#[local] Arguments lastIndexOf : simpl never.
#[local] Arguments toInject : simpl never.
#[local] Arguments inject : simpl never.
#[local] Arguments MANIFEST : simpl never.

Variable h : host.

Lemma join_tag_lines (t : string) (r : list string) :
  nl +:+ "    " +:+ join (nl +:+ "    ") (t :: r) = tag_lines (t :: r).
Proof.
  revert t. induction r as [|u r IH]; intros t.
  - simpl. now rewrite app_nil_r.
  - change (join (nl +:+ "    ") (t :: u :: r))
      with (t +:+ (nl +:+ "    ") +:+ join (nl +:+ "    ") (u :: r)).
    change (tag_lines (t :: u :: r)) with (nl +:+ "    " +:+ t +:+ tag_lines (u :: r)).
    rewrite <- IH. now rewrite !app_assoc.
Qed.

(** What the script writes is the manifest with the block of tag lines
    put in at the cut. *)
Lemma inject_block (content : string) (k : nat) (tags : list string) :
  (k <= String.length content)%nat -> tags <> [] ->
  inject content (Z.of_nat k) tags
  = take k content +:+ injected_block tags +:+ drop k content.
Proof.
  intros Hk Hne. unfold inject. rewrite substring2_take, substring1_drop by exact Hk.
  destruct tags as [|t r]; [congruence|].
  unfold injected_block. rewrite <- join_tag_lines.
  f_equal. now rewrite !app_assoc.
Qed.

Lemma permission_tag_inj (a b : string) :
  permission_tag a = permission_tag b -> a = b.
Proof.
  unfold permission_tag. intros E.
  apply String.app_inj in E. apply String.app_inj in E.
  now apply app_inj_r in E.
Qed.

Lemma toInject_tags (content : string) (permissions : value) (t : string) :
  In t (toInject content permissions) -> exists name, t = permission_tag name.
Proof.
  unfold toInject. intros H. apply List.filter_In in H as [H _].
  apply List.in_map_iff in H as [e [<- _]]. now exists (fst e).
Qed.

Lemma toInject_iff (content : string) (permissions : value) (name : string) :
  In (permission_tag name) (toInject content permissions) <->
  enabled permissions name /\ includes content (permission_tag name) = false.
Proof.
  unfold toInject, enabled, permission_entries.
  rewrite List.filter_In, List.in_map_iff, negb_true_iff. split.
  - intros [[[n v] [E H]] Hinc]. simpl in E. apply permission_tag_inj in E. subst n.
    apply List.filter_In in H as [H T]. split; [now exists v | exact Hinc].
  - intros [[v [H T]] Hinc]. split; [|exact Hinc].
    exists (name, v). split; [reflexivity|]. now apply List.filter_In.
Qed.

Lemma NoDup_filter {A} (f : A -> bool) (l : list A) :
  List.NoDup l -> List.NoDup (List.filter f l).
Proof.
  induction 1 as [|x l Hx Hl IH]; simpl; [constructor|].
  destruct (f x); [|exact IH]. constructor; [|exact IH].
  intros H. apply List.filter_In in H. tauto.
Qed.

Lemma NoDup_map_fst_filter {A} (f : string * A -> bool) (l : list (string * A)) :
  List.NoDup (map fst l) -> List.NoDup (map fst (List.filter f l)).
Proof.
  induction l as [|x l IH]; simpl; [constructor|].
  intros H. inversion H as [|? ? Hx Hl]; subst.
  destruct (f x); simpl; [|now apply IH]. constructor; [|now apply IH].
  intros Hin. apply Hx. apply List.in_map_iff in Hin as [y [E Hy]].
  apply List.filter_In in Hy as [Hy _]. apply List.in_map_iff. now exists y.
Qed.

(** One tag per property: distinct names give distinct tags. *)
Lemma toInject_NoDup (content : string) (permissions : value) :
  List.NoDup (map fst (permission_entries permissions)) ->
  List.NoDup (toInject content permissions).
Proof.
  intros H. unfold toInject. apply NoDup_filter.
  fold (permission_entries permissions).
  apply (NoDup_map_fst_filter (fun e => truthy (snd e))) in H.
  induction (List.filter (fun e => truthy (snd e)) (permission_entries permissions))
    as [|e l IH]; simpl; [constructor|].
  simpl in H. inversion H as [|? ? Hx Hl]; subst.
  constructor; [|now apply IH].
  intros Hin. apply Hx. apply List.in_map_iff in Hin as [y [E Hy]].
  apply permission_tag_inj in E. apply List.in_map_iff. now exists y.
Qed.

(** The step on a manifest in which the closing tag was found: it
    returns, and writes the manifest only when there is a tag to add. *)
Lemma step5_found (permissions : value) (w : world) (content : string) (k : nat) :
  files w !! MANIFEST h = Some (File content) ->
  lastIndexOf content closingTag = Z.of_nat k ->
  fst (step5_injectPermissions h permissions w) = Ok tt /\
  files (snd (step5_injectPermissions h permissions w))
  = match toInject content permissions with
    | [] => files w
    | tags => <[MANIFEST h := File (inject content (Z.of_nat k) tags)]> (files w)
    end.
Proof.
  intros Hm Hk.
  unfold step5_injectPermissions, bind, mbind, M_bind, log, error, print, eprint,
    existsSync, readFileSync, writeFileSync.
  simpl. rewrite Hm. rewrite bool_decide_eq_true_2 by eauto. simpl.
  rewrite Hm. simpl. rewrite Hk. replace (Z.of_nat k =? -1) with false by (symmetry; apply Z.eqb_neq; lia).
  destruct (toInject content permissions) as [|t r] eqn:E; simpl; [now split|].
  replace (0 <? Z.pos (Pos.of_succ_nat (List.length r))) with true
    by (symmetry; apply Z.ltb_lt; lia).
  simpl. rewrite Hm. now split.
Qed.

End Injection.

Section InjectionSpec.

#[local] Arguments String.append : simpl nomatch.
#[local] Arguments lastIndexOf : simpl never.
#[local] Arguments MANIFEST : simpl never.

Lemma occurs_in_iff (t s : string) : occurs_in t s <-> includes s t = true.
Proof. unfold occurs_in. symmetry. apply includes_iff. Qed.

Lemma declaration_lines_tag_lines (names : list string) :
  tag_lines (map permission_tag names) = declaration_lines names.
Proof. induction names as [|n r IH]; simpl; [reflexivity | now rewrite IH]. Qed.

Lemma inserted_text_block (names : list string) :
  injected_block (map permission_tag names) = inserted_text names.
Proof.
  destruct names as [|n r]; [reflexivity|].
  change (injected_block (map permission_tag (n :: r)))
    with (nl +:+ "    <!-- Auto-injected permissions -->"
          +:+ tag_lines (map permission_tag (n :: r)) +:+ nl).
  now rewrite declaration_lines_tag_lines.
Qed.

Lemma entries_of_mapping (permissions : value) (props : list (string * value)) :
  mapping permissions = Some props -> permission_entries permissions = props.
Proof.
  destruct permissions; simpl; intros E; try discriminate; now injection E as <-.
Qed.

(** The tags the step injects are the declarations of [to_declare]. *)
Lemma toInject_to_declare (content : string) (permissions : value)
    (props : list (string * value)) :
  mapping permissions = Some props ->
  toInject content permissions = map permission_tag (to_declare content props).
Proof.
  intros Hmap. unfold toInject, to_declare.
  fold (permission_entries permissions). rewrite (entries_of_mapping _ _ Hmap).
  clear Hmap. induction props as [|[n v] props IH]; [reflexivity|].
  cbn [List.filter fst snd]. destruct (truthy v); cbn [andb map List.filter fst];
    [|exact IH].
  change (includes content (declaration n)) with (includes content (permission_tag n)).
  destruct (includes content (permission_tag n)); cbn [negb map fst]; now rewrite IH.
Qed.

Lemma in_to_declare (content : string) (props : list (string * value)) (n : string) :
  In n (to_declare content props) <->
  (exists v, In (n, v) props /\ truthy v = true) /\ ~ occurs_in (declaration n) content.
Proof.
  unfold to_declare. rewrite List.in_map_iff. split.
  - intros [[n' v] [E H]]. simpl in E. subst n'.
    apply List.filter_In in H as [H K]. simpl in K.
    apply andb_true_iff in K as [T I]. apply negb_true_iff in I.
    split; [now exists v|]. rewrite occurs_in_iff. congruence.
  - intros [[v [H T]] I]. exists (n, v). split; [reflexivity|].
    apply List.filter_In. split; [exact H|]. simpl. rewrite T. simpl.
    apply negb_true_iff. rewrite occurs_in_iff in I. now destruct (includes content _).
Qed.

Lemma NoDup_to_declare (content : string) (props : list (string * value)) :
  List.NoDup (map fst props) -> List.NoDup (to_declare content props).
Proof. apply NoDup_map_fst_filter. Qed.

(** The step on a manifest with the closing tag, for a mapping: where
    the manifest is cut and what is written. *)
Lemma step5_on_mapping (h : host) (w : world) (content : string)
    (permissions : value) (props : list (string * value)) :
  files w !! MANIFEST h = Some (File content) ->
  includes content closingTag = true ->
  mapping permissions = Some props ->
  exists k : nat,
    (k <= String.length content)%nat /\
    startsWith (drop k content) closingTag = true /\
    (forall j : nat, (k < j <= String.length content)%nat ->
                     startsWith (drop j content) closingTag = false) /\
    fst (step5_injectPermissions h permissions w) = Ok tt /\
    files (snd (step5_injectPermissions h permissions w))
    = <[MANIFEST h := File (take k content +:+ inserted_text (to_declare content props)
                            +:+ drop k content)]> (files w).
Proof.
  intros Hm Hinc Hmap.
  destruct (lastIndexOf_spec content closingTag Hinc) as [k [Hk [Hlen [Hst Hlast]]]].
  destruct (step5_found h permissions w content k Hm Hk) as [Hret Hfiles].
  exists k. split; [exact Hlen|]. split; [exact Hst|]. split; [exact Hlast|].
  split; [exact Hret|]. rewrite Hfiles, (toInject_to_declare _ _ _ Hmap).
  destruct (to_declare content props) as [|n r] eqn:E.
  - simpl. rewrite take_drop. symmetry. now apply insert_id.
  - cbn [map]. rewrite inject_block by (exact Hlen || discriminate).
    change (permission_tag n :: map permission_tag r) with (map permission_tag (n :: r)).
    now rewrite inserted_text_block.
Qed.

End InjectionSpec.

(** C1, as the code has it. On a manifest that is valid UTF-8 and
    contains the closing tag, with the permissions of a flag mapping,
    the injection step returns and leaves the manifest with a text put
    in right before the last [</manifest>]: what is before that closing
    tag and what is from it on are as they were. The text put in is a
    line break, the comment line, then one line
    [<uses-permission android:name="NAME" />], indented by four spaces,
    for each permission of the mapping whose flag is truthy and whose
    declaration does not occur in the manifest, in the order of the
    mapping and each once, and a line break; it is empty when there is no
    such permission. *)
Theorem step5_injects_before_closing_tag
    (h : host) (w : world) (content : string) (permissions : value)
    (props : list (string * value)) :
  files w !! MANIFEST h = Some (File content) ->
  occurs_in "</manifest>" content ->
  mapping permissions = Some props ->
  List.NoDup (map fst props) ->
  exists (before rest : string) (names : list string),
    content = before +:+ "</manifest>" +:+ rest /\
    (forall a b, "</manifest>" +:+ rest = a +:+ "</manifest>" +:+ b -> a = "") /\
    names = to_declare content props /\
    (forall n, In n names <->
               (exists v, In (n, v) props /\ truthy v = true) /\
               ~ occurs_in (declaration n) content) /\
    List.NoDup names /\
    fst (step5_injectPermissions h permissions w) = Ok tt /\
    files (snd (step5_injectPermissions h permissions w))
    = <[MANIFEST h := File (before +:+ inserted_text names +:+ "</manifest>" +:+ rest)]>
        (files w).
Proof.
  intros Hm Hocc Hmap Hnd.
  apply occurs_in_iff in Hocc.
  destruct (step5_on_mapping h w content permissions props Hm Hocc Hmap)
    as [k [Hlen [Hst [Hlast [Hret Hfiles]]]]].
  apply startsWith_iff in Hst as [rest Hrest].
  exists (take k content), rest, (to_declare content props).
  split; [|split; [|split; [reflexivity|split; [|split; [|split]]]]].
  - change ("</manifest>" +:+ rest) with (closingTag +:+ rest).
    rewrite <- Hrest. symmetry. apply take_drop.
  - intros a b E. destruct a as [|c a]; [reflexivity|]. exfalso.
    assert (La : (k + String.length (String c a) <= String.length content)%nat).
    { rewrite <- (take_drop k content). rewrite length_app, length_take, Hrest.
      change (closingTag +:+ rest) with ("</manifest>" +:+ rest). rewrite E.
      rewrite length_app. lia. }
    assert (S : startsWith (drop (k + String.length (String c a)) content) closingTag
                = true).
    { rewrite drop_drop, Hrest.
      change (closingTag +:+ rest) with ("</manifest>" +:+ rest). rewrite E.
      rewrite drop_app_length. apply startsWith_app. }
    rewrite Hlast in S; [discriminate|]. simpl in *. lia.
  - apply in_to_declare.
  - now apply NoDup_to_declare.
  - exact Hret.
  - rewrite Hfiles. change ("</manifest>" +:+ rest) with (closingTag +:+ rest).
    now rewrite <- Hrest.
Qed.

Lemma step5_injects_before_closing_tag_witness :
  exists (before rest : string) (names : list string),
    Sample.manifest_text = before +:+ "</manifest>" +:+ rest /\
    (forall a b, "</manifest>" +:+ rest = a +:+ "</manifest>" +:+ b -> a = "") /\
    names = ["android.permission.CAMERA"] /\
    (forall n, In n names <->
               (exists v, In (n, v)
                            [("android.permission.INTERNET", VBool true);
                             ("android.permission.CAMERA", VBool true);
                             ("android.permission.NFC", VBool false)] /\
                          truthy v = true) /\
               ~ occurs_in (declaration n) Sample.manifest_text) /\
    List.NoDup names /\
    fst (step5_injectPermissions Sample.quiet_host Sample.permissions Sample.manifest_world)
    = Ok tt /\
    files (snd (step5_injectPermissions Sample.quiet_host Sample.permissions
                  Sample.manifest_world))
    = <[MANIFEST Sample.quiet_host :=
          File (before +:+ inserted_text names +:+ "</manifest>" +:+ rest)]>
        (files Sample.manifest_world).
Proof.
  apply (step5_injects_before_closing_tag
           Sample.quiet_host Sample.manifest_world Sample.manifest_text Sample.permissions
           [("android.permission.INTERNET", VBool true);
            ("android.permission.CAMERA", VBool true);
            ("android.permission.NFC", VBool false)]).
  - vm_compute. reflexivity.
  - exists ("<manifest>" +:+ nl +:+ "    " +:+ declaration Sample.internet +:+ nl), nl.
    reflexivity.
  - reflexivity.
  - repeat constructor; simpl; intuition discriminate.
Defined.

(** The sample decoder keeps a well-formed text, here with a letter of
    two bytes and one of three, and replaces a byte that cannot occur, a
    sequence cut short and an overlong one. *)
Example decode_samples :
  Sample.decode ("<a>" +:+ Sample.byte 195 +:+ Sample.byte 169 +:+ Sample.byte 226
                 +:+ Sample.byte 130 +:+ Sample.byte 172 +:+ "</a>")
  = "<a>" +:+ Sample.byte 195 +:+ Sample.byte 169 +:+ Sample.byte 226
    +:+ Sample.byte 130 +:+ Sample.byte 172 +:+ "</a>" /\
  Sample.decode (Sample.byte 255 +:+ "x") = Sample.replacement +:+ "x" /\
  Sample.decode (Sample.byte 226 +:+ Sample.byte 130 +:+ "x")
  = Sample.replacement +:+ "x" /\
  Sample.decode (Sample.byte 192 +:+ Sample.byte 128)
  = Sample.replacement +:+ Sample.replacement.
Proof. repeat split; vm_compute; reflexivity. Qed.

(** C1, as stated, fails: a manifest whose bytes are not valid UTF-8 is
    read with every invalid byte replaced, and written back that way, so
    the bytes before the closing tag are not as they were. Here the
    manifest starts with the byte 255. *)
Lemma step5_rewrites_invalid_bytes :
  files Cases.broken_world !! MANIFEST Sample.quiet_host
    = Some (Binary Cases.broken_manifest) /\
  occurs_in "</manifest>" Cases.broken_manifest /\
  exists written : string,
    files (snd (step5_injectPermissions Sample.quiet_host
                  (VObj [("android.permission.INTERNET", VBool true)])
                  Cases.broken_world)) !! MANIFEST Sample.quiet_host
    = Some (File written) /\
    ~ exists before rest inserted : string,
        Cases.broken_manifest = before +:+ "</manifest>" +:+ rest /\
        written = before +:+ inserted +:+ "</manifest>" +:+ rest.
Proof.
  split; [vm_compute; reflexivity|].
  split; [exists (String (ascii_of_nat 255) "<manifest>"), ""; reflexivity|].
  eexists. split; [vm_compute; reflexivity|].
  intros [before [rest [inserted [E1 E2]]]].
  destruct before as [|c before]; [discriminate E1|].
  injection E1 as Ec _. injection E2 as Ec' _. rewrite <- Ec in Ec'.
  vm_compute in Ec'. discriminate.
Qed.

Example step5_sample_manifest :
  files (snd (step5_injectPermissions Sample.quiet_host Sample.permissions
                Sample.manifest_world)) !! MANIFEST Sample.quiet_host
  = Some (File ("<manifest>" +:+ nl +:+
                "    " +:+ permission_tag Sample.internet +:+ nl +:+
                nl +:+ "    <!-- Auto-injected permissions -->" +:+ nl +:+
                "    " +:+ permission_tag Sample.camera +:+ nl +:+
                "</manifest>" +:+ nl)).
Proof. vm_compute. reflexivity. Qed.

Section NoWrite.

#[local] Arguments lastIndexOf : simpl never.
#[local] Arguments toInject : simpl never.
#[local] Arguments inject : simpl never.
#[local] Arguments MANIFEST : simpl never.

Lemma toInject_undefined (content : string) : toInject content VUndefined = [].
Proof. reflexivity. Qed.

(** Without a tag to inject the step writes nothing, and it returns
    unless the manifest path is a directory. *)
Lemma step5_files_unchanged (h : host) (w : world) (permissions : value) :
  (forall n content, files w !! MANIFEST h = Some n -> text_of h n = Some content ->
                     toInject content permissions = []) ->
  files (snd (step5_injectPermissions h permissions w)) = files w /\
  (files w !! MANIFEST h <> Some Dir ->
   fst (step5_injectPermissions h permissions w) = Ok tt).
Proof.
  intros E.
  unfold step5_injectPermissions, bind, mbind, M_bind, log, error, print, eprint,
    existsSync, readFileSync, writeFileSync.
  simpl. destruct (files w !! MANIFEST h) as [[|content|bytes]|] eqn:Hm.
  - rewrite bool_decide_eq_true_2 by eauto. simpl. rewrite Hm. simpl.
    split; [reflexivity | congruence].
  - rewrite bool_decide_eq_true_2 by eauto. simpl. rewrite Hm. simpl.
    destruct (lastIndexOf content closingTag =? -1); simpl; [now split|].
    rewrite (E _ content eq_refl eq_refl). simpl. now split.
  - rewrite bool_decide_eq_true_2 by eauto. simpl. rewrite Hm. simpl.
    destruct (lastIndexOf (utf8_decode h bytes) closingTag =? -1); simpl; [now split|].
    rewrite (E _ (utf8_decode h bytes) eq_refl eq_refl). simpl. now split.
  - rewrite bool_decide_eq_false_2 by (intros [x Hx]; discriminate). simpl. now split.
Qed.

(** C10. When the permissions mapping is [undefined], or when no enabled
    permission's tag is missing from the text of the manifest, the
    injection step writes nothing: the file system after the step is the
    one before it. The step then returns normally (reading the manifest
    is the only thing that can fail, when the path is a directory). *)
Theorem step5_nothing_to_inject_no_write
    (h : host) (w : world) (permissions : value) :
  permissions = VUndefined \/
  (forall n content, files w !! MANIFEST h = Some n -> text_of h n = Some content ->
                     toInject content permissions = []) ->
  files (snd (step5_injectPermissions h permissions w)) = files w /\
  (files w !! MANIFEST h <> Some Dir ->
   fst (step5_injectPermissions h permissions w) = Ok tt).
Proof.
  intros H. apply step5_files_unchanged.
  destruct H as [->|H]; [intros; apply toInject_undefined | exact H].
Qed.

End NoWrite.

Lemma step5_nothing_to_inject_no_write_witness :
  files (snd (step5_injectPermissions Sample.quiet_host Sample.granted
                Sample.manifest_world))
  = files Sample.manifest_world /\
  (files Sample.manifest_world !! MANIFEST Sample.quiet_host <> Some Dir ->
   fst (step5_injectPermissions Sample.quiet_host Sample.granted Sample.manifest_world)
   = Ok tt).
Proof.
  apply (step5_nothing_to_inject_no_write
           Sample.quiet_host Sample.manifest_world Sample.granted).
  right. intros n content H T. vm_compute in H. injection H as <-.
  injection T as <-. vm_compute. reflexivity.
Defined.

(** * Running the injection step again *)

Section Rerun.

#[local] Arguments String.append : simpl nomatch.
#[local] Arguments lastIndexOf : simpl never.
#[local] Arguments toInject : simpl never.
#[local] Arguments inject : simpl never.
#[local] Arguments MANIFEST : simpl never.

Lemma mem_char_app (c : ascii) (a b : string) :
  mem_char c (a +:+ b) = mem_char c a || mem_char c b.
Proof.
  induction a as [|x a IH]; simpl; [reflexivity|]. now rewrite IH, orb_assoc.
Qed.

(** A tag has no [<] after its first character unless the name has one. *)
Lemma permission_tag_shape (name : string) :
  exists rest, permission_tag name = String "<" rest /\
               mem_char "<" rest = mem_char "<" name.
Proof.
  exists ("uses-permission android:name=" +:+ dq +:+ name +:+ dq +:+ " />").
  split; [reflexivity|].
  rewrite !mem_char_app. unfold dq. simpl. now rewrite orb_false_r.
Qed.

Lemma includes_in_left (p t r : string) :
  includes p t = true -> includes (p +:+ r) t = true.
Proof.
  intros H. apply includes_iff in H as [x [y ->]]. apply includes_iff.
  exists x, (y +:+ r). now rewrite !app_assoc.
Qed.

Lemma includes_in_right (l q t : string) :
  includes q t = true -> includes (l +:+ q) t = true.
Proof.
  intros H. apply includes_iff in H as [x [y ->]]. apply includes_iff.
  exists (l +:+ x), y. now rewrite !app_assoc.
Qed.

(** Text put in front of a [<] cannot break an occurrence of a text whose
    only [<] is its first character. *)
Lemma includes_insert (s block rest : string) (k : nat) :
  mem_char "<" rest = false ->
  startsWith (drop k s) "<" = true ->
  includes s (String "<" rest) = true ->
  includes (take k s +:+ block +:+ drop k s) (String "<" rest) = true.
Proof.
  intros Hrest Hq Hinc.
  apply includes_iff in Hinc as [a [b E]].
  rewrite <- (take_drop k s) in E at 1.
  apply app_eq_app in E as [[m [Ea Eq]]|[m [Ep E]]].
  - (* the occurrence starts at or after the cut *)
    apply includes_in_right, includes_in_right. rewrite Eq. apply includes_app.
  - apply app_eq_app in E as [[m' [Em Eb]]|[m' [Et Eq]]].
    + (* the occurrence ends before the cut *)
      apply includes_in_left. rewrite Ep, Em. apply includes_app.
    + destruct m as [|d m].
      * (* the occurrence starts at the cut *)
        simpl in Et. subst m'.
        apply includes_in_right, includes_in_right. rewrite Eq.
        apply includes_iff. now exists "", b.
      * destruct m' as [|c m'].
        -- (* the occurrence ends at the cut *)
           rewrite app_nil_r in Et. apply includes_in_left. rewrite Ep, <- Et.
           apply includes_iff. exists a, "". now rewrite app_nil_r.
        -- (* the cut falls inside the occurrence: its character there is [<] *)
           exfalso. apply startsWith_iff in Hq as [r Hr]. rewrite Eq in Hr.
           simpl in Hr. injection Hr as -> _.
           simpl in Et. injection Et as _ Et. rewrite Et, mem_char_app in Hrest.
           simpl in Hrest. rewrite orb_true_r in Hrest. discriminate.
Qed.

Lemma includes_tag_lines (tags : list string) (t : string) :
  In t tags -> includes (tag_lines tags) t = true.
Proof.
  induction tags as [|u tags IH]; intros H; [contradiction|].
  change (tag_lines (u :: tags)) with (nl +:+ "    " +:+ u +:+ tag_lines tags).
  destruct H as [->|H].
  - apply includes_iff. exists (nl +:+ "    "), (tag_lines tags). now rewrite !app_assoc.
  - rewrite <- !app_assoc. now apply includes_in_right, IH.
Qed.

Lemma includes_injected_block (tags : list string) (t : string) :
  In t tags -> includes (injected_block tags) t = true.
Proof.
  intros H. destruct tags as [|u tags]; [contradiction|]. unfold injected_block.
  rewrite <- !app_assoc. apply includes_in_left, includes_in_right.
  now apply includes_tag_lines.
Qed.

Lemma toInject_nil (content : string) (permissions : value) :
  (forall name, enabled permissions name ->
                includes content (permission_tag name) = true) ->
  toInject content permissions = [].
Proof.
  intros H. destruct (toInject content permissions) as [|t r] eqn:E; [reflexivity|].
  assert (Hin : In t (toInject content permissions)) by (rewrite E; now left).
  destruct (toInject_tags _ _ _ Hin) as [name ->].
  apply toInject_iff in Hin as [He Hn]. rewrite (H name He) in Hn. discriminate.
Qed.

End Rerun.

(** * Counting declarations *)

Section Counting.

#[local] Arguments String.append : simpl nomatch.

Lemma occurrences_zero (s t : string) : includes s t = false -> occurrences s t = 0%nat.
Proof.
  induction s as [|c s IH]; simpl; intros H; apply orb_false_iff in H as [H1 H2].
  - now rewrite H1.
  - now rewrite H1, IH.
Qed.

Lemma occurrences_pos (s t : string) : includes s t = true -> (1 <= occurrences s t)%nat.
Proof.
  induction s as [|c s IH]; simpl; intros H.
  - rewrite orb_false_r in H. rewrite H. lia.
  - destruct (startsWith (String c s) t); [lia|]. simpl in H. specialize (IH H). lia.
Qed.

Lemma includes_of_occurrences (s t : string) :
  (1 <= occurrences s t)%nat -> includes s t = true.
Proof.
  intros H. destruct (includes s t) eqn:E; [reflexivity|].
  rewrite (occurrences_zero s t E) in H. lia.
Qed.

Lemma includes_without_char (c : ascii) (s r : string) :
  mem_char c s = false -> includes s (String c r) = false.
Proof.
  induction s as [|d s IH]; intros H; [reflexivity|].
  simpl in H. apply orb_false_iff in H as [H1 H2].
  change (includes (String d s) (String c r))
    with ((if Ascii.eqb c d then startsWith s r else false) || includes s (String c r)).
  now rewrite H1, IH.
Qed.

Lemma startsWith_app_l (y b t : string) :
  startsWith y t = true -> startsWith (y +:+ b) t = true.
Proof.
  intros H. apply startsWith_iff in H as [r ->]. apply startsWith_iff.
  exists (r +:+ b). now rewrite app_assoc.
Qed.

(** A text that starts in [y] and ends in [b]. *)
Lemma straddle (y b t : string) :
  startsWith (y +:+ b) t = true -> startsWith y t = false ->
  exists z z', z <> "" /\ t = y +:+ z /\ b = z +:+ z'.
Proof.
  intros H N. apply startsWith_iff in H as [r E].
  apply app_eq_app in E as [[m [Et Eb]]|[m [Ey Er]]].
  - exists m, r. split; [|now split]. intros ->. rewrite app_nil_r in Et. subst t.
    rewrite (proj2 (startsWith_iff y y)) in N; [discriminate|]. exists "".
    now rewrite app_nil_r.
  - rewrite Ey in N. now rewrite startsWith_app in N.
Qed.

Lemma occurrences_app (a b t : string) :
  t <> "" ->
  (forall x y, a = x +:+ y -> y <> "" -> startsWith (y +:+ b) t = startsWith y t) ->
  occurrences (a +:+ b) t = (occurrences a t + occurrences b t)%nat.
Proof.
  intros Ht. induction a as [|c a IH]; intros H.
  - destruct t; [congruence | reflexivity].
  - change (String c a +:+ b) with (String c (a +:+ b)).
    cbn [occurrences].
    change (String c (a +:+ b)) with (String c a +:+ b).
    rewrite (H "" (String c a) eq_refl) by discriminate.
    rewrite IH; [lia|]. intros x y E Hy. apply (H (String c x) y); [|exact Hy].
    now rewrite E.
Qed.

(** A text like a declaration: it starts with [<], has no other [<],
    and ends with [>]. What may follow a cut: blanks, then nothing or a
    [<]. Such a text does not start before such a cut and end after it. *)
Definition tag_like (t : string) : Prop :=
  exists rest body, t = String "<" rest /\ mem_char "<" rest = false /\ t = body +:+ ">".

Definition gap (b : string) : Prop :=
  exists blanks r, b = blanks +:+ r /\ mem_char ">" blanks = false /\
                   (r = "" \/ startsWith r "<" = true).

Lemma mem_char_last (c : ascii) (y z body : string) :
  y +:+ z = body +:+ String c "" -> z <> "" -> mem_char c z = true.
Proof.
  intros E Hz. apply app_eq_app in E as [[m [Eb Ez]]|[m [Ey Ec]]].
  - rewrite Ez, mem_char_app. simpl. rewrite Ascii.eqb_refl. apply orb_true_r.
  - destruct m as [|d m].
    + simpl in Ec. rewrite <- Ec. simpl. now rewrite Ascii.eqb_refl.
    + destruct m; [|discriminate Ec]. simpl in Ec.
      injection Ec as _ Ec. destruct z; [congruence | discriminate].
Qed.

Lemma no_straddle (t b y : string) :
  tag_like t -> gap b -> y <> "" -> startsWith (y +:+ b) t = startsWith y t.
Proof.
  intros [rest [body [Et [Hrest Eb]]]] [blanks [r [Eg [Hblanks Hr]]]] Hy.
  destruct (startsWith y t) eqn:N; [now apply startsWith_app_l|].
  destruct (startsWith (y +:+ b) t) eqn:S; [exfalso|reflexivity].
  destruct (straddle y b t S N) as [z [z' [Hz [Etz Ebz]]]].
  assert (Hgt : mem_char ">" z = true).
  { apply (mem_char_last ">" y z body); [|exact Hz]. now rewrite <- Etz. }
  assert (Hlt : mem_char "<" z = false).
  { destruct y as [|d y]; [congruence|]. rewrite Et in Etz.
    change (String d y +:+ z) with (String d (y +:+ z)) in Etz.
    injection Etz as _ Er. rewrite Er, mem_char_app in Hrest.
    now apply orb_false_iff in Hrest as [_ Hrest]. }
  rewrite Eg in Ebz. symmetry in Ebz.
  apply app_eq_app in Ebz as [[m [E1 E2]]|[m [E1 E2]]].
  - rewrite E1, mem_char_app, Hgt in Hblanks. discriminate.
  - rewrite E1, mem_char_app, Hblanks in Hgt. simpl in Hgt.
    rewrite E1, mem_char_app in Hlt. apply orb_false_iff in Hlt as [_ Hlt].
    destruct m as [|d m]; [discriminate Hgt|].
    destruct Hr as [->|Hr]; [discriminate E2|].
    rewrite E2 in Hr. change (String d m +:+ z') with (String d (m +:+ z')) in Hr.
    cbn [startsWith] in Hr. cbn [mem_char] in Hlt.
    destruct (Ascii.eqb "<" d); discriminate.
Qed.

Lemma occurrences_app_tag (a b t : string) :
  tag_like t -> gap b ->
  occurrences (a +:+ b) t = (occurrences a t + occurrences b t)%nat.
Proof.
  intros Ht Hb. apply occurrences_app.
  - destruct Ht as [rest [_ [-> _]]]. discriminate.
  - intros x y _ Hy. now apply no_straddle.
Qed.

Lemma gap_tag (r : string) : startsWith r "<" = true -> gap r.
Proof. intros H. exists "", r. split; [reflexivity|]. split; [reflexivity | now right]. Qed.

Lemma gap_blanks (blanks r : string) :
  mem_char ">" blanks = false -> startsWith r "<" = true -> gap (blanks +:+ r).
Proof. intros Hb Hr. exists blanks, r. split; [reflexivity|]. split; [exact Hb | now right]. Qed.

Lemma declaration_tag_like (m : string) : mem_char "<" m = false -> tag_like (declaration m).
Proof.
  intros H.
  exists ("uses-permission android:name=" +:+ String (ascii_of_nat 34) "" +:+ m
          +:+ String (ascii_of_nat 34) "" +:+ " />"),
         ("<uses-permission android:name=" +:+ String (ascii_of_nat 34) "" +:+ m
          +:+ String (ascii_of_nat 34) "" +:+ " /").
  split; [reflexivity|split].
  - rewrite !mem_char_app, H. reflexivity.
  - unfold declaration. rewrite !app_assoc. reflexivity.
Qed.

Lemma startsWith_declaration (n m : string) :
  mem_char (ascii_of_nat 34) n = false ->
  startsWith (declaration n) (declaration m) = String.eqb n m.
Proof.
  intros Hn. destruct (String.eqb_spec n m) as [->|N].
  - apply startsWith_iff. exists "". now rewrite app_nil_r.
  - destruct (startsWith (declaration n) (declaration m)) eqn:S; [exfalso|reflexivity].
    apply startsWith_iff in S as [r E]. unfold declaration in E.
    rewrite !app_assoc in E. apply String.app_inj in E. apply String.app_inj in E.
    apply app_eq_app in E as [[u [Em Eu]]|[u [En Eu]]].
    + apply (f_equal String.length) in Eu. rewrite !length_app in Eu.
      destruct u; [|simpl in Eu; lia]. rewrite app_nil_r in Em. congruence.
    + destruct u as [|d u]; [rewrite app_nil_r in En; congruence|].
      injection Eu as Ed _.
      rewrite En, mem_char_app in Hn. apply orb_false_iff in Hn as [_ Hn].
      cbn [mem_char] in Hn. rewrite <- Ed, Ascii.eqb_refl in Hn. discriminate.
Qed.

Lemma occurrences_declaration (n m : string) :
  mem_char "<" n = false -> mem_char (ascii_of_nat 34) n = false ->
  occurrences (declaration n) (declaration m) = if String.eqb n m then 1%nat else 0%nat.
Proof.
  intros Hlt Hq.
  destruct (declaration_tag_like n Hlt) as [rest [_ [En [Hrest _]]]].
  pose proof (startsWith_declaration n m Hq) as S. rewrite En in S |- *.
  cbn [occurrences]. rewrite S.
  rewrite (occurrences_zero rest (declaration m));
    [destruct (String.eqb n m); reflexivity|].
  now apply includes_without_char.
Qed.

Lemma startsWith_lt_declaration (n : string) (r : string) :
  startsWith (declaration n +:+ r) "<" = true.
Proof. reflexivity. Qed.

(** The declaration lines, followed by a line break and a text that
    starts with [<]: where a declaration occurs in them. *)
Lemma gap_declaration_lines (names : list string) (q : string) :
  startsWith q "<" = true ->
  gap (declaration_lines names +:+ String (ascii_of_nat 10) "" +:+ q).
Proof.
  intros Hq. destruct names as [|n r].
  - apply (gap_blanks (String (ascii_of_nat 10) "")); [reflexivity | exact Hq].
  - cbn [declaration_lines]. rewrite !app_assoc.
    rewrite <- (app_assoc (String (ascii_of_nat 10) "") "    ").
    apply gap_blanks; [reflexivity|]. apply startsWith_lt_declaration.
Qed.

Lemma occurrences_declaration_lines (names : list string) (q m : string) :
  startsWith q "<" = true ->
  mem_char "<" m = false ->
  (forall n, In n names ->
             mem_char "<" n = false /\ mem_char (ascii_of_nat 34) n = false) ->
  occurrences (declaration_lines names +:+ String (ascii_of_nat 10) "" +:+ q)
    (declaration m)
  = (count_occ string_dec names m + occurrences q (declaration m))%nat.
Proof.
  intros Hq Hm. pose proof (declaration_tag_like m Hm) as T.
  induction names as [|n r IH]; intros Hnames.
  - cbn [declaration_lines count_occ]. change ("" +:+ ?x) with x.
    rewrite occurrences_app_tag by (exact T || now apply gap_tag).
    rewrite (occurrences_zero (String (ascii_of_nat 10) "")); [reflexivity|].
    destruct T as [rest [_ [-> _]]]. now apply includes_without_char.
  - destruct (Hnames n (or_introl eq_refl)) as [Hlt Hq'].
    cbn [declaration_lines]. rewrite !app_assoc.
    rewrite <- (app_assoc (String (ascii_of_nat 10) "") "    ").
    rewrite (occurrences_app_tag (String (ascii_of_nat 10) "" +:+ "    "));
      [|exact T|apply gap_tag, startsWith_lt_declaration].
    rewrite (occurrences_app_tag (declaration n));
      [|exact T|now apply gap_declaration_lines].
    rewrite IH by (intros n' Hn'; apply Hnames; now right).
    rewrite occurrences_declaration by assumption.
    rewrite (occurrences_zero (String (ascii_of_nat 10) "" +:+ "    "));
      [|destruct T as [rest [_ [-> _]]]; now apply includes_without_char].
    cbn [count_occ]. destruct (string_dec n m) as [->|N].
    + rewrite String.eqb_refl. lia.
    + apply String.eqb_neq in N. rewrite N. lia.
Qed.

(** The declarations of a manifest after the injection are those it had
    and those put in. *)
Lemma occurrences_inserted (content : string) (k : nat) (names : list string) (m : string) :
  startsWith (drop k content) "<" = true ->
  mem_char "<" m = false ->
  (forall n, In n names ->
             mem_char "<" n = false /\ mem_char (ascii_of_nat 34) n = false) ->
  occurrences (take k content +:+ inserted_text names +:+ drop k content) (declaration m)
  = (occurrences content (declaration m) + count_occ string_dec names m)%nat.
Proof.
  intros Hq Hm Hnames. pose proof (declaration_tag_like m Hm) as T.
  assert (C : occurrences content (declaration m)
              = (occurrences (take k content) (declaration m)
                 + occurrences (drop k content) (declaration m))%nat).
  { rewrite <- (take_drop k content) at 1.
    apply occurrences_app_tag; [exact T | now apply gap_tag]. }
  destruct names as [|n r].
  - cbn [inserted_text count_occ]. change ("" +:+ ?x) with x. rewrite take_drop. lia.
  - unfold inserted_text. rewrite !app_assoc.
    set (lines := declaration_lines (n :: r)) in *.
    rewrite (occurrences_app_tag (take k content)); [|exact T|].
    2: { change (String (ascii_of_nat 10) "" +:+ "    <!-- Auto-injected permissions -->"
                 +:+ lines +:+ String (ascii_of_nat 10) "" +:+ drop k content)
           with ((String (ascii_of_nat 10) "" +:+ "    ")
                 +:+ ("<!-- Auto-injected permissions -->" +:+ lines
                      +:+ String (ascii_of_nat 10) "" +:+ drop k content)).
         apply gap_blanks; reflexivity. }
    rewrite <- (app_assoc (String (ascii_of_nat 10) "")
                  "    <!-- Auto-injected permissions -->").
    rewrite (occurrences_app_tag (String (ascii_of_nat 10) ""
                                  +:+ "    <!-- Auto-injected permissions -->"));
      [|exact T|now apply gap_declaration_lines].
    unfold lines. rewrite occurrences_declaration_lines by assumption.
    rewrite (occurrences_zero (String (ascii_of_nat 10) ""
                               +:+ "    <!-- Auto-injected permissions -->")); [lia|].
    destruct (includes _ (declaration m)) eqn:I; [exfalso|reflexivity].
    apply includes_iff in I as [a [b E]].
    assert (I' : includes (String (ascii_of_nat 10) ""
                           +:+ "    <!-- Auto-injected permissions -->") "<u" = true).
    { apply includes_iff.
      exists a, ("ses-permission android:name=" +:+ String (ascii_of_nat 34) "" +:+ m
                 +:+ String (ascii_of_nat 34) "" +:+ " />" +:+ b).
      rewrite E. unfold declaration. now rewrite !app_assoc. }
    vm_compute in I'. discriminate.
Qed.

End Counting.

Section RerunTheorems.

#[local] Arguments String.append : simpl nomatch.
#[local] Arguments lastIndexOf : simpl never.
#[local] Arguments toInject : simpl never.
#[local] Arguments inject : simpl never.
#[local] Arguments MANIFEST : simpl never.


End RerunTheorems.


Example step5_sample_twice :
  files (snd (step5_injectPermissions Sample.quiet_host Sample.permissions
                (snd (step5_injectPermissions Sample.quiet_host Sample.permissions
                        Sample.manifest_world)))) !! MANIFEST Sample.quiet_host
  = Some (File ("<manifest>" +:+ nl +:+
                "    " +:+ declaration Sample.internet +:+ nl +:+
                nl +:+ "    <!-- Auto-injected permissions -->" +:+ nl +:+
                "    " +:+ declaration Sample.camera +:+ nl +:+
                "</manifest>" +:+ nl)).
Proof. vm_compute. reflexivity. Qed.


(** The condition on names is needed: a name that contains the closing
    tag can make the cut fall inside its own declaration, and the second
    application then writes the manifest again. *)
Example step5_odd_name_second_run_writes :
  manifest_of Sample.quiet_host
    (snd (step5_injectPermissions Sample.quiet_host Sample.odd_permissions
            (snd (step5_injectPermissions Sample.quiet_host Sample.odd_permissions
                    Sample.odd_world))))
  <> manifest_of Sample.quiet_host
       (snd (step5_injectPermissions Sample.quiet_host Sample.odd_permissions
               Sample.odd_world)).
Proof. vm_compute. discriminate. Qed.

(** The condition on double quotes is needed too: the declaration of
    one permission can hold that of another, which then occurs twice
    after the first application. *)
Example step5_quoted_name_declares_twice :
  exists content1,
    files (snd (step5_injectPermissions Sample.quiet_host Cases.quoted_permissions
                  Cases.bare_manifest_world)) !! MANIFEST Sample.quiet_host
      = Some (File content1) /\
    occurrences Cases.bare_manifest (declaration "a") = 0%nat /\
    occurrences content1 (declaration "a") = 2%nat.
Proof. eexists. split; [vm_compute; reflexivity|]. split; vm_compute; reflexivity. Qed.

(** * Facts about objects and JSON *)

Section ObjFacts.

Context {A : Type}.

Lemma get_set_eq (o : Obj.t A) (k : string) (v : A) :
  Obj.get (Obj.set o k v) k = Some v.
Proof.
  induction o as [|[k' v'] o IH]; simpl.
  - now rewrite String.eqb_refl.
  - destruct (String.eqb k k') eqn:E; simpl; rewrite E; [|exact IH].
    apply String.eqb_eq in E. now subst.
Qed.

Lemma get_set_ne (o : Obj.t A) (k k' : string) (v : A) :
  k <> k' -> Obj.get (Obj.set o k v) k' = Obj.get o k'.
Proof.
  intros N. induction o as [|[k0 v0] o IH]; simpl.
  - destruct (String.eqb_spec k' k); [congruence | reflexivity].
  - destruct (String.eqb_spec k k0) as [->|N0]; simpl.
    + destruct (String.eqb_spec k' k0); [congruence | reflexivity].
    + destruct (String.eqb_spec k' k0); [reflexivity | exact IH].
Qed.

Lemma get_None_keys (o : Obj.t A) (k : string) :
  Obj.get o k = None <-> ~ In k (Obj.keys o).
Proof.
  induction o as [|[k' v'] o IH]; simpl; [tauto|].
  destruct (String.eqb_spec k k') as [->|N].
  - split; [discriminate | intros H; exfalso; apply H; now left].
  - rewrite IH. split; [intros H [E|E]; congruence | tauto].
Qed.

Lemma keys_set (o : Obj.t A) (k : string) (v : A) :
  forall x, In x (Obj.keys (Obj.set o k v)) <-> x = k \/ In x (Obj.keys o).
Proof.
  induction o as [|[k' v'] o IH]; intros x; simpl.
  - intuition congruence.
  - destruct (String.eqb_spec k k') as [->|N]; simpl.
    + intuition congruence.
    + rewrite IH. intuition congruence.
Qed.

Lemma NoDup_keys_set (o : Obj.t A) (k : string) (v : A) :
  List.NoDup (Obj.keys o) -> List.NoDup (Obj.keys (Obj.set o k v)).
Proof.
  induction o as [|[k' v'] o IH]; simpl; intros H.
  - repeat constructor. intros [].
  - inversion H as [|? ? Hx Hl]; subst.
    destruct (String.eqb_spec k k') as [->|N]; simpl; [now constructor|].
    constructor; [|now apply IH].
    intros Hin. apply keys_set in Hin as [E|Hin]; congruence.
Qed.

Lemma NoDup_keys_assign (o p : Obj.t A) :
  List.NoDup (Obj.keys o) -> List.NoDup (Obj.keys (Obj.assign o p)).
Proof.
  unfold Obj.assign. revert o. induction p as [|[k v] p IH]; intros o H; simpl.
  - exact H.
  - apply IH. now apply NoDup_keys_set.
Qed.

(** Spreading an object with distinct keys gives its properties. *)
Lemma get_assign (o p : Obj.t A) (k : string) :
  List.NoDup (Obj.keys p) ->
  Obj.get (Obj.assign o p) k
  = match Obj.get p k with Some v => Some v | None => Obj.get o k end.
Proof.
  unfold Obj.assign. revert o. induction p as [|[k' v'] p IH]; intros o H; simpl.
  - reflexivity.
  - inversion H as [|? ? Hx Hl]; subst. rewrite (IH _ Hl).
    destruct (String.eqb_spec k k') as [->|N].
    + replace (Obj.get p k') with (@None A) by (symmetry; now apply get_None_keys).
      apply get_set_eq.
    + destruct (Obj.get p k); [reflexivity|]. apply get_set_ne. congruence.
Qed.

End ObjFacts.

Section JsonFacts.

Lemma to_json_VObj (o : Obj.t value) : to_json (VObj o) = Some (JObj (to_json_props o)).
Proof. reflexivity. Qed.

Lemma to_json_of_json : forall j, to_json (of_json j) = Some (stringified j).
Proof.
  fix IH 1. intros [| b | n | s | l | l]; simpl; try reflexivity.
  - now destruct (written_number n).
  - do 2 f_equal. revert l. fix IHl 1. intros [|x l]; simpl; [reflexivity|].
    now rewrite IH, IHl.
  - do 2 f_equal. revert l. fix IHl 1. intros [|[k x] l]; simpl; [reflexivity|].
    now rewrite IH, IHl.
Qed.

Lemma written_number_again (n n' : number) :
  written_number n = Some n' -> written_number n' = Some n'.
Proof.
  destruct n as [s m e| |]; simpl; intros E; try discriminate.
  injection E as <-. simpl. now destruct s, (m =? 0)%N.
Qed.

(** What has been serialised is serialised as it is. *)
Lemma to_json_stable : forall v j, to_json v = Some j -> stringified j = j.
Proof.
  fix IH 1. intros [| | b | n | s | l | l |] j; simpl; intros E;
    try discriminate; try (injection E as <-; reflexivity).
  - destruct (written_number n) as [n'|] eqn:W; injection E as <-; [|reflexivity].
    simpl. now rewrite (written_number_again n n' W).
  - injection E as <-. simpl. f_equal. revert l. fix IHl 1.
    intros [|x l]; simpl; [reflexivity|]. rewrite IHl. f_equal.
    destruct (to_json x) as [jx|] eqn:Ex; [exact (IH x jx Ex) | reflexivity].
  - injection E as <-. simpl. f_equal. revert l. fix IHl 1.
    intros [|[k x] l]; simpl; [reflexivity|].
    destruct (to_json x) as [jx|] eqn:Ex; [|apply IHl].
    simpl. rewrite IHl. now rewrite (IH x jx Ex).
Qed.

Lemma stringified_plain : forall j, plain j = true -> stringified j = j.
Proof.
  fix IH 1. intros [| b | n | s | l | l]; simpl; intros H; try reflexivity.
  - destruct n as [s m e| |]; try discriminate. simpl.
    apply negb_true_iff in H. now destruct s, (m =? 0)%N.
  - f_equal. revert l H. fix IHl 1. intros [|x l]; simpl; intros H; [reflexivity|].
    apply andb_true_iff in H as [Hx Hl]. now rewrite (IH x Hx), (IHl l Hl).
  - f_equal. revert l H. fix IHl 1. intros [|[k x] l]; simpl; intros H; [reflexivity|].
    apply andb_true_iff in H as [Hx Hl]. now rewrite (IH x Hx), (IHl l Hl).
Qed.

Lemma stringified_again (j : json) : stringified (stringified j) = stringified j.
Proof. apply (to_json_stable (of_json j)), to_json_of_json. Qed.

Lemma get_of_json_props (l : Obj.t json) (k : string) :
  Obj.get (of_json_props l) k = option_map of_json (Obj.get l k).
Proof.
  induction l as [|[k' x] l IH]; simpl; [reflexivity|].
  destruct (String.eqb k k'); [reflexivity | exact IH].
Qed.

Lemma keys_of_json_props (l : Obj.t json) : Obj.keys (of_json_props l) = Obj.keys l.
Proof. unfold Obj.keys, of_json_props. rewrite map_map. reflexivity. Qed.

Lemma keys_to_json_props (o : Obj.t value) (k : string) :
  In k (Obj.keys (to_json_props o)) -> In k (Obj.keys o).
Proof.
  induction o as [|[k' x] o IH]; simpl; [tauto|].
  destruct (to_json x); simpl; intuition.
Qed.

(** What a serialised object holds under a name. *)
Lemma get_to_json_props (o : Obj.t value) (k : string) :
  List.NoDup (Obj.keys o) ->
  Obj.get (to_json_props o) k
  = match Obj.get o k with Some v => to_json v | None => None end.
Proof.
  induction o as [|[k' x] o IH]; simpl; intros H; [reflexivity|].
  inversion H as [|? ? Hx Hl]; subst.
  destruct (String.eqb_spec k k') as [->|N].
  - destruct (to_json x) eqn:E; simpl.
    + now rewrite String.eqb_refl.
    + apply get_None_keys. intros Hin. apply Hx. now apply keys_to_json_props.
  - destruct (to_json x); simpl.
    + destruct (String.eqb_spec k k'); [congruence | now apply IH].
    + now apply IH.
Qed.

End JsonFacts.

(** * The configuration update *)

Section UpdateConfig.

#[local] Arguments APP_CONFIG : simpl never.
#[local] Arguments CAP_CONFIG : simpl never.
#[local] Arguments updated_capConfig : simpl never.
#[local] Arguments to_json : simpl never.
#[local] Arguments of_json : simpl never.

Variable h : host.

(** Step 0 when both configuration files hold JSON objects: it returns
    the app configuration and writes the updated bridge configuration. *)
Lemma step0_found (w : world) (appText capText : string) (app cap : Obj.t json) :
  files w !! APP_CONFIG h = Some (File appText) ->
  JSON_parse h appText = Some (JObj app) ->
  files w !! CAP_CONFIG h = Some (File capText) ->
  JSON_parse h capText = Some (JObj cap) ->
  fst (step0_updateConfig h w) = Ok (VObj (of_json_props app)) /\
  files (snd (step0_updateConfig h w))
  = <[CAP_CONFIG h :=
        File (JSON_render h
                (JObj (to_json_props
                         (updated_capConfig (of_json_props app) (of_json_props cap)))))]>
      (files w).
Proof.
  intros Ha Pa Hc Pc.
  unfold step0_updateConfig, readJson, writeJson, bind, mbind, M_bind, log, error,
    print, eprint, existsSync, readFileSync, writeFileSync, ret, mret, M_ret, throw.
  simpl. rewrite Ha. rewrite bool_decide_eq_true_2 by eauto. simpl.
  rewrite Ha. simpl. rewrite Pa. simpl.
  rewrite Hc. rewrite bool_decide_eq_true_2 by eauto. simpl.
  rewrite Hc. rewrite bool_decide_eq_true_2 by eauto. simpl.
  rewrite Hc. simpl. rewrite Pc. simpl.
  fold (of_json_props app). fold (of_json_props cap). unfold updated_capConfig.
  destruct (truthy (get_computed (of_json_props app) "backgroundColor"));
    unfold ret, mret, M_ret; simpl; rewrite Hc; split; reflexivity.
Qed.

Lemma to_json_get_app (app : Obj.t json) (k : string) :
  inherited k = false ->
  to_json (get_computed (of_json_props app) k) = option_map stringified (Obj.get app k).
Proof.
  intros Hk. unfold get_computed. rewrite get_of_json_props, Hk.
  destruct (Obj.get app k); simpl; [apply to_json_of_json | reflexivity].
Qed.

Lemma NoDup_keys_updated (a c : Obj.t value) :
  List.NoDup (Obj.keys c) -> List.NoDup (Obj.keys (updated_capConfig a c)).
Proof.
  intros H. unfold updated_capConfig.
  destruct (truthy (get_computed a "backgroundColor")); repeat apply NoDup_keys_set; exact H.
Qed.

Lemma get_updated (a c : Obj.t value) (k : string) :
  Obj.get (updated_capConfig a c) k
  = if String.eqb k "backgroundColor" && truthy (get_computed a "backgroundColor")
    then Some (get_computed a "backgroundColor")
    else if String.eqb k "server" then Some (VObj (updated_server a c))
    else if String.eqb k "appName" then Some (get_computed a "appName")
    else if String.eqb k "appId" then Some (get_computed a "appId")
    else Obj.get c k.
Proof.
  unfold updated_capConfig, updated_server.
  assert (S : get_computed
                (Obj.set (Obj.set c "appId" (get_computed a "appId")) "appName"
                   (get_computed a "appName")) "server"
              = get_computed c "server").
  { unfold get_computed. now rewrite !get_set_ne by discriminate. }
  rewrite S.
  destruct (truthy (get_computed a "backgroundColor")); rewrite ?andb_true_r, ?andb_false_r.
  - destruct (String.eqb_spec k "backgroundColor") as [->|N1]; [apply get_set_eq|].
    rewrite get_set_ne by congruence.
    destruct (String.eqb_spec k "server") as [->|N2]; [apply get_set_eq|].
    rewrite get_set_ne by congruence.
    destruct (String.eqb_spec k "appName") as [->|N3]; [apply get_set_eq|].
    rewrite get_set_ne by congruence.
    destruct (String.eqb_spec k "appId") as [->|N4]; [apply get_set_eq|].
    now rewrite get_set_ne by congruence.
  - destruct (String.eqb_spec k "server") as [->|N2]; [apply get_set_eq|].
    rewrite get_set_ne by congruence.
    destruct (String.eqb_spec k "appName") as [->|N3]; [apply get_set_eq|].
    rewrite get_set_ne by congruence.
    destruct (String.eqb_spec k "appId") as [->|N4]; [apply get_set_eq|].
    now rewrite get_set_ne by congruence.
Qed.

Lemma NoDup_keys_updated_server (a c : Obj.t value) :
  List.NoDup (Obj.keys (updated_server a c)).
Proof.
  unfold updated_server, spread. do 2 apply NoDup_keys_set.
  apply NoDup_keys_assign. constructor.
Qed.

End UpdateConfig.

Section UpdateConfigTheorems.

#[local] Arguments APP_CONFIG : simpl never.
#[local] Arguments CAP_CONFIG : simpl never.
#[local] Arguments updated_capConfig : simpl never.
#[local] Arguments updated_server : simpl never.
#[local] Arguments to_json : simpl never.
#[local] Arguments of_json : simpl never.



Lemma get_roundtrip (o : Obj.t value) (l : Obj.t json) (k : string) :
  Obj.get o k = Obj.get (of_json_props l) k ->
  match Obj.get o k with Some v => to_json v | None => None end
  = option_map stringified (Obj.get l k).
Proof.
  intros ->. rewrite get_of_json_props.
  destruct (Obj.get l k); simpl; [apply to_json_of_json | reflexivity].
Qed.



End UpdateConfigTheorems.


(** * Plugin reconciliation *)

Section Plugins.

#[local] Arguments String.append : simpl never.
#[local] Arguments PACKAGE_JSON : simpl never.
#[local] Arguments present : simpl never.

Variable h : host.
Variable installed : Obj.t value.
Variable plugins : list (string * value).
Hypothesis npm : issued_standard h installed plugins.

(** One turn of the loop: the plugin ends up as its flag says when the
    table read before the loop agrees with what is listed now. *)
Lemma manage_plugin_turn (e : string * value) (w : world) :
  In e plugins ->
  truthy (get_computed installed (fst e)) = present h (files w) (fst e) ->
  exists w',
    manage_plugin h installed e w = (Ok tt, w') /\
    present h (files w') (fst e) = truthy (snd e) /\
    (forall q, q <> fst e -> present h (files w') q = present h (files w) q) /\
    commands w' = commands w ++ plugin_command installed e.
Proof.
  intros Hin Hagree. pose proof (npm e) as N.
  unfold manage_plugin, plugin_command in *.
  destruct (truthy (snd e)) eqn:Tf, (truthy (get_computed installed (fst e))) eqn:Ti;
    simpl in *.
  - exists w. rewrite List.app_nil_r. repeat split; congruence.
  - destruct (N _ (files w) Hin eq_refl) as [Ei [Pi Fi]].
    unfold mbind, M_bind, log, print, runs; simpl. rewrite Ei.
    eexists. split; [reflexivity|]. simpl. repeat split; assumption.
  - destruct (N _ (files w) Hin eq_refl) as [Eu [Pu Fu]].
    unfold mbind, M_bind, log, print, runs; simpl. rewrite Eu.
    eexists. split; [reflexivity|]. simpl. repeat split; assumption.
  - exists w. rewrite List.app_nil_r. repeat split; congruence.
Qed.

Lemma manage_plugins_loop (l : list (string * value)) :
  forall w : world,
    List.NoDup (map fst l) ->
    (forall e, In e l -> In e plugins) ->
    (forall e, In e l ->
       truthy (get_computed installed (fst e)) = present h (files w) (fst e)) ->
    exists w',
      forEach l (manage_plugin h installed) w = (Ok tt, w') /\
      (forall e, In e l -> present h (files w') (fst e) = truthy (snd e)) /\
      (forall q, ~ In q (map fst l) -> present h (files w') q = present h (files w) q) /\
      commands w' = commands w ++ flat_map (plugin_command installed) l.
Proof.
  induction l as [|e l IH]; intros w Hnd Hnames Hagree.
  - exists w. simpl. rewrite List.app_nil_r. repeat split; tauto.
  - inversion Hnd as [|? ? Hx Hl]; subst.
    destruct (manage_plugin_turn e w (Hnames e (or_introl eq_refl))
                (Hagree e (or_introl eq_refl)))
      as [w1 [E1 [P1 [F1 C1]]]].
    assert (Hne : forall e', In e' l -> fst e' <> fst e).
    { intros e' He' Eq. apply Hx. rewrite <- Eq. now apply in_map. }
    destruct (IH w1 Hl (fun e' He' => Hnames e' (or_intror He'))) as [w' [E' [P' [F' C']]]].
    { intros e' He'. rewrite F1 by now apply Hne. apply Hagree. now right. }
    exists w'. split; [|split; [|split]].
    + simpl. unfold mbind, M_bind. now rewrite E1.
    + intros e' [<-|He']; [|now apply P']. now rewrite F' by exact Hx.
    + intros q Hq. simpl in Hq. rewrite F' by tauto. apply F1. intros ->. tauto.
    + rewrite C', C1. simpl. now rewrite <- List.app_assoc.
Qed.

End Plugins.

Section PluginStep.

#[local] Arguments PACKAGE_JSON : simpl never.
#[local] Arguments present : simpl never.
#[local] Arguments dependency_table : simpl never.
#[local] Arguments forEach : simpl never.
#[local] Arguments of_json : simpl never.

Variable h : host.

(** Step 0.5 with a truthy mapping and a [package.json] that holds an
    object: the loop runs on the table read from that file. *)
Lemma step0_5_found (w : world) (plugins : value) (text : string) (pkg : Obj.t json) :
  truthy plugins = true ->
  files w !! PACKAGE_JSON h = Some (File text) ->
  JSON_parse h text = Some (JObj pkg) ->
  exists w0,
    files w0 = files w /\ commands w0 = commands w /\
    step0_5_managePlugins h plugins w
    = forEach (entries plugins)
        (manage_plugin h (listed_dependencies h (files w))) w0.
Proof.
  intros Ht Hp Pp.
  unfold step0_5_managePlugins, readJson, bind, mbind, M_bind, log, error,
    print, eprint, existsSync, readFileSync, ret, mret, M_ret, throw.
  rewrite Ht. simpl. rewrite Hp. rewrite bool_decide_eq_true_2 by eauto. simpl.
  rewrite Hp. simpl. rewrite Pp. simpl.
  eexists. split; [|split; [|unfold listed_dependencies; rewrite Hp; simpl;
                             rewrite Pp; reflexivity]];
    reflexivity.
Qed.


End PluginStep.

(** * The sample package manager *)

Section Ledger.

#[local] Arguments String.append : simpl nomatch.

Lemma ledger_read (name acc t : string) (sign : ascii) :
  mem_char ";" name = false ->
  Sample.ledger (name +:+ ";" +:+ t) (Some (sign, acc))
  = Sample.ledger_entry sign (acc +:+ name) (Sample.ledger t None).
Proof.
  revert acc. induction name as [|c name IH]; intros acc Hn.
  - simpl. now rewrite app_nil_r.
  - change (mem_char ";" (String c name))
      with (Ascii.eqb ";" c || mem_char ";" name) in Hn.
    apply orb_false_iff in Hn as [Hc Hn].
    change (String c name +:+ ";" +:+ t) with (String c (name +:+ ";" +:+ t)).
    cbn [Sample.ledger]. rewrite Ascii.eqb_sym, Hc. rewrite IH by exact Hn.
    now rewrite app_assoc.
Qed.

Lemma get_filter_ne (d : Obj.t json) (p q : string) :
  Obj.get (List.filter (fun kv => negb (String.eqb (fst kv) p)) d) q
  = if String.eqb q p then None else Obj.get d q.
Proof.
  induction d as [|[k v] d IH]; simpl; [now destruct (String.eqb q p)|].
  destruct (String.eqb_spec k p) as [->|N]; simpl.
  - rewrite IH. now destruct (String.eqb_spec q p).
  - rewrite IH. destruct (String.eqb_spec q k) as [->|N'].
    + now destruct (String.eqb_spec k p).
    + reflexivity.
Qed.

Lemma has_ledger_entry_add (d : Obj.t json) (p q : string) :
  Obj.has (Sample.ledger_entry "+" p d) q = (String.eqb q p || Obj.has d q).
Proof.
  unfold Obj.has, Sample.ledger_entry. simpl.
  destruct (String.eqb_spec q p) as [->|N]; [now rewrite get_set_eq|].
  now rewrite get_set_ne by congruence.
Qed.

Lemma has_ledger_entry_remove (d : Obj.t json) (p q : string) :
  Obj.has (Sample.ledger_entry "-" p d) q = (negb (String.eqb q p) && Obj.has d q).
Proof.
  unfold Obj.has, Sample.ledger_entry. simpl. rewrite get_filter_ne.
  now destruct (String.eqb q p).
Qed.

Lemma NoDup_keys_ledger_entry (sign : ascii) (p : string) (d : Obj.t json) :
  List.NoDup (Obj.keys d) -> List.NoDup (Obj.keys (Sample.ledger_entry sign p d)).
Proof.
  intros H. unfold Sample.ledger_entry.
  destruct (Ascii.eqb sign "+"); [now apply NoDup_keys_set|].
  destruct (Ascii.eqb sign "?"); [now apply NoDup_keys_set|].
  now apply NoDup_map_fst_filter.
Qed.

Lemma NoDup_keys_ledger (t : string) :
  forall reading, List.NoDup (Obj.keys (Sample.ledger t reading)).
Proof.
  induction t as [|c t IH]; intros reading; simpl; [constructor|].
  destruct reading as [[sign name]|]; [|apply IH].
  destruct (Ascii.eqb c ";"); [|apply IH]. apply NoDup_keys_ledger_entry, IH.
Qed.

Lemma listed_ledger (text q : string) :
  Obj.has (dependency_table (VObj (of_json_props (Sample.ledger text None))) VUndefined) q
  = Obj.has (Sample.ledger text None) q.
Proof.
  unfold dependency_table, spread, Obj.has. simpl.
  rewrite get_assign by (rewrite keys_of_json_props; apply NoDup_keys_ledger).
  rewrite get_of_json_props. now destruct (Obj.get (Sample.ledger text None) q).
Qed.

(** What the sample host lists is what its ledger says. *)
Lemma present_ledger (fs : gmap string node) (q : string) :
  present Sample.ledger_host fs q
  = Obj.has (Sample.ledger (Sample.ledger_text fs "/app/package.json") None) q.
Proof.
  unfold present, listed_dependencies, Sample.ledger_text.
  change (PACKAGE_JSON Sample.ledger_host) with "/app/package.json".
  destruct (fs !! "/app/package.json") as [[|text|bytes]|]; try reflexivity.
  - exact (listed_ledger text q).
  - exact (listed_ledger (Sample.decode bytes) q).
Qed.

(** The commands of the sample host have the standard effect on every
    package whose name has no [;]. *)
Lemma ledger_host_install (fs : gmap string node) (p q : string) :
  mem_char ";" p = false ->
  present Sample.ledger_host (snd (exec Sample.ledger_host ("npm install " +:+ p) fs)) q
  = (String.eqb q p || present Sample.ledger_host fs q).
Proof.
  intros Hp.
  change (snd (exec Sample.ledger_host ("npm install " +:+ p) fs))
    with (<["/app/package.json" :=
              File ("+" +:+ p +:+ ";" +:+ Sample.ledger_text fs "/app/package.json")]> fs).
  rewrite !present_ledger. unfold Sample.ledger_text at 1.
  rewrite lookup_insert_eq.
  change (Sample.ledger ("+" +:+ p +:+ ";" +:+ Sample.ledger_text fs "/app/package.json") None)
    with (Sample.ledger (p +:+ ";" +:+ Sample.ledger_text fs "/app/package.json")
            (Some ("+"%char, EmptyString))).
  rewrite ledger_read by exact Hp. apply has_ledger_entry_add.
Qed.

Lemma ledger_host_uninstall (fs : gmap string node) (p q : string) :
  mem_char ";" p = false ->
  present Sample.ledger_host (snd (exec Sample.ledger_host ("npm uninstall " +:+ p) fs)) q
  = (negb (String.eqb q p) && present Sample.ledger_host fs q).
Proof.
  intros Hp.
  change (snd (exec Sample.ledger_host ("npm uninstall " +:+ p) fs))
    with (<["/app/package.json" :=
              File ("-" +:+ p +:+ ";" +:+ Sample.ledger_text fs "/app/package.json")]> fs).
  rewrite !present_ledger. unfold Sample.ledger_text at 1.
  rewrite lookup_insert_eq.
  change (Sample.ledger ("-" +:+ p +:+ ";" +:+ Sample.ledger_text fs "/app/package.json") None)
    with (Sample.ledger (p +:+ ";" +:+ Sample.ledger_text fs "/app/package.json")
            (Some ("-"%char, EmptyString))).
  rewrite ledger_read by exact Hp. apply has_ledger_entry_remove.
Qed.

Lemma ledger_host_standard (installed : Obj.t value) (l : list (string * value)) :
  (forall e, In e l -> mem_char ";" (fst e) = false) ->
  issued_standard Sample.ledger_host installed l.
Proof.
  intros Hnames e cmd fs He Hcmd. specialize (Hnames e He).
  unfold plugin_command in Hcmd.
  destruct (truthy (snd e)) eqn:Tf, (truthy (get_computed installed (fst e))) eqn:Ti;
    cbn [andb negb] in Hcmd; try discriminate.
  - assert (C : cmd = "npm install " +:+ fst e) by congruence. subst cmd.
    split; [reflexivity|]. split.
    + now rewrite ledger_host_install, String.eqb_refl.
    + intros q Hq. rewrite ledger_host_install by exact Hnames.
      now destruct (String.eqb_spec q (fst e)).
  - assert (C : cmd = "npm uninstall " +:+ fst e) by congruence. subst cmd.
    split; [reflexivity|]. split.
    + now rewrite ledger_host_uninstall, String.eqb_refl.
    + intros q Hq. rewrite ledger_host_uninstall by exact Hnames.
      now destruct (String.eqb_spec q (fst e)).
Qed.

End Ledger.


Example step0_5_sample_commands :
  commands (snd (step0_5_managePlugins Sample.ledger_host Sample.plugins
                   Sample.ledger_world))
  = ["npm install @capacitor/camera"; "npm uninstall @capacitor/splash-screen"].
Proof. vm_compute. reflexivity. Qed.

(** C3, at the input where the code departs from it. The plugin
    [left-pad] is switched off and [package.json] lists it, with an empty
    version string. The test [!!installed[plugin]] of the loop, which
    stands for "is listed", is false for that entry: the step returns, no
    command is issued, and the plugin is still listed afterwards although
    its flag is false. *)
Theorem step0_5_keeps_unversioned_dependency :
  In ("left-pad", VBool false) (entries Sample.unversioned_plugins) /\
  Obj.get (listed_dependencies Sample.ledger_host (files Sample.unversioned_world))
    "left-pad" = Some (VStr "") /\
  fst (step0_5_managePlugins Sample.ledger_host Sample.unversioned_plugins
         Sample.unversioned_world) = Ok tt /\
  commands (snd (step0_5_managePlugins Sample.ledger_host Sample.unversioned_plugins
                   Sample.unversioned_world)) = [] /\
  present Sample.ledger_host
    (files (snd (step0_5_managePlugins Sample.ledger_host Sample.unversioned_plugins
                   Sample.unversioned_world))) "left-pad" = true.
Proof.
  split; [now left|]. repeat split; vm_compute; reflexivity.
Qed.

(** The loop's test is also true for a name every object inherits: a
    plugin of that name that is switched on is never installed. *)
Example step0_5_skips_inherited_name :
  commands (snd (step0_5_managePlugins Sample.ledger_host Sample.inherited_plugins
                   Sample.ledger_world)) = [] /\
  present Sample.ledger_host
    (files (snd (step0_5_managePlugins Sample.ledger_host Sample.inherited_plugins
                   Sample.ledger_world))) "constructor" = false.
Proof. split; vm_compute; reflexivity. Qed.

(** * The SDK location file *)

Section LocalProperties.

#[local] Arguments String.append : simpl nomatch.
#[local] Arguments LOCAL_PROPS : simpl never.

Lemma count_char_app (c : ascii) (a b : string) :
  count_char c (a +:+ b) = (count_char c a + count_char c b)%nat.
Proof. induction a as [|x a IH]; simpl; [reflexivity | rewrite IH; lia]. Qed.

(** Escaping doubles the backslashes and changes no other character. *)
Lemma count_char_escape (c : ascii) (s : string) :
  count_char c (escape_backslashes s)
  = if Ascii.eqb c (ascii_of_nat 92) then (2 * count_char c s)%nat else count_char c s.
Proof.
  induction s as [|d s IH]; simpl; [now destruct (Ascii.eqb c _)|].
  destruct (Ascii.eqb_spec d (ascii_of_nat 92)) as [->|N]; simpl; rewrite IH.
  - destruct (Ascii.eqb_spec c (ascii_of_nat 92)) as [->|N']; lia.
  - destruct (Ascii.eqb_spec c (ascii_of_nat 92)) as [->|N'].
    + destruct (Ascii.eqb_spec (ascii_of_nat 92) d); [congruence | lia].
    + reflexivity.
Qed.

Lemma escape_without_backslash (s : string) :
  count_char (ascii_of_nat 92) s = 0%nat -> escape_backslashes s = s.
Proof.
  induction s as [|d s IH]; [reflexivity|].
  cbn [escape_backslashes count_char]. rewrite (Ascii.eqb_sym d).
  destruct (Ascii.eqb (ascii_of_nat 92) d); [discriminate|].
  intros H. now rewrite IH.
Qed.

(** The line has the characters of its three parts, the backslashes of
    the location counted twice. *)
Lemma sdk_dir_line_chars (p : string) (c : ascii) :
  count_char c (sdk_dir_line p)
  = if Ascii.eqb c (ascii_of_nat 92) then (2 * count_char c p)%nat
    else (count_char c "sdk.dir=" + count_char c p + count_char c nl)%nat.
Proof.
  unfold sdk_dir_line. rewrite !count_char_app, count_char_escape.
  destruct (Ascii.eqb_spec c (ascii_of_nat 92)) as [->|N]; [|lia].
  change (count_char (ascii_of_nat 92) "sdk.dir=") with 0%nat.
  change (count_char (ascii_of_nat 92) nl) with 0%nat. lia.
Qed.

(** A location without a line break gives a file of exactly one line. *)
Lemma sdk_dir_line_one_line (p : string) :
  count_char (ascii_of_nat 10) p = 0%nat ->
  count_char (ascii_of_nat 10) (sdk_dir_line p) = 1%nat.
Proof.
  intros H. unfold sdk_dir_line. rewrite !count_char_app, count_char_escape.
  change (Ascii.eqb (ascii_of_nat 10) (ascii_of_nat 92)) with false.
  rewrite H. reflexivity.
Qed.

End LocalProperties.

Section LocalPropertiesShape.

#[local] Arguments String.append : simpl never.
#[local] Arguments LOCAL_PROPS : simpl never.
#[local] Arguments ANDROID : simpl never.
#[local] Arguments escape_backslashes : simpl never.
#[local] Arguments lastIndexOf : simpl never.

Variable h : host.

(** The directory of a path built from a directory and a name. *)
Lemma parent_under (dir name : string) (c : ascii) :
  path_sep h = String c "" ->
  mem_char c name = false ->
  dir <> "" ->
  parent h (under h dir name) = dir.
Proof.
  intros Hsep Hname Hdir. unfold parent, under. rewrite Hsep.
  assert (L : lastIndexOf (dir +:+ String c "" +:+ name) (String c "")
              = Z.of_nat (String.length dir)).
  { apply lastIndexOf_unique.
    - rewrite length_app. lia.
    - rewrite drop_app_length. apply startsWith_app.
    - intros j Hj. rewrite length_app in Hj.
      replace j with (String.length dir + S (j - String.length dir - 1))%nat by lia.
      rewrite drop_app_ge.
      change (drop (S (j - String.length dir - 1)) (String c "" +:+ name))
        with (drop (j - String.length dir - 1) name).
      generalize (j - String.length dir - 1)%nat. clear -Hname.
      induction name as [|d name IH]; intros [|n]; try reflexivity.
      + simpl in Hname. apply orb_false_iff in Hname as [E _]. simpl. now rewrite E.
      + simpl in Hname. apply orb_false_iff in Hname as [_ E]. now apply IH. }
  rewrite L.
  assert (0 < String.length dir)%nat by (destruct dir; [congruence | simpl; lia]).
  replace (Z.of_nat (String.length dir) <? 0) with false by (symmetry; apply Z.ltb_ge; lia).
  replace (Z.of_nat (String.length dir) =? 0) with false by (symmetry; apply Z.eqb_neq; lia).
  rewrite Nat2Z.id. apply take_app_length.
Qed.

(** On a host whose separator is a slash or a backslash, the SDK
    location file is in the android directory. *)
Lemma parent_LOCAL_PROPS :
  path_sep h = "/" \/ path_sep h = "\" -> parent h (LOCAL_PROPS h) = ANDROID h.
Proof.
  assert (N : forall c, ANDROID h <> "" \/ path_sep h <> String c "").
  { intros c. destruct (String.eqb_spec (path_sep h) (String c "")) as [E|E]; [|now right].
    left. unfold ANDROID, under. rewrite E. destruct (ROOT h); discriminate. }
  intros [E|E]; unfold LOCAL_PROPS.
  - apply (parent_under _ _ "/"%char E); [reflexivity|].
    destruct (N "/"%char); [assumption | contradiction].
  - apply (parent_under _ _ "\"%char E); [reflexivity|].
    destruct (N "\"%char); [assumption | contradiction].
Qed.

(** A type error leaves no location. *)
Lemma no_base_no_path :
  no_sdk_variable h && base_missing h = true -> resolved_sdk_path h = None.
Proof.
  unfold no_sdk_variable, base_missing, resolved_sdk_path.
  destruct (set_variable h "ANDROID_HOME"); [discriminate|].
  destruct (set_variable h "ANDROID_SDK_ROOT"); [discriminate|]. simpl.
  destruct (String.eqb (platform h) "win32").
  - destruct (env h !! "LOCALAPPDATA"); [|reflexivity].
    rewrite bool_decide_eq_true_2 by eauto. discriminate.
  - destruct (String.eqb (platform h) "darwin"); [|reflexivity].
    destruct (env h !! "HOME"); [|reflexivity].
    rewrite bool_decide_eq_true_2 by eauto. discriminate.
Qed.

(** Step 4 up to the write: it throws a type error, or it has resolved
    and found a location and writes the line, or it gives up. Up to
    there it has only printed. *)
Lemma step4_shape (w : world) :
  exists w1 : world,
    step4_createLocalProperties h w
    = (if no_sdk_variable h && base_missing h then (Throw TypeError, w1)
       else match resolved_sdk_path h with
            | Some p =>
                if bool_decide (is_Some (files w !! p))
                then (writeFileSync h (LOCAL_PROPS h) (sdk_dir_line p);;
                      log ("local.properties -> " +:+ p)) w1
                else error "Android SDK not found. Please set ANDROID_HOME." w1
            | None => error "Android SDK not found. Please set ANDROID_HOME." w1
            end) /\
    files w1 = files w /\ commands w1 = commands w.
Proof.
  pose (wa := snd (log "Step 4: Generating local.properties..." w)).
  pose (wb := snd (log "ANDROID_HOME not set. Searching default locations..." wa)).
  assert (T : forall P : world -> Prop, P wa \/ P wb -> exists w1, P w1).
  { intros P [H|H]; eauto. }
  apply T. subst wa wb.
  unfold step4_createLocalProperties, no_sdk_variable, base_missing, resolved_sdk_path,
    set_variable, getenv, or_else, path_join_checked, nonempty, sdk_dir_line, nl,
    bind, mbind, M_bind, log, error, print, eprint, existsSync, ret, mret, M_ret, throw.
  destruct (env h !! "ANDROID_HOME") as [[|c1 s1]|];
    destruct (env h !! "ANDROID_SDK_ROOT") as [[|c2 s2]|]; simpl;
    try (left; try destruct (bool_decide _); (split; [reflexivity | split; reflexivity]));
    (destruct (String.eqb (platform h) "win32");
     [ destruct (env h !! "LOCALAPPDATA") as [d|]; simpl;
       [|right; try destruct (bool_decide _); (split; [reflexivity | split; reflexivity])];
       destruct (path_join h [d; "Android"; "Sdk"]) as [|c s]; simpl;
       right; (try destruct (bool_decide _); (split; [reflexivity | split; reflexivity]))
     | destruct (String.eqb (platform h) "darwin"); simpl;
       [|right; try destruct (bool_decide _); (split; [reflexivity | split; reflexivity])];
       destruct (env h !! "HOME") as [d|]; simpl;
       [|right; try destruct (bool_decide _); (split; [reflexivity | split; reflexivity])];
       destruct (path_join h [d; "Library"; "Android"; "sdk"]) as [|c s]; simpl;
       right; (try destruct (bool_decide _); (split; [reflexivity | split; reflexivity])) ]).
Qed.

(** The write of the line, by what is at the path and in its place. *)
Lemma write_LOCAL_PROPS (w1 : world) (line msg : string) :
  path_sep h = "/" \/ path_sep h = "\" ->
  (writeFileSync h (LOCAL_PROPS h) line;; log msg) w1
  = match files w1 !! LOCAL_PROPS h, files w1 !! ANDROID h with
    | Some Dir, _ => (Throw (SystemError "EISDIR"), w1)
    | None, Some (File _) | None, Some (Binary _) => (Throw (SystemError "ENOTDIR"), w1)
    | None, None => (Throw (SystemError "ENOENT"), w1)
    | _, _ => log msg (set_files (<[LOCAL_PROPS h := File line]> (files w1)) w1)
    end.
Proof.
  intros Hsep. unfold mbind, M_bind, writeFileSync. rewrite parent_LOCAL_PROPS by exact Hsep.
  destruct (files w1 !! LOCAL_PROPS h) as [[| |]|]; try reflexivity.
  destruct (files w1 !! ANDROID h) as [[| |]|]; reflexivity.
Qed.

End LocalPropertiesShape.

Section LocalPropertiesTheorem.

#[local] Arguments String.append : simpl never.
#[local] Arguments LOCAL_PROPS : simpl never.
#[local] Arguments ANDROID : simpl never.
#[local] Arguments escape_backslashes : simpl never.

(** C7, as the code has it. On a host whose path separator is a slash or
    a backslash, step 4 writes the SDK location file exactly when the
    resolved location exists in the file system and the file can be
    written: it is a file already, or it does not exist and the android
    directory does. The file then consists of [sdk.dir=] followed by the
    location with its backslashes doubled and a line break. When the
    location exists and the file cannot be written, the step throws the
    error of the write; in every case where the file is not written the
    file system is left as it was. The location is [ANDROID_HOME], else
    [ANDROID_SDK_ROOT], else the platform default under [LOCALAPPDATA]
    (Windows) or [HOME] (macOS). The text written has one line break, at
    its end, when the location has none, and twice the backslashes of
    the location. *)
Theorem step4_writes_sdk_location (h : host) (w : world) :
  path_sep h = "/" \/ path_sep h = "\" ->
  let step := step4_createLocalProperties h w in
  let generated p :=
    fst step = Ok tt /\
    files (snd step) = <[LOCAL_PROPS h := File (sdk_dir_line p)]> (files w) in
  let fails_with code :=
    fst step = Throw (SystemError code) /\ files (snd step) = files w in
  match resolved_sdk_path h with
  | Some p =>
      if bool_decide (is_Some (files w !! p))
      then match files w !! LOCAL_PROPS h, files w !! ANDROID h with
           | Some Dir, _ => fails_with "EISDIR"
           | None, Some (File _) | None, Some (Binary _) => fails_with "ENOTDIR"
           | None, None => fails_with "ENOENT"
           | _, _ => generated p
           end
      else files (snd step) = files w
  | None => files (snd step) = files w
  end /\
  (forall p, count_char (ascii_of_nat 10) p = 0%nat ->
             count_char (ascii_of_nat 10) (sdk_dir_line p) = 1%nat /\
             exists line, sdk_dir_line p = line +:+ nl) /\
  (forall p c, count_char c (sdk_dir_line p)
               = if Ascii.eqb c (ascii_of_nat 92) then (2 * count_char c p)%nat
                 else (count_char c "sdk.dir=" + count_char c p + count_char c nl)%nat).
Proof.
  intros Hsep step generated fails_with.
  split; [|split; [|exact sdk_dir_line_chars]].
  2: { intros p Hp. split; [now apply sdk_dir_line_one_line|].
       exists ("sdk.dir=" +:+ escape_backslashes p). unfold sdk_dir_line.
       now rewrite app_assoc. }
  subst step generated fails_with. cbv beta.
  destruct (step4_shape h w) as [w1 [E [F1 C1]]]. rewrite E. clear E.
  destruct (no_sdk_variable h && base_missing h) eqn:B.
  { rewrite (no_base_no_path h B). simpl. exact F1. }
  destruct (resolved_sdk_path h) as [p|]; [|simpl; exact F1].
  destruct (bool_decide (is_Some (files w !! p))); [|simpl; exact F1].
  rewrite write_LOCAL_PROPS by exact Hsep. rewrite F1.
  destruct (files w !! LOCAL_PROPS h) as [[| |]|];
    [| | |destruct (files w !! ANDROID h) as [[| |]|]]; simpl; now split.
Qed.

Lemma step4_writes_sdk_location_witness :
  (fst (step4_createLocalProperties Sample.android_home_host Sample.sdk_world) = Ok tt /\
   files (snd (step4_createLocalProperties Sample.android_home_host Sample.sdk_world))
   = <[LOCAL_PROPS Sample.android_home_host := File (sdk_dir_line "D:\Sdk")]>
       (files Sample.sdk_world)) /\
  (forall p, count_char (ascii_of_nat 10) p = 0%nat ->
             count_char (ascii_of_nat 10) (sdk_dir_line p) = 1%nat /\
             exists line, sdk_dir_line p = line +:+ nl) /\
  (forall p c, count_char c (sdk_dir_line p)
               = if Ascii.eqb c (ascii_of_nat 92) then (2 * count_char c p)%nat
                 else (count_char c "sdk.dir=" + count_char c p + count_char c nl)%nat).
Proof.
  apply (step4_writes_sdk_location Sample.android_home_host Sample.sdk_world).
  right. reflexivity.
Defined.

(** C7, as stated, fails: with [ANDROID_HOME] naming a directory that
    exists and no android directory to write into, the write fails, the
    step throws, and no SDK location file is generated although the
    resolved location exists. *)
Lemma step4_without_android_directory :
  resolved_sdk_path Sample.android_home_host = Some "D:\Sdk" /\
  is_Some (files Cases.sdk_only_world !! "D:\Sdk") /\
  fst (step4_createLocalProperties Sample.android_home_host Cases.sdk_only_world)
  = Throw (SystemError "ENOENT") /\
  files (snd (step4_createLocalProperties Sample.android_home_host Cases.sdk_only_world))
    !! LOCAL_PROPS Sample.android_home_host = None.
Proof.
  split; [reflexivity|]. split; [exists Dir; vm_compute; reflexivity|].
  split; vm_compute; reflexivity.
Qed.

(** A location with a line break in it gives a file of two lines. *)
Example step4_two_lines :
  count_char (ascii_of_nat 10) (sdk_dir_line ("/opt" +:+ nl +:+ "sdk")) = 2%nat.
Proof. reflexivity. Qed.

Example step4_android_home :
  files (snd (step4_createLocalProperties Sample.android_home_host Sample.sdk_world))
    !! LOCAL_PROPS Sample.android_home_host
  = Some (File ("sdk.dir=D:\\Sdk" +:+ nl)).
Proof. vm_compute. reflexivity. Qed.

Example step4_windows_default :
  files (snd (step4_createLocalProperties Sample.windows_host Sample.sdk_world))
    !! LOCAL_PROPS Sample.windows_host
  = Some (File ("sdk.dir=C:\\Users\\dev\\AppData\\Local\\Android\\Sdk" +:+ nl)).
Proof. vm_compute. reflexivity. Qed.

Example step4_no_sdk :
  files (snd (step4_createLocalProperties Sample.quiet_host Sample.sdk_world))
  = files Sample.sdk_world.
Proof. reflexivity. Qed.

End LocalPropertiesTheorem.

(** * What the script leaves alone *)

Section Frame.

Variable p : string.

Lemma keeps_ret {A} (a : A) : keeps p (ret a).
Proof. intros w. reflexivity. Qed.

Lemma keeps_mret {A} (a : A) : keeps p (mret a : M A).
Proof. intros w. reflexivity. Qed.

Lemma keeps_throw {A} (e : js_error) : keeps p (throw e : M A).
Proof. intros w. reflexivity. Qed.

Lemma keeps_mbind {A B} (m : M A) (k : A -> M B) :
  keeps p m -> (forall a, keeps p (k a)) -> keeps p (m ≫= k).
Proof.
  intros Hm Hk w. unfold mbind, M_bind. specialize (Hm w).
  destruct (m w) as [[a|e] w1]; simpl in *; [|exact Hm].
  now rewrite Hk.
Qed.

Lemma keeps_bind {A B} (m : M A) (k : A -> M B) :
  keeps p m -> (forall a, keeps p (k a)) -> keeps p (bind m k).
Proof. apply keeps_mbind. Qed.

Lemma keeps_print (i : log_item) : keeps p (print i).
Proof. intros w. reflexivity. Qed.

Lemma keeps_eprint (i : log_item) : keeps p (eprint i).
Proof. intros w. reflexivity. Qed.

Lemma keeps_log (msg : string) : keeps p (log msg).
Proof. apply keeps_print. Qed.

Lemma keeps_error (msg : string) : keeps p (error msg).
Proof. apply keeps_eprint. Qed.

Lemma keeps_existsSync (q : string) : keeps p (existsSync q).
Proof. intros w. reflexivity. Qed.

Lemma keeps_readFileSync (h : host) (q : string) : keeps p (readFileSync h q).
Proof. intros w. unfold readFileSync. now destruct (files w !! q) as [[| |]|]. Qed.

Lemma keeps_writeFileSync (h : host) (q s : string) :
  q <> p -> keeps p (writeFileSync h q s).
Proof.
  intros N w. unfold writeFileSync.
  destruct (files w !! q) as [[| |]|]; [| | |destruct (files w !! parent h q) as [[| |]|]];
    simpl; try reflexivity; now apply lookup_insert_ne.
Qed.

Lemma keeps_member (v : value) (k : string) : keeps p (member v k).
Proof. destruct v; intros w; reflexivity. Qed.

Lemma keeps_assign_member (v : value) (k : string) (x : value) :
  keeps p (assign_member v k x).
Proof. destruct v; intros w; reflexivity. Qed.

Lemma keeps_forEach {A} (l : list A) (f : A -> M unit) :
  (forall a, keeps p (f a)) -> keeps p (forEach l f).
Proof.
  intros Hf. induction l as [|a l IH]; simpl; [apply keeps_ret|].
  apply keeps_mbind; [apply Hf | intros _; exact IH].
Qed.

End Frame.

Section Paths.

#[local] Arguments String.append : simpl nomatch.

Variable h : host.

Lemma APP_CONFIG_not_CAP_CONFIG : CAP_CONFIG h <> APP_CONFIG h.
Proof.
  unfold CAP_CONFIG, APP_CONFIG, ROOT, under. intros E.
  do 2 apply String.app_inj in E. discriminate.
Qed.

Lemma APP_CONFIG_not_LOCAL_PROPS : LOCAL_PROPS h <> APP_CONFIG h.
Proof.
  unfold LOCAL_PROPS, ANDROID, APP_CONFIG, ROOT, under. intros E.
  rewrite !app_assoc in E. do 2 apply String.app_inj in E. discriminate.
Qed.

Lemma APP_CONFIG_not_MANIFEST : MANIFEST h <> APP_CONFIG h.
Proof.
  unfold MANIFEST, ANDROID, APP_CONFIG, ROOT, under. intros E.
  rewrite !app_assoc in E. do 2 apply String.app_inj in E. discriminate.
Qed.

Lemma APP_CONFIG_not_below_ANDROID : below h (ANDROID h) (APP_CONFIG h) = false.
Proof.
  unfold below. apply orb_false_iff. split.
  - apply String.eqb_neq. unfold ANDROID, APP_CONFIG, ROOT, under. intros E.
    do 2 apply String.app_inj in E. discriminate.
  - destruct (startsWith (APP_CONFIG h) (ANDROID h +:+ path_sep h)) eqn:S; [|reflexivity].
    apply startsWith_iff in S as [r E]. exfalso.
    unfold ANDROID, APP_CONFIG, ROOT, under in E. rewrite !app_assoc in E.
    do 2 apply String.app_inj in E. discriminate.
Qed.

End Paths.

Ltac keeps_step :=
  repeat match goal with
    | |- keeps _ (bind _ _) => apply keeps_bind; [|intros ?]
    | |- keeps _ (mbind _ _) => apply keeps_mbind; [|intros ?]
    | |- keeps _ (ret _) => apply keeps_ret
    | |- keeps _ (mret _) => apply keeps_mret
    | |- keeps _ (throw _) => apply keeps_throw
    | |- keeps _ (log _) => apply keeps_log
    | |- keeps _ (error _) => apply keeps_error
    | |- keeps _ (print _) => apply keeps_print
    | |- keeps _ (eprint _) => apply keeps_eprint
    | |- keeps _ (existsSync _) => apply keeps_existsSync
    | |- keeps _ (readFileSync _ _) => apply keeps_readFileSync
    | |- keeps _ (member _ _) => apply keeps_member
    | |- keeps _ (assign_member _ _ _) => apply keeps_assign_member
    | |- keeps _ (if ?b then _ else _) => destruct b
    | |- keeps _ (match ?x with _ => _ end) => destruct x
    end.

Section AppConfigReadOnly.

Variable h : host.

(** The programs the script starts leave the app configuration alone,
    whether they succeed or fail. *)
Hypothesis exec_keeps :
  forall cmd fs ok fs', exec h cmd fs = (ok, fs') ->
                        fs' !! APP_CONFIG h = fs !! APP_CONFIG h.

Lemma keeps_readJson (p q : string) : keeps p (readJson h q).
Proof. unfold readJson. keeps_step. Qed.

Lemma keeps_writeJson (p q : string) (v : value) :
  q <> p -> keeps p (writeJson h q v).
Proof.
  intros N. unfold writeJson. destruct (to_json v); [|apply keeps_throw].
  now apply keeps_writeFileSync.
Qed.

Lemma keeps_runs (cmd : string) : keeps (APP_CONFIG h) (runs h cmd).
Proof.
  intros w. unfold runs. destruct (exec h cmd (files w)) as [ok fs'] eqn:E; simpl.
  destruct ok; simpl; now apply (exec_keeps cmd _ _ _ E).
Qed.

Lemma keeps_rmSync : keeps (APP_CONFIG h) (rmSync h (ANDROID h)).
Proof.
  intros w. unfold rmSync. simpl.
  destruct (files w !! APP_CONFIG h) as [x|] eqn:E.
  - apply map_lookup_filter_Some. split; [exact E|]. simpl.
    apply APP_CONFIG_not_below_ANDROID.
  - apply map_lookup_filter_None. now left.
Qed.

Lemma keeps_step0 : keeps (APP_CONFIG h) (step0_updateConfig h).
Proof.
  unfold step0_updateConfig. keeps_step; try apply keeps_readJson.
  all: try (apply keeps_writeJson, APP_CONFIG_not_CAP_CONFIG).
Qed.

Lemma keeps_step0_5 (plugins : value) :
  keeps (APP_CONFIG h) (step0_5_managePlugins h plugins).
Proof.
  unfold step0_5_managePlugins. keeps_step; try apply keeps_readJson.
  apply keeps_forEach. intros e. unfold manage_plugin. keeps_step; apply keeps_runs.
Qed.

Lemma keeps_step2 : keeps (APP_CONFIG h) (step2_removeAndroid h).
Proof. unfold step2_removeAndroid. keeps_step. apply keeps_rmSync. Qed.

Lemma keeps_step4 : keeps (APP_CONFIG h) (step4_createLocalProperties h).
Proof.
  unfold step4_createLocalProperties, path_join_checked. keeps_step.
  all: apply keeps_writeFileSync, APP_CONFIG_not_LOCAL_PROPS.
Qed.

Lemma keeps_step5 (permissions : value) :
  keeps (APP_CONFIG h) (step5_injectPermissions h permissions).
Proof.
  unfold step5_injectPermissions. keeps_step.
  all: apply keeps_writeFileSync, APP_CONFIG_not_MANIFEST.
Qed.

Lemma keeps_build : keeps (APP_CONFIG h) (build h).
Proof.
  unfold build, step1_buildWeb, step3_generateAndroid, step6_finalSync.
  keeps_step; first [ apply keeps_step0 | apply keeps_step0_5 | apply keeps_step2
                    | apply keeps_step4 | apply keeps_step5 | apply keeps_runs ].
Qed.

(** C8. Provided the programs the script starts leave the app
    configuration alone, the entry of the app configuration file in the
    file system after a run is the one before the run: no step of the
    script writes or removes it. *)
Theorem run_keeps_app_config (w : world) :
  files (snd (run h w)) !! APP_CONFIG h = files w !! APP_CONFIG h.
Proof.
  unfold run.
  assert (K : keeps (APP_CONFIG h)
                (log "Starting Mobile Maker Build Process...";; build h)).
  { apply keeps_mbind; [apply keeps_log | intros _; apply keeps_build]. }
  specialize (K w).
  destruct ((log "Starting Mobile Maker Build Process...";; build h) w) as [[u|e] w'];
    simpl in *; exact K.
Qed.

End AppConfigReadOnly.

(** * The exit status *)

Section ExitStatus.

Variable h : host.

Lemma in_order_outcome (l : list (M unit)) (w : world) :
  (exists w', forEach l id w = (Ok tt, w') /\ completes l w w') \/
  (exists e w', forEach l id w = (Throw e, w') /\ fails l w e w').
Proof.
  revert w. induction l as [|s l IH]; intros w.
  - left. exists w. split; [reflexivity | constructor].
  - simpl. unfold mbind, M_bind, id. destruct (s w) as [[[]|e] w1] eqn:E.
    + destruct (IH w1) as [[w' [R C]]|[e [w' [R F]]]].
      * left. exists w'. split; [exact R | now apply completes_cons with w1].
      * right. exists e, w'. split; [exact R | now apply fails_later with w1].
    + right. exists e, w1. split; [reflexivity | now apply fails_here].
Qed.

(** The body of [try] is step 0 followed by the later steps in order. *)
Lemma build_in_order (w : world) :
  build h w
  = (let* config := step0_updateConfig h in
     forEach (later_steps h config) id;;
     log ("Build Successful! Run " +:+ dq +:+ "npx cap run android" +:+ dq
          +:+ " to launch.")) w.
Proof.
  unfold build, later_steps, bind, mbind, M_bind. simpl. unfold mbind, M_bind, id.
  destruct (step0_updateConfig h w) as [[config|e] w0]; [|reflexivity].
  destruct (member config "plugins" w0) as [[plugins|e] w1]; [|reflexivity].
  destruct (step0_5_managePlugins h plugins w1) as [[[]|e] w2]; [|reflexivity].
  destruct (step1_buildWeb h w2) as [[[]|e] w3]; [|reflexivity].
  destruct (step2_removeAndroid h w3) as [[[]|e] w4]; [|reflexivity].
  destruct (step3_generateAndroid h w4) as [[[]|e] w5]; [|reflexivity].
  destruct (step4_createLocalProperties h w5) as [[[]|e] w6]; [|reflexivity].
  destruct (member config "permissions" w6) as [[permissions|e] w7]; [|reflexivity].
  destruct (step5_injectPermissions h permissions w7) as [[[]|e] w8]; [|reflexivity].
  destruct (step6_finalSync h w8) as [[[]|e] w9]; reflexivity.
Qed.

Lemma completes_in_order (l : list (M unit)) (w w' : world) :
  completes l w w' -> forEach l id w = (Ok tt, w').
Proof.
  induction 1 as [w|s l w w1 w' E _ IH]; [reflexivity|].
  simpl. unfold mbind, M_bind, id. now rewrite E.
Qed.

Lemma fails_in_order (l : list (M unit)) (w : world) (e : js_error) (w' : world) :
  fails l w e w' -> forEach l id w = (Throw e, w').
Proof.
  induction 1 as [s l w e w' E|s l w w1 e w' E _ IH];
    simpl; unfold mbind, M_bind, id; now rewrite E.
Qed.

(** C5. The exit status of a run is 0 when step 0 and every later step
    complete without throwing. When a step throws, the steps before it
    having completed, the exit status is 1 and the last two things
    printed to the error stream are the failure banner and the error that
    step threw; nothing else changes after the throw. One of the two
    always happens. *)
Theorem run_exit_status (w : world) :
  (forall w', all_complete h w w' -> run h w = (0, w')) /\
  (forall e w', some_step_throws h w e w' ->
     fst (run h w) = 1 /\
     stderr (snd (run h w)) = stderr w' ++ [Line "Build Failed!"; Thrown e] /\
     stdout (snd (run h w)) = stdout w' /\
     files (snd (run h w)) = files w' /\
     commands (snd (run h w)) = commands w') /\
  ((exists w', all_complete h w w') \/ (exists e w', some_step_throws h w e w')).
Proof.
  assert (R : (log "Starting Mobile Maker Build Process...";; build h) w
              = build h (started w)) by reflexivity.
  unfold run. rewrite R, build_in_order. unfold bind, mbind, M_bind.
  split; [|split].
  - intros w' [config [w0 [w1 [E0 [C ->]]]]]. rewrite E0.
    now rewrite (completes_in_order _ _ _ C).
  - intros e w' [E0|[config [w0 [E0 F]]]]; rewrite E0.
    + simpl. repeat split; now rewrite <- List.app_assoc.
    + rewrite (fails_in_order _ _ _ _ F). simpl.
      repeat split; now rewrite <- List.app_assoc.
  - destruct (step0_updateConfig h (started w)) as [[config|e] w0] eqn:E0.
    + destruct (in_order_outcome (later_steps h config) w0)
        as [[w1 [_ C]]|[e [w' [_ F]]]].
      * left. exists (succeeded w1), config, w0, w1. now repeat split.
      * right. exists e, w'. right. now exists config, w0.
    + right. exists e, w0. now left.
Qed.

End ExitStatus.

(** * Missing files *)

Section MissingFiles.

#[local] Arguments APP_CONFIG : simpl never.
#[local] Arguments CAP_CONFIG : simpl never.
#[local] Arguments MANIFEST : simpl never.
#[local] Arguments of_json : simpl never.
#[local] Arguments String.append : simpl never.

Variable h : host.

Lemma step0_missing_app_config (w : world) :
  files w !! APP_CONFIG h = None ->
  step0_updateConfig h w
  = (Throw (Error ("File not found: " +:+ APP_CONFIG h)),
     snd (log "Step 0: Updating Project Configuration..." w)).
Proof.
  intros H.
  unfold step0_updateConfig, readJson, bind, mbind, M_bind, log, print, existsSync, throw.
  simpl. rewrite H. rewrite bool_decide_eq_false_2 by (intros [x Hx]; discriminate).
  reflexivity.
Qed.

Lemma step0_missing_cap_config (w : world) :
  files w !! CAP_CONFIG h = None ->
  files (snd (step0_updateConfig h w)) = files w /\
  commands (snd (step0_updateConfig h w)) = commands w /\
  forall text j,
    files w !! APP_CONFIG h = Some (File text) ->
    JSON_parse h text = Some j -> j <> JNull ->
    fst (step0_updateConfig h w) = Ok (of_json j) /\
    stderr (snd (step0_updateConfig h w))
    = stderr w ++ [Line "capacitor.config.json not found."].
Proof.
  intros H.
  unfold step0_updateConfig, readJson, bind, mbind, M_bind, log, error, print, eprint,
    existsSync, readFileSync, ret, mret, M_ret, throw.
  simpl. destruct (files w !! APP_CONFIG h) as [[|text|bytes]|] eqn:Ha.
  - rewrite bool_decide_eq_true_2 by eauto. simpl. rewrite Ha. simpl.
    split; [reflexivity|]. split; [reflexivity|]. intros; discriminate.
  - rewrite bool_decide_eq_true_2 by eauto. simpl. rewrite Ha. simpl.
    destruct (JSON_parse h text) as [j|] eqn:Pj; simpl.
    + destruct j; simpl; rewrite ?H;
        rewrite ?(bool_decide_eq_false_2 (is_Some None)) by (intros [x Hx]; discriminate);
        simpl; (split; [reflexivity|]); (split; [reflexivity|]);
        intros t j' Et Pj' Nj; injection Et as <-;
        rewrite Pj in Pj'; injection Pj' as <-; try congruence; now split.
    + split; [reflexivity|]. split; [reflexivity|].
      intros t j' Et Pj' Nj; injection Et as <-; congruence.
  - rewrite bool_decide_eq_true_2 by eauto. simpl. rewrite Ha. simpl.
    destruct (JSON_parse h (utf8_decode h bytes)) as [j|] eqn:Pj; simpl.
    + destruct j; simpl; rewrite ?H;
        rewrite ?(bool_decide_eq_false_2 (is_Some None)) by (intros [x Hx]; discriminate);
        simpl; (split; [reflexivity|]); (split; [reflexivity|]); intros; discriminate.
    + split; [reflexivity|]. split; [reflexivity|]. intros; discriminate.
  - rewrite bool_decide_eq_false_2 by (intros [x Hx]; discriminate). simpl.
    split; [reflexivity|]. split; [reflexivity|]. intros; discriminate.
Qed.

Lemma step5_missing_manifest (w : world) (permissions : value) :
  files w !! MANIFEST h = None ->
  fst (step5_injectPermissions h permissions w) = Ok tt /\
  files (snd (step5_injectPermissions h permissions w)) = files w /\
  commands (snd (step5_injectPermissions h permissions w)) = commands w /\
  stderr (snd (step5_injectPermissions h permissions w))
  = stderr w ++ [Line ("Manifest not found: " +:+ MANIFEST h)].
Proof.
  intros H.
  unfold step5_injectPermissions, bind, mbind, M_bind, log, error, print, eprint,
    existsSync.
  simpl. rewrite H. rewrite bool_decide_eq_false_2 by (intros [x Hx]; discriminate).
  simpl. now repeat split.
Qed.

End MissingFiles.

Section MissingFilesTheorem.

#[local] Arguments APP_CONFIG : simpl never.
#[local] Arguments CAP_CONFIG : simpl never.
#[local] Arguments MANIFEST : simpl never.
#[local] Arguments of_json : simpl never.
#[local] Arguments String.append : simpl never.


End MissingFilesTheorem.

Lemma run_keeps_app_config_witness :
  files (snd (run Sample.json_host Sample.config_world)) !! APP_CONFIG Sample.json_host
  = files Sample.config_world !! APP_CONFIG Sample.json_host.
Proof.
  apply (run_keeps_app_config Sample.json_host).
  intros cmd fs ok fs' E. injection E as _ <-. reflexivity.
Defined.

Example run_sample_exit_status :
  fst (run Sample.json_host Sample.config_world) = 0 /\
  fst (run Sample.quiet_host Sample.manifest_world) = 1.
Proof. split; vm_compute; reflexivity. Qed.

(** * The earlier version does the same *)

Section OlderVersion.

#[local] Arguments APP_CONFIG : simpl never.
#[local] Arguments CAP_CONFIG : simpl never.
#[local] Arguments PACKAGE_JSON : simpl never.
#[local] Arguments MANIFEST : simpl never.
#[local] Arguments of_json : simpl never.
#[local] Arguments to_json : simpl never.
#[local] Arguments String.append : simpl never.
#[local] Arguments lastIndexOf : simpl never.
#[local] Arguments inject : simpl never.
#[local] Arguments forEach : simpl never.
#[local] Arguments dependency_table : simpl never.

Variable h : host.

Lemma permissionsToInject_map (v : value) :
  Older.permissionsToInject v
  = map (fun e => permission_tag (fst e)) (List.filter (fun e => truthy (snd e)) (entries v)).
Proof.
  unfold Older.permissionsToInject.
  assert (G : forall l acc,
             fold_left (fun acc e => if truthy (snd e)
                                     then acc ++ [permission_tag (fst e)] else acc) l acc
             = acc ++ map (fun e => permission_tag (fst e))
                        (List.filter (fun e => truthy (snd e)) l)).
  { induction l as [|e l IH]; intros acc; simpl; [now rewrite List.app_nil_r|].
    rewrite IH. destruct (truthy (snd e)); simpl; [|reflexivity].
    now rewrite <- List.app_assoc. }
  apply (G _ []).
Qed.

(** The inline injection of the earlier [run] returns and writes what
    step 5 does. *)
Lemma older_injectPermissions_same (appConfig permissions : value) (w : world) :
  (forall w0, member appConfig "permissions" w0 = (Ok permissions, w0)) ->
  fst (Older.injectPermissions h appConfig w) = fst (step5_injectPermissions h permissions w) /\
  files (snd (Older.injectPermissions h appConfig w))
  = files (snd (step5_injectPermissions h permissions w)).
Proof.
  intros Hperm.
  unfold Older.injectPermissions, step5_injectPermissions, toInject, bind, mbind, M_bind,
    log, error, print, eprint, existsSync, readFileSync, writeFileSync.
  simpl. destruct (files w !! MANIFEST h) as [[|content|bytes]|] eqn:Hm.
  - rewrite bool_decide_eq_true_2 by eauto. simpl. rewrite Hm. now split.
  - rewrite bool_decide_eq_true_2 by eauto. simpl. rewrite Hm. simpl.
    destruct (lastIndexOf content closingTag =? -1); simpl; [now split|].
    rewrite Hperm, permissionsToInject_map.
    destruct (0 <? _); simpl; rewrite ?Hm; now split.
  - rewrite bool_decide_eq_true_2 by eauto. simpl. rewrite Hm. simpl.
    destruct (lastIndexOf (utf8_decode h bytes) closingTag =? -1); simpl; [now split|].
    rewrite Hperm, permissionsToInject_map.
    destruct (0 <? _); simpl; rewrite ?Hm; now split.
  - rewrite bool_decide_eq_false_2 by (intros [x Hx]; discriminate). simpl. now split.
Qed.

(** The earlier plugin management is step 0.5 whenever [package.json]
    exists. *)
Lemma older_managePlugins_same (plugins : value) (w : world) :
  is_Some (files w !! PACKAGE_JSON h) ->
  Older.managePlugins h plugins w = step0_5_managePlugins h plugins w.
Proof.
  intros Hp.
  unfold Older.managePlugins, Older.parseFile, step0_5_managePlugins, readJson, bind,
    mbind, M_bind, log, print, existsSync, readFileSync, throw.
  destruct (truthy plugins); simpl; [|reflexivity].
  rewrite bool_decide_eq_true_2 by exact Hp. reflexivity.
Qed.


End OlderVersion.

(** * The footprint of a run *)

Section Footprint.

#[local] Arguments String.append : simpl nomatch.

Variable h : host.
Variable p : string.

Hypothesis exec_keeps_p :
  forall cmd fs ok fs', exec h cmd fs = (ok, fs') -> fs' !! p = fs !! p.
Hypothesis not_cap_config : p <> CAP_CONFIG h.
Hypothesis not_local_props : p <> LOCAL_PROPS h.
Hypothesis not_manifest : p <> MANIFEST h.
Hypothesis not_in_android : below h (ANDROID h) p = false.

Lemma footprint_runs (cmd : string) : keeps p (runs h cmd).
Proof.
  intros w. unfold runs. destruct (exec h cmd (files w)) as [ok fs'] eqn:E; simpl.
  destruct ok; simpl; now apply (exec_keeps_p cmd _ _ _ E).
Qed.

Lemma footprint_rmSync : keeps p (rmSync h (ANDROID h)).
Proof.
  intros w. unfold rmSync. simpl.
  destruct (files w !! p) as [x|] eqn:E.
  - apply map_lookup_filter_Some. split; [exact E | exact not_in_android].
  - apply map_lookup_filter_None. now left.
Qed.

Lemma footprint_build : keeps p (build h).
Proof.
  unfold build, step0_updateConfig, step0_5_managePlugins, step1_buildWeb,
    step2_removeAndroid, step3_generateAndroid, step4_createLocalProperties,
    step5_injectPermissions, step6_finalSync, path_join_checked.
  keeps_step;
    first [ apply keeps_readJson
          | apply keeps_writeJson; congruence
          | apply keeps_writeFileSync; congruence
          | apply footprint_runs
          | apply footprint_rmSync
          | apply keeps_forEach; intros e; unfold manage_plugin; keeps_step;
            apply footprint_runs ].
Qed.

(** A run changes the file system in four places only: it writes the
    bridge configuration, the SDK location file and the manifest, and it
    removes the android directory. Every other path that the programs it
    starts leave alone holds after the run what it held before. *)
Theorem run_footprint (w : world) :
  files (snd (run h w)) !! p = files w !! p.
Proof.
  unfold run.
  assert (K : keeps p (log "Starting Mobile Maker Build Process...";; build h)).
  { apply keeps_mbind; [apply keeps_log | intros _; apply footprint_build]. }
  specialize (K w).
  destruct ((log "Starting Mobile Maker Build Process...";; build h) w) as [[u|e] w'];
    simpl in *; exact K.
Qed.

End Footprint.

Lemma run_footprint_witness :
  files (snd (run Sample.json_host Sample.config_world)) !! PACKAGE_JSON Sample.json_host
  = files Sample.config_world !! PACKAGE_JSON Sample.json_host.
Proof.
  apply (run_footprint Sample.json_host (PACKAGE_JSON Sample.json_host)).
  - intros cmd fs ok fs' E. injection E as _ <-. reflexivity.
  - vm_compute. discriminate.
  - vm_compute. discriminate.
  - vm_compute. discriminate.
  - vm_compute. reflexivity.
Defined.

(** * Removing the android directory *)

Section RemoveAndroid.

#[local] Arguments String.append : simpl nomatch.
#[local] Arguments ANDROID : simpl never.

Variable h : host.

Lemma MANIFEST_below_ANDROID : below h (ANDROID h) (MANIFEST h) = true.
Proof.
  unfold below. apply orb_true_iff. right. apply startsWith_iff.
  exists ("app" +:+ path_sep h +:+ "src" +:+ path_sep h +:+ "main" +:+ path_sep h
          +:+ "AndroidManifest.xml").
  unfold MANIFEST, under. now rewrite !app_assoc.
Qed.

Lemma LOCAL_PROPS_below_ANDROID : below h (ANDROID h) (LOCAL_PROPS h) = true.
Proof.
  unfold below. apply orb_true_iff. right. apply startsWith_iff.
  exists "local.properties". unfold LOCAL_PROPS, under. now rewrite !app_assoc.
Qed.

(** Step 2 returns. When the android directory exists, nothing at or
    below it exists afterwards, the manifest and the SDK location file
    included, and every other path is as before; when it does not exist,
    the step does nothing at all. *)
Theorem step2_clears_android (w : world) :
  fst (step2_removeAndroid h w) = Ok tt /\
  (is_Some (files w !! ANDROID h) ->
     (forall q, files (snd (step2_removeAndroid h w)) !! q
                = if below h (ANDROID h) q then None else files w !! q) /\
     files (snd (step2_removeAndroid h w)) !! MANIFEST h = None /\
     files (snd (step2_removeAndroid h w)) !! LOCAL_PROPS h = None /\
     files (snd (step2_removeAndroid h w)) !! ANDROID h = None) /\
  (files w !! ANDROID h = None -> snd (step2_removeAndroid h w) = w).
Proof.
  unfold step2_removeAndroid, bind, mbind, M_bind, existsSync, log, print, rmSync.
  simpl. split; [|split].
  - now destruct (bool_decide (is_Some (files w !! ANDROID h))).
  - intros Ha. rewrite bool_decide_eq_true_2 by exact Ha. simpl.
    assert (Q : forall q,
               filter (fun kv : string * node => below h (ANDROID h) (fst kv) = false)
                 (files w) !! q
               = if below h (ANDROID h) q then None else files w !! q).
    { intros q. destruct (below h (ANDROID h) q) eqn:B.
      - apply map_lookup_filter_None. right. intros x _. simpl. congruence.
      - destruct (files w !! q) as [x|] eqn:E.
        + apply map_lookup_filter_Some. now split.
        + apply map_lookup_filter_None. now left. }
    split; [exact Q|].
    rewrite !Q, MANIFEST_below_ANDROID, LOCAL_PROPS_below_ANDROID.
    unfold below at 1. now rewrite String.eqb_refl.
  - intros Ha. rewrite bool_decide_eq_false_2 by (rewrite Ha; intros [x Hx]; discriminate).
    now destruct w.
Qed.

End RemoveAndroid.

(** * Plugin management: the edges *)

Section PluginEdges.

#[local] Arguments PACKAGE_JSON : simpl never.
#[local] Arguments String.append : simpl never.
#[local] Arguments forEach : simpl never.
#[local] Arguments dependency_table : simpl never.
#[local] Arguments of_json : simpl never.

Variable h : host.

(** Step 0.5 does nothing at all for a falsy mapping, [package.json] is
    not even looked for; for a truthy mapping it fails before any command
    when [package.json] is missing or is not valid JSON. *)
Theorem step0_5_before_the_loop (plugins : value) (w : world) :
  (truthy plugins = false -> step0_5_managePlugins h plugins w = (Ok tt, w)) /\
  (truthy plugins = true -> files w !! PACKAGE_JSON h = None ->
     fst (step0_5_managePlugins h plugins w)
       = Throw (Error ("File not found: " +:+ PACKAGE_JSON h)) /\
     files (snd (step0_5_managePlugins h plugins w)) = files w /\
     commands (snd (step0_5_managePlugins h plugins w)) = commands w) /\
  (truthy plugins = true ->
     forall text, files w !! PACKAGE_JSON h = Some (File text) ->
                  JSON_parse h text = None ->
     fst (step0_5_managePlugins h plugins w) = Throw SyntaxError /\
     files (snd (step0_5_managePlugins h plugins w)) = files w /\
     commands (snd (step0_5_managePlugins h plugins w)) = commands w).
Proof.
  unfold step0_5_managePlugins, readJson, bind, mbind, M_bind, log, print,
    existsSync, readFileSync, throw.
  split; [|split].
  - intros ->. reflexivity.
  - intros -> Hp. simpl. rewrite Hp.
    rewrite bool_decide_eq_false_2 by (intros [x Hx]; discriminate). now repeat split.
  - intros -> text Hp Pp. simpl. rewrite Hp.
    rewrite bool_decide_eq_true_2 by eauto. simpl. rewrite Hp, Pp. now repeat split.
Qed.

Lemma manage_plugin_no_command (installed : Obj.t value) (e : string * value) :
  plugin_command installed e = [] -> manage_plugin h installed e = ret tt.
Proof.
  unfold plugin_command, manage_plugin.
  destruct (truthy (snd e)), (truthy (get_computed installed (fst e))); simpl;
    (discriminate || reflexivity).
Qed.

Lemma manage_plugin_command (installed : Obj.t value) (e : string * value) (cmd : string) :
  plugin_command installed e = [cmd] ->
  exists msg, manage_plugin h installed e = (log msg;; runs h cmd).
Proof.
  unfold plugin_command, manage_plugin.
  destruct (truthy (snd e)), (truthy (get_computed installed (fst e))); simpl;
    intros E; try discriminate; injection E as <-; eexists; reflexivity.
Qed.

Lemma forEach_cons {A} (x : A) (l : list A) (f : A -> M unit) :
  forEach (x :: l) f = (f x;; forEach l f).
Proof. reflexivity. Qed.

Lemma forEach_app {A} (l1 l2 : list A) (f : A -> M unit) (w : world) :
  forEach (l1 ++ l2) f w
  = match forEach l1 f w with
    | (Ok _, w1) => forEach l2 f w1
    | (Throw e, w1) => (Throw e, w1)
    end.
Proof.
  revert w. induction l1 as [|x l1 IH]; intros w; [reflexivity|].
  change ((x :: l1) ++ l2) with (x :: (l1 ++ l2)). rewrite !forEach_cons.
  unfold mbind, M_bind.
  destruct (f x w) as [[[]|e] w1]; [apply IH | reflexivity].
Qed.

Lemma forEach_no_command (installed : Obj.t value) (l : list (string * value)) (w : world) :
  (forall e, In e l -> plugin_command installed e = []) ->
  forEach l (manage_plugin h installed) w = (Ok tt, w).
Proof.
  induction l as [|e l IH]; intros H; [reflexivity|].
  rewrite forEach_cons. unfold mbind, M_bind.
  rewrite (manage_plugin_no_command installed e (H e (or_introl eq_refl))).
  apply IH. intros e' He'. apply H. now right.
Qed.

(** When every plugin of the mapping is already in the state its flag
    asks for, and the loop's test agrees with what is listed, step 0.5
    starts no command and changes no file: a settled project is a fixed
    point, whatever the commands would do. *)
Theorem step0_5_settled (w : world) (plugins : value) (text : string) (pkg : Obj.t json) :
  truthy plugins = true ->
  files w !! PACKAGE_JSON h = Some (File text) ->
  JSON_parse h text = Some (JObj pkg) ->
  (forall p flag, In (p, flag) (entries plugins) ->
     test_agrees (listed_dependencies h (files w)) p /\
     present h (files w) p = truthy flag) ->
  fst (step0_5_managePlugins h plugins w) = Ok tt /\
  files (snd (step0_5_managePlugins h plugins w)) = files w /\
  commands (snd (step0_5_managePlugins h plugins w)) = commands w.
Proof.
  intros Ht Hp Pp Hs.
  destruct (step0_5_found h w plugins text pkg Ht Hp Pp) as [w0 [F0 [C0 E0]]].
  rewrite E0, forEach_no_command; [now repeat split|].
  intros [p flag] He. destruct (Hs p flag He) as [A S].
  unfold test_agrees in A. fold (present h (files w) p) in A. rewrite S in A.
  unfold plugin_command. simpl. rewrite !A. now destruct (truthy flag).
Qed.

(** The loop stops at the first command that fails: the plugins before
    it have been handled, the error names the command, the command is
    the last one on record, the file system is the one the failed
    command left behind, and the plugins after it are not looked at. *)
Theorem manage_plugins_stop_at_failure
    (installed : Obj.t value) (before after : list (string * value))
    (e : string * value) (cmd : string) (w w1 : world) :
  forEach before (manage_plugin h installed) w = (Ok tt, w1) ->
  plugin_command installed e = [cmd] ->
  fst (exec h cmd (files w1)) = false ->
  exists w',
    forEach (before ++ e :: after) (manage_plugin h installed) w
      = (Throw (ExecError cmd), w') /\
    files w' = snd (exec h cmd (files w1)) /\
    commands w' = commands w1 ++ [cmd].
Proof.
  intros Hb Hc Hx. rewrite forEach_app, Hb, forEach_cons. unfold mbind, M_bind.
  destruct (manage_plugin_command installed e cmd Hc) as [msg ->].
  unfold mbind, M_bind, log, print, runs. simpl. rewrite Hx.
  eexists. split; [reflexivity|]. now split.
Qed.

End PluginEdges.

Lemma step0_5_settled_witness :
  fst (step0_5_managePlugins Sample.ledger_host Sample.inherited_plugins
         (Sample.with_file (PACKAGE_JSON Sample.ledger_host) "+constructor;"
            Sample.empty_world)) = Ok tt /\
  files (snd (step0_5_managePlugins Sample.ledger_host Sample.inherited_plugins
                (Sample.with_file (PACKAGE_JSON Sample.ledger_host) "+constructor;"
                   Sample.empty_world)))
  = files (Sample.with_file (PACKAGE_JSON Sample.ledger_host) "+constructor;"
             Sample.empty_world) /\
  commands (snd (step0_5_managePlugins Sample.ledger_host Sample.inherited_plugins
                   (Sample.with_file (PACKAGE_JSON Sample.ledger_host) "+constructor;"
                      Sample.empty_world)))
  = commands (Sample.with_file (PACKAGE_JSON Sample.ledger_host) "+constructor;"
                Sample.empty_world).
Proof.
  apply (step0_5_settled Sample.ledger_host _ Sample.inherited_plugins "+constructor;"
           [("dependencies", JObj (Sample.ledger "+constructor;" None))]).
  - reflexivity.
  - vm_compute. reflexivity.
  - reflexivity.
  - intros p flag [E|[]]. injection E as <- <-. split; vm_compute; reflexivity.
Defined.

Lemma manage_plugins_stop_at_failure_witness :
  exists w',
    forEach ([("@capacitor/splash-screen", VBool true)]
             ++ ("@capacitor/camera", VBool true) :: [("left-pad", VBool true)])
      (manage_plugin (Cases.failing_host "npm install @capacitor/camera")
         (listed_dependencies Sample.json_host (files Sample.config_world)))
      Sample.config_world
      = (Throw (ExecError "npm install @capacitor/camera"), w') /\
    files w' = <[Cases.failure_log := File "npm install @capacitor/camera"]>
                 (files Sample.config_world) /\
    commands w' = commands Sample.config_world ++ ["npm install @capacitor/camera"].
Proof.
  apply (manage_plugins_stop_at_failure
           (Cases.failing_host "npm install @capacitor/camera")
           (listed_dependencies Sample.json_host (files Sample.config_world))
           [("@capacitor/splash-screen", VBool true)] [("left-pad", VBool true)]
           ("@capacitor/camera", VBool true) "npm install @capacitor/camera"
           Sample.config_world Sample.config_world).
  - vm_compute. reflexivity.
  - vm_compute. reflexivity.
  - reflexivity.
Defined.

(** * Permission injection: the edges *)

Section InjectionEdges.

#[local] Arguments String.append : simpl nomatch.
#[local] Arguments lastIndexOf : simpl never.
#[local] Arguments toInject : simpl never.
#[local] Arguments inject : simpl never.
#[local] Arguments MANIFEST : simpl never.

Variable h : host.

(** A manifest that does not contain the closing tag is never written,
    whatever the permissions: the step prints a warning to the error
    stream and returns. *)
Theorem step5_manifest_without_closing_tag
    (w : world) (content : string) (permissions : value) :
  files w !! MANIFEST h = Some (File content) ->
  includes content closingTag = false ->
  fst (step5_injectPermissions h permissions w) = Ok tt /\
  files (snd (step5_injectPermissions h permissions w)) = files w /\
  commands (snd (step5_injectPermissions h permissions w)) = commands w /\
  stderr (snd (step5_injectPermissions h permissions w))
  = stderr w ++ [Line "Invalid Manifest format."].
Proof.
  intros Hm Hinc.
  assert (Hidx : lastIndexOf content closingTag = -1).
  { unfold lastIndexOf. apply lastIndexOf_from_none; [lia | exact Hinc]. }
  unfold step5_injectPermissions, bind, mbind, M_bind, log, error, print, eprint,
    existsSync, readFileSync.
  simpl. rewrite Hm. rewrite bool_decide_eq_true_2 by eauto. simpl.
  rewrite Hm. simpl. rewrite Hidx. simpl. now repeat split.
Qed.


End InjectionEdges.

Lemma step5_manifest_without_closing_tag_witness :
  fst (step5_injectPermissions Sample.quiet_host Sample.permissions
         Cases.open_manifest_world) = Ok tt /\
  files (snd (step5_injectPermissions Sample.quiet_host Sample.permissions
                Cases.open_manifest_world)) = files Cases.open_manifest_world /\
  commands (snd (step5_injectPermissions Sample.quiet_host Sample.permissions
                   Cases.open_manifest_world)) = commands Cases.open_manifest_world /\
  stderr (snd (step5_injectPermissions Sample.quiet_host Sample.permissions
                 Cases.open_manifest_world))
  = stderr Cases.open_manifest_world ++ [Line "Invalid Manifest format."].
Proof.
  apply (step5_manifest_without_closing_tag Sample.quiet_host Cases.open_manifest_world
           "<manifest>" Sample.permissions).
  - vm_compute. reflexivity.
  - vm_compute. reflexivity.
Defined.


(** * The SDK location: when step 4 throws *)

Section LocalPropertiesEdges.

#[local] Arguments String.append : simpl never.
#[local] Arguments LOCAL_PROPS : simpl never.
#[local] Arguments ANDROID : simpl never.
#[local] Arguments escape_backslashes : simpl never.

(** Step 4 throws a type error exactly when neither SDK variable is set
    and the variable the platform default starts from ([LOCALAPPDATA] on
    Windows, [HOME] on macOS) is not set either; it then writes nothing.
    It throws the error of the write, and writes nothing either, when it
    has found the SDK and the location file cannot be written: the path
    is a directory, or the file does not exist and the android directory
    is not there. In every other case it returns, with or without an
    SDK. *)
Theorem step4_throws_without_base_variable (h : host) (w : world) :
  path_sep h = "/" \/ path_sep h = "\" ->
  let step := step4_createLocalProperties h w in
  let sdk_found :=
    match resolved_sdk_path h with
    | Some p => bool_decide (is_Some (files w !! p))
    | None => false
    end in
  let unwritable :=
    match files w !! LOCAL_PROPS h, files w !! ANDROID h with
    | Some Dir, _ => true
    | Some _, _ => false
    | None, Some Dir => false
    | None, _ => true
    end in
  if no_sdk_variable h && base_missing h
  then fst step = Throw TypeError /\ files (snd step) = files w
  else if sdk_found && unwritable
  then (exists code, fst step = Throw (SystemError code)) /\ files (snd step) = files w
  else fst step = Ok tt.
Proof.
  intros Hsep step sdk_found unwritable. subst step sdk_found unwritable. cbv beta.
  destruct (step4_shape h w) as [w1 [E [F1 C1]]]. rewrite E. clear E.
  destruct (no_sdk_variable h && base_missing h) eqn:B; [now split|].
  destruct (resolved_sdk_path h) as [p|]; [|reflexivity].
  destruct (bool_decide (is_Some (files w !! p))); [|reflexivity].
  rewrite write_LOCAL_PROPS by exact Hsep. rewrite F1.
  destruct (files w !! LOCAL_PROPS h) as [[| |]|];
    [| | |destruct (files w !! ANDROID h) as [[| |]|]]; simpl;
    try reflexivity; (split; [eexists; reflexivity | exact F1]).
Qed.

End LocalPropertiesEdges.

Lemma step4_throws_without_base_variable_witness :
  (exists code,
     fst (step4_createLocalProperties Sample.android_home_host Cases.sdk_only_world)
     = Throw (SystemError code)) /\
  files (snd (step4_createLocalProperties Sample.android_home_host Cases.sdk_only_world))
  = files Cases.sdk_only_world.
Proof.
  apply (step4_throws_without_base_variable Sample.android_home_host Cases.sdk_only_world).
  right. reflexivity.
Defined.

Example step4_type_error :
  fst (step4_createLocalProperties Cases.bare_windows_host Sample.sdk_world)
  = Throw TypeError.
Proof. reflexivity. Qed.

(** * The configuration update: the edges *)

Section UpdateConfigEdges.

#[local] Arguments APP_CONFIG : simpl never.
#[local] Arguments CAP_CONFIG : simpl never.
#[local] Arguments of_json : simpl never.
#[local] Arguments to_json : simpl never.
#[local] Arguments String.append : simpl never.

Variable h : host.

Lemma roundtrip_items (items : list json) :
  map (fun x => match to_json x with Some j => j | None => JNull end)
    (map of_json items) = map stringified items.
Proof.
  induction items as [|x items IH]; simpl; [reflexivity|].
  now rewrite to_json_of_json, IH.
Qed.


(** An app configuration that is not valid JSON, or that is [null],
    makes the run fail like a missing one: exit status 1, the syntax or
    type error printed last on the error stream, no command started and
    no file changed. *)
Theorem run_with_unreadable_app_config (w : world) (text : string) :
  files w !! APP_CONFIG h = Some (File text) ->
  JSON_parse h text = None \/ JSON_parse h text = Some JNull ->
  fst (run h w) = 1 /\
  files (snd (run h w)) = files w /\
  commands (snd (run h w)) = commands w /\
  stderr (snd (run h w))
  = stderr w ++ [Line "Build Failed!";
                 Thrown (match JSON_parse h text with
                         | Some _ => TypeError
                         | None => SyntaxError
                         end)].
Proof.
  intros Ha Pa.
  assert (R : (log "Starting Mobile Maker Build Process...";; build h) w
              = build h (started w)) by reflexivity.
  unfold run. rewrite R, build_in_order.
  unfold step0_updateConfig, readJson, bind, mbind, M_bind, log, error,
    print, eprint, existsSync, readFileSync, ret, mret, M_ret, throw, started.
  simpl. rewrite Ha. rewrite bool_decide_eq_true_2 by eauto. simpl.
  rewrite Ha. simpl.
  destruct Pa as [-> | ->]; simpl; repeat split; now rewrite <- List.app_assoc.
Qed.

End UpdateConfigEdges.


Example step0_null_bridge_config :
  fst (step0_updateConfig (Cases.bridge_host JNull) Sample.config_world) = Throw TypeError.
Proof. vm_compute. reflexivity. Qed.

Lemma run_with_unreadable_app_config_witness :
  fst (run Sample.quiet_host Cases.bad_config_world) = 1 /\
  files (snd (run Sample.quiet_host Cases.bad_config_world)) = files Cases.bad_config_world /\
  commands (snd (run Sample.quiet_host Cases.bad_config_world))
    = commands Cases.bad_config_world /\
  stderr (snd (run Sample.quiet_host Cases.bad_config_world))
  = stderr Cases.bad_config_world
    ++ [Line "Build Failed!";
        Thrown (match JSON_parse Sample.quiet_host "{ appId: " with
                | Some _ => TypeError
                | None => SyntaxError
                end)].
Proof.
  apply (run_with_unreadable_app_config Sample.quiet_host Cases.bad_config_world "{ appId: ").
  - vm_compute. reflexivity.
  - left. reflexivity.
Defined.

(** * Running the configuration update again *)

Section Resync.

#[local] Arguments of_json : simpl never.
#[local] Arguments to_json : simpl never.
#[local] Arguments APP_CONFIG : simpl never.
#[local] Arguments CAP_CONFIG : simpl never.
#[local] Arguments updated_capConfig : simpl never.
#[local] Arguments updated_server : simpl never.

(** A serialised object is read and serialised again as it is. *)
Lemma to_json_props_of_json_props (o : Obj.t value) :
  to_json_props (of_json_props (to_json_props o)) = to_json_props o.
Proof.
  induction o as [|[k x] o IH]; simpl; [reflexivity|].
  destruct (to_json x) as [j|] eqn:E; [|exact IH]. simpl.
  now rewrite to_json_of_json, (to_json_stable x j E), IH.
Qed.

(** Setting a property to a value that serialises like the one it had,
    or to [undefined] when there was none, does not change what is
    serialised. *)
Lemma to_json_props_set_same (o : Obj.t value) (k : string) (v : value) :
  match to_json v with
  | Some j => exists v0, Obj.get o k = Some v0 /\ to_json v0 = Some j
  | None => Obj.get o k = None
  end ->
  to_json_props (Obj.set o k v) = to_json_props o.
Proof.
  induction o as [|[k' v'] o IH]; simpl; intros H.
  - destruct (to_json v); [|reflexivity]. destruct H as [v0 [E _]]. discriminate.
  - destruct (String.eqb k k') eqn:E; simpl.
    + destruct (to_json v) as [j|].
      * destruct H as [v0 [E0 T0]]. injection E0 as ->. now rewrite T0.
      * discriminate.
    + now rewrite IH.
Qed.

Lemma assign_app {A} (o l : Obj.t A) :
  List.NoDup (Obj.keys (o ++ l)) -> Obj.assign o l = o ++ l.
Proof.
  unfold Obj.assign. revert o. induction l as [|[k v] l IH]; intros o H; simpl.
  - now rewrite List.app_nil_r.
  - assert (S : Obj.set o k v = o ++ [(k, v)]).
    { assert (Hk : ~ In k (Obj.keys o)).
      { unfold Obj.keys in H. rewrite List.map_app in H. simpl in H.
        apply List.NoDup_remove_2 in H. intros Hin. apply H.
        apply List.in_or_app. now left. }
      clear H IH. induction o as [|[k' v'] o IHo]; simpl; [reflexivity|].
      destruct (String.eqb_spec k k') as [->|N].
      - exfalso. apply Hk. now left.
      - rewrite IHo; [reflexivity|]. intros Hin. apply Hk. now right. }
    rewrite S, IH; rewrite <- List.app_assoc; [reflexivity | exact H].
Qed.

Lemma NoDup_keys_to_json_props (o : Obj.t value) :
  List.NoDup (Obj.keys o) -> List.NoDup (Obj.keys (to_json_props o)).
Proof.
  induction o as [|[k x] o IH]; simpl; intros H; [constructor|].
  inversion H as [|? ? Hx Hl]; subst.
  destruct (to_json x); simpl; [|now apply IH].
  constructor; [|now apply IH]. intros Hin. apply Hx. now apply keys_to_json_props.
Qed.

(** A property of the app configuration is a parsed value or [undefined]. *)
Lemma to_json_set_condition (app l : Obj.t json) (o : Obj.t value) (k k' : string) :
  inherited k = false ->
  Obj.get o k' = Obj.get (of_json_props l) k' ->
  Obj.get l k' = to_json (get_computed (of_json_props app) k) ->
  match to_json (get_computed (of_json_props app) k) with
  | Some j => exists v0, Obj.get o k' = Some v0 /\ to_json v0 = Some j
  | None => Obj.get o k' = None
  end.
Proof.
  intros Hk Ho Hl. rewrite Ho, get_of_json_props, Hl.
  destruct (to_json (get_computed (of_json_props app) k)) as [j|] eqn:Ej; simpl;
    [|reflexivity].
  exists (of_json j). split; [reflexivity|].
  rewrite to_json_of_json. f_equal. exact (to_json_stable _ _ Ej).
Qed.

(** What step 0 writes is a fixed point of the update: updating the
    written document again with the same app configuration gives the
    same document. *)
Lemma updated_capConfig_again (app cap : Obj.t json) :
  List.NoDup (Obj.keys cap) ->
  to_json_props
    (updated_capConfig (of_json_props app)
       (of_json_props
          (to_json_props (updated_capConfig (of_json_props app) (of_json_props cap)))))
  = to_json_props (updated_capConfig (of_json_props app) (of_json_props cap)).
Proof.
  intros Hkeys.
  set (a := of_json_props app). set (c := of_json_props cap).
  assert (Hc : List.NoDup (Obj.keys c)) by (unfold c; now rewrite keys_of_json_props).
  pose proof (NoDup_keys_updated a c Hc) as HU.
  pose proof (NoDup_keys_updated_server a c) as HS.
  set (U := to_json_props (updated_capConfig a c)).
  set (S := to_json_props (updated_server a c)).
  assert (G : forall k, Obj.get U k
                        = match Obj.get (updated_capConfig a c) k with
                          | Some v => to_json v
                          | None => None
                          end) by (intros k; now apply get_to_json_props).
  assert (GS : forall k, Obj.get S k
                         = match Obj.get (updated_server a c) k with
                           | Some v => to_json v
                           | None => None
                           end) by (intros k; now apply get_to_json_props).
  assert (G1 : Obj.get U "appId" = to_json (get_computed a "appId")).
  { rewrite G, get_updated. reflexivity. }
  assert (G2 : Obj.get U "appName" = to_json (get_computed a "appName")).
  { rewrite G, get_updated. reflexivity. }
  assert (G3 : Obj.get U "server" = Some (JObj S)).
  { rewrite G, get_updated. reflexivity. }
  assert (G4 : truthy (get_computed a "backgroundColor") = true ->
               Obj.get U "backgroundColor" = to_json (get_computed a "backgroundColor")).
  { intros T. rewrite G, get_updated, T. reflexivity. }
  assert (S1 : Obj.get S "url" = to_json (get_computed a "webUrl")).
  { rewrite GS. unfold updated_server.
    rewrite get_set_ne, get_set_eq by discriminate. reflexivity. }
  assert (S2 : Obj.get S "cleartext" = Some (JBool true)).
  { rewrite GS. unfold updated_server. now rewrite get_set_eq. }
  assert (HSk : List.NoDup (Obj.keys (of_json_props S))).
  { rewrite keys_of_json_props. apply NoDup_keys_to_json_props, HS. }
  (* the second update, one assignment after the other *)
  set (o0 := of_json_props U).
  set (o1 := Obj.set o0 "appId" (get_computed a "appId")).
  set (o2 := Obj.set o1 "appName" (get_computed a "appName")).
  assert (E1 : to_json_props o1 = U).
  { unfold o1. rewrite to_json_props_set_same; [apply to_json_props_of_json_props|].
    now apply (to_json_set_condition app U). }
  assert (E2 : to_json_props o2 = U).
  { unfold o2. rewrite to_json_props_set_same; [exact E1|].
    apply (to_json_set_condition app U); [reflexivity | | exact G2].
    unfold o1. now rewrite get_set_ne by discriminate. }
  assert (R3 : Obj.get o2 "server" = Some (VObj (of_json_props S))).
  { unfold o2, o1, o0. rewrite !get_set_ne by discriminate.
    now rewrite get_of_json_props, G3. }
  set (server2 := Obj.set (Obj.set (spread (or_else (get_computed o2 "server") (VObj [])))
                             "url" (get_computed a "webUrl"))
                    "cleartext" (VBool true)).
  assert (ES : to_json_props server2 = S).
  { unfold server2, get_computed. rewrite R3. unfold or_else, spread. simpl.
    rewrite (assign_app [] (of_json_props S)) by exact HSk. simpl.
    rewrite to_json_props_set_same.
    - rewrite to_json_props_set_same; [apply to_json_props_of_json_props|].
      now apply (to_json_set_condition app S).
    - change (to_json (VBool true)) with (Some (JBool true)).
      exists (VBool true). split; [|reflexivity].
      rewrite get_set_ne by discriminate. now rewrite get_of_json_props, S2. }
  set (o3 := Obj.set o2 "server" (VObj server2)).
  assert (E3 : to_json_props o3 = U).
  { unfold o3. rewrite to_json_props_set_same; [exact E2|].
    rewrite to_json_VObj, ES. exists (VObj (of_json_props S)). split; [exact R3|].
    rewrite to_json_VObj. do 2 f_equal. apply to_json_props_of_json_props. }
  change (to_json_props (updated_capConfig a o0) = U).
  unfold updated_capConfig. fold o1. fold o2. fold server2. fold o3.
  destruct (truthy (get_computed a "backgroundColor")) eqn:T; [|exact E3].
  rewrite to_json_props_set_same; [exact E3|].
  apply (to_json_set_condition app U); [reflexivity | | now apply G4].
  unfold o3, o2, o1, o0. now rewrite !get_set_ne by discriminate.
Qed.

End Resync.

Section ResyncTheorem.

#[local] Arguments of_json : simpl never.
#[local] Arguments to_json : simpl never.
#[local] Arguments APP_CONFIG : simpl never.
#[local] Arguments CAP_CONFIG : simpl never.
#[local] Arguments updated_capConfig : simpl never.

(** Step 0 is idempotent: with both configurations holding objects, on
    a host whose [JSON.parse] undoes its [JSON.stringify] on the written
    document, a second run of step 0 with the same app configuration
    leaves the file system exactly as the first run left it. *)
Theorem step0_twice
    (h : host) (w : world) (appText capText : string) (app cap : Obj.t json) :
  files w !! APP_CONFIG h = Some (File appText) ->
  JSON_parse h appText = Some (JObj app) ->
  files w !! CAP_CONFIG h = Some (File capText) ->
  JSON_parse h capText = Some (JObj cap) ->
  List.NoDup (Obj.keys cap) ->
  (let written :=
     JObj (to_json_props (updated_capConfig (of_json_props app) (of_json_props cap))) in
   JSON_parse h (JSON_render h written) = Some written) ->
  files (snd (step0_updateConfig h (snd (step0_updateConfig h w))))
  = files (snd (step0_updateConfig h w)).
Proof.
  intros Ha Pa Hc Pc Hkeys Hrt. simpl in Hrt.
  destruct (step0_found h w appText capText app cap Ha Pa Hc Pc) as [_ F1].
  set (w1 := snd (step0_updateConfig h w)) in *.
  assert (Ha1 : files w1 !! APP_CONFIG h = Some (File appText)).
  { rewrite F1, lookup_insert_ne; [exact Ha | apply APP_CONFIG_not_CAP_CONFIG]. }
  assert (Hc1 : files w1 !! CAP_CONFIG h
                = Some (File (JSON_render h
                                (JObj (to_json_props
                                         (updated_capConfig (of_json_props app)
                                            (of_json_props cap))))))).
  { rewrite F1. apply lookup_insert_eq. }
  destruct (step0_found h w1 appText _ app _ Ha1 Pa Hc1 Hrt) as [_ F2].
  rewrite F2, updated_capConfig_again by exact Hkeys.
  rewrite F1. apply insert_insert_eq.
Qed.

End ResyncTheorem.

Lemma step0_twice_witness :
  files (snd (step0_updateConfig Cases.sync_host
                (snd (step0_updateConfig Cases.sync_host Sample.config_world))))
  = files (snd (step0_updateConfig Cases.sync_host Sample.config_world)).
Proof.
  apply (step0_twice Cases.sync_host Sample.config_world Sample.app_text Sample.cap_text
           Sample.app_document Sample.cap_document).
  - vm_compute. reflexivity.
  - reflexivity.
  - vm_compute. reflexivity.
  - reflexivity.
  - repeat constructor; simpl; intuition discriminate.
  - vm_compute. reflexivity.
Defined.

(** * The commands of a run *)

Section Commands.

Variable P : string -> Prop.

Lemma emits_ret {A} (a : A) : emits P (ret a).
Proof. intros w. exists []. now rewrite List.app_nil_r. Qed.

Lemma emits_mret {A} (a : A) : emits P (mret a : M A).
Proof. apply emits_ret. Qed.

Lemma emits_throw {A} (e : js_error) : emits P (throw e : M A).
Proof. intros w. exists []. now rewrite List.app_nil_r. Qed.

Lemma emits_mbind {A B} (m : M A) (k : A -> M B) :
  emits P m -> (forall a, emits P (k a)) -> emits P (m ≫= k).
Proof.
  intros Hm Hk w. unfold mbind, M_bind. destruct (Hm w) as [c1 [E1 F1]].
  destruct (m w) as [[a|e] w1]; simpl in *.
  - destruct (Hk a w1) as [c2 [E2 F2]]. exists (c1 ++ c2).
    rewrite E2, E1, List.app_assoc. split; [reflexivity | now apply Forall_app].
  - now exists c1.
Qed.

Lemma emits_bind {A B} (m : M A) (k : A -> M B) :
  emits P m -> (forall a, emits P (k a)) -> emits P (bind m k).
Proof. apply emits_mbind. Qed.

Lemma emits_print (i : log_item) : emits P (print i).
Proof. intros w. exists []. now rewrite List.app_nil_r. Qed.

Lemma emits_eprint (i : log_item) : emits P (eprint i).
Proof. intros w. exists []. now rewrite List.app_nil_r. Qed.

Lemma emits_existsSync (q : string) : emits P (existsSync q).
Proof. intros w. exists []. now rewrite List.app_nil_r. Qed.

Lemma emits_readFileSync (h : host) (q : string) : emits P (readFileSync h q).
Proof.
  intros w. exists []. rewrite List.app_nil_r. unfold readFileSync.
  now destruct (files w !! q) as [[| |]|].
Qed.

Lemma emits_writeFileSync (h : host) (q s : string) : emits P (writeFileSync h q s).
Proof.
  intros w. exists []. rewrite List.app_nil_r. unfold writeFileSync.
  destruct (files w !! q) as [[| |]|]; [| | |destruct (files w !! parent h q) as [[| |]|]];
    (split; [reflexivity | constructor]).
Qed.

Lemma emits_member (v : value) (k : string) : emits P (member v k).
Proof. intros w. exists []. rewrite List.app_nil_r. now destruct v. Qed.

Lemma emits_assign_member (v : value) (k : string) (x : value) :
  emits P (assign_member v k x).
Proof. intros w. exists []. rewrite List.app_nil_r. now destruct v. Qed.

Lemma emits_forEach {A} (l : list A) (f : A -> M unit) :
  (forall a, emits P (f a)) -> emits P (forEach l f).
Proof.
  intros Hf. induction l as [|a l IH]; simpl; [apply emits_ret|].
  apply emits_mbind; [apply Hf | intros _; exact IH].
Qed.

Lemma emits_runs (h : host) (cmd : string) : P cmd -> emits P (runs h cmd).
Proof.
  intros Hc w. exists [cmd]. unfold runs.
  destruct (exec h cmd (files w)) as [[] fs']; simpl;
    (split; [reflexivity | now constructor]).
Qed.

Lemma emits_rmSync (h : host) (dir : string) : emits P (rmSync h dir).
Proof. intros w. exists []. now rewrite List.app_nil_r. Qed.

End Commands.

Ltac emits_step :=
  repeat match goal with
    | |- emits _ (bind _ _) => apply emits_bind; [|intros ?]
    | |- emits _ (mbind _ _) => apply emits_mbind; [|intros ?]
    | |- emits _ (ret _) => apply emits_ret
    | |- emits _ (mret _) => apply emits_mret
    | |- emits _ (throw _) => apply emits_throw
    | |- emits _ (log _) => apply emits_print
    | |- emits _ (error _) => apply emits_eprint
    | |- emits _ (print _) => apply emits_print
    | |- emits _ (eprint _) => apply emits_eprint
    | |- emits _ (existsSync _) => apply emits_existsSync
    | |- emits _ (readFileSync _ _) => apply emits_readFileSync
    | |- emits _ (writeFileSync _ _ _) => apply emits_writeFileSync
    | |- emits _ (rmSync _ _) => apply emits_rmSync
    | |- emits _ (member _ _) => apply emits_member
    | |- emits _ (assign_member _ _ _) => apply emits_assign_member
    | |- emits _ (if ?b then _ else _) => destruct b
    | |- emits _ (match ?x with _ => _ end) => destruct x
    end.

Section RunCommands.

Variable h : host.

Lemma emits_nothing {A} (m : M A) (w : world) :
  emits no_command m -> commands (snd (m w)) = commands w.
Proof.
  intros H. destruct (H w) as [cmds [E F]]. destruct cmds as [|c cmds].
  - now rewrite List.app_nil_r in E.
  - inversion F as [|? ? []].
Qed.

Lemma step0_starts_nothing : emits no_command (step0_updateConfig h).
Proof. unfold step0_updateConfig, readJson, writeJson. emits_step. Qed.

Lemma step2_starts_nothing : emits no_command (step2_removeAndroid h).
Proof. unfold step2_removeAndroid. emits_step. Qed.

Lemma step4_starts_nothing : emits no_command (step4_createLocalProperties h).
Proof. unfold step4_createLocalProperties, path_join_checked. emits_step. Qed.

Lemma step5_starts_nothing (permissions : value) :
  emits no_command (step5_injectPermissions h permissions).
Proof. unfold step5_injectPermissions. emits_step. Qed.

(** Step 0.5 only ever starts the package manager, to install or to
    uninstall a package. *)
Lemma step0_5_starts_npm (plugins : value) :
  emits npm_command (step0_5_managePlugins h plugins).
Proof.
  unfold step0_5_managePlugins, readJson. emits_step.
  apply emits_forEach. intros e. unfold manage_plugin. emits_step;
    apply emits_runs; exists (fst e); auto.
Qed.

Lemma runs_records (cmd : string) (w : world) :
  commands (snd (runs h cmd w)) = commands w ++ [cmd].
Proof. unfold runs. now destruct (exec h cmd (files w)) as [[] fs']. Qed.

(** The commands of a run in which every step completes: first those of
    the package manager for the plugins, then the web build, the
    generation of the android project and the final synchronisation, each
    once and in that order, after whatever was on record. *)
Theorem successful_run_commands (w w' : world) :
  all_complete h w w' ->
  exists plugin_commands,
    Forall npm_command plugin_commands /\
    commands w'
    = commands w ++ plugin_commands
      ++ ["npm run build"; "npx cap add android"; "npx cap sync"].
Proof.
  intros [config [w0 [w1 [E0 [C ->]]]]].
  unfold later_steps in C.
  inversion C as [|s1 l1 ? wa ? Ea Ca]; subst; clear C.
  inversion Ca as [|s2 l2 ? wb ? Eb Cb]; subst; clear Ca.
  inversion Cb as [|s3 l3 ? wc ? Ec Cc]; subst; clear Cb.
  inversion Cc as [|s4 l4 ? wd ? Ed Cd]; subst; clear Cc.
  inversion Cd as [|s5 l5 ? we ? Ee Ce]; subst; clear Cd.
  inversion Ce as [|s6 l6 ? wf ? Ef Cf]; subst; clear Ce.
  inversion Cf as [|s7 l7 ? wg ? Eg Cg]; subst; clear Cf.
  inversion Cg; subst; clear Cg.
  assert (K0 : commands w0 = commands w).
  { pose proof (emits_nothing _ (started w) step0_starts_nothing) as K.
    now rewrite E0 in K. }
  assert (Ka : exists cmds, commands wa = commands w0 ++ cmds /\ Forall npm_command cmds).
  { assert (K : emits npm_command
                  (let* plugins := member config "plugins" in
                   step0_5_managePlugins h plugins)).
    { apply emits_bind; [apply emits_member | intros a; apply step0_5_starts_npm]. }
    specialize (K w0). now rewrite Ea in K. }
  destruct Ka as [cmds [Ka Fa]].
  assert (Kb : commands wb = commands wa ++ ["npm run build"]).
  { pose proof (runs_records "npm run build"
                  (snd (log "Step 1: Building Web Assets (Vite)..." wa))) as K.
    unfold step1_buildWeb, mbind, M_bind in Eb. simpl in Eb.
    simpl in K. now rewrite Eb in K. }
  assert (Kc : commands wc = commands wb).
  { pose proof (emits_nothing _ wb step2_starts_nothing) as K. now rewrite Ec in K. }
  assert (Kd : commands wd = commands wc ++ ["npx cap add android"]).
  { pose proof (runs_records "npx cap add android"
                  (snd (log "Step 3: Generating fresh Android project..." wc))) as K.
    unfold step3_generateAndroid, mbind, M_bind in Ed. simpl in Ed.
    simpl in K. now rewrite Ed in K. }
  assert (Ke : commands we = commands wd).
  { pose proof (emits_nothing _ wd step4_starts_nothing) as K. now rewrite Ee in K. }
  assert (Kf : commands wf = commands we).
  { assert (K : emits no_command
                  (let* permissions := member config "permissions" in
                   step5_injectPermissions h permissions)).
    { apply emits_bind; [apply emits_member | intros a; apply step5_starts_nothing]. }
    apply emits_nothing with (w := we) in K. now rewrite Ef in K. }
  assert (Kg : commands w1 = commands wf ++ ["npx cap sync"]).
  { pose proof (runs_records "npx cap sync" (snd (log "Step 6: Final Sync..." wf))) as K.
    unfold step6_finalSync, mbind, M_bind in Eg. simpl in Eg.
    simpl in K. now rewrite Eg in K. }
  exists cmds. split; [exact Fa|].
  unfold succeeded. simpl.
  rewrite Kg, Kf, Ke, Kd, Kc, Kb, Ka, K0. now rewrite <- !List.app_assoc.
Qed.

End RunCommands.

Section RunOutcome.

Variable h : host.

(** An exit status of 0 means that every step completed. *)
Lemma all_complete_of_exit (w : world) :
  fst (run h w) = 0 -> all_complete h w (snd (run h w)).
Proof.
  assert (R : (log "Starting Mobile Maker Build Process...";; build h) w
              = build h (started w)) by reflexivity.
  unfold run. rewrite R, build_in_order. unfold bind, mbind, M_bind.
  destruct (step0_updateConfig h (started w)) as [[config|e] w0] eqn:E0;
    [|simpl; discriminate].
  destruct (in_order_outcome (later_steps h config) w0) as [[w1 [R1 C]]|[e [w1 [R1 _]]]];
    rewrite R1; simpl; [|discriminate].
  intros _. exists config, w0, w1. now repeat split.
Qed.

(** When the web build fails, the run stops there: the exit status is 1,
    the failed command is the last one started, the error names it, and
    the file system is the one the failed build left behind: the script
    removes and writes nothing after it, so an android directory the
    build did not touch is still there. *)
Theorem failed_build_removes_nothing (w w0 w1 : world) (config : value) :
  step0_updateConfig h (started w) = (Ok config, w0) ->
  (let* plugins := member config "plugins" in step0_5_managePlugins h plugins) w0
    = (Ok tt, w1) ->
  fst (exec h "npm run build" (files w1)) = false ->
  fst (run h w) = 1 /\
  files (snd (run h w)) = snd (exec h "npm run build" (files w1)) /\
  commands (snd (run h w)) = commands w1 ++ ["npm run build"] /\
  stderr (snd (run h w))
  = stderr w1 ++ [Line "Build Failed!"; Thrown (ExecError "npm run build")].
Proof.
  intros E0 E1 Hx.
  assert (R : (log "Starting Mobile Maker Build Process...";; build h) w
              = build h (started w)) by reflexivity.
  assert (B : (let* config := step0_updateConfig h in
               forEach (later_steps h config) id;;
               log ("Build Successful! Run " +:+ dq +:+ "npx cap run android" +:+ dq
                    +:+ " to launch.")) (started w)
              = (Throw (ExecError "npm run build"),
                 set_files (snd (exec h "npm run build" (files w1)))
                   (spawned "npm run build"
                      (snd (log "Step 1: Building Web Assets (Vite)..." w1))))).
  { unfold bind at 1. unfold mbind at 1. unfold M_bind at 1. rewrite E0.
    unfold later_steps. rewrite !forEach_cons. unfold id.
    unfold mbind at 1. unfold M_bind at 1.
    unfold mbind at 1. unfold M_bind at 1. rewrite E1.
    unfold mbind at 1. unfold M_bind at 1.
    unfold step1_buildWeb, mbind, M_bind, log, print, runs. simpl. now rewrite Hx. }
  unfold run. rewrite R, build_in_order, B. simpl.
  repeat split. now rewrite <- List.app_assoc.
Qed.

End RunOutcome.

Lemma successful_run_commands_witness :
  exists plugin_commands,
    Forall npm_command plugin_commands /\
    commands (snd (run Sample.json_host Sample.config_world))
    = commands Sample.config_world ++ plugin_commands
      ++ ["npm run build"; "npx cap add android"; "npx cap sync"].
Proof.
  apply (successful_run_commands Sample.json_host Sample.config_world).
  apply all_complete_of_exit. vm_compute. reflexivity.
Defined.

Lemma failed_build_removes_nothing_witness :
  fst (run (Cases.failing_host "npm run build") Cases.project_world) = 1 /\
  files (snd (run (Cases.failing_host "npm run build") Cases.project_world))
  = <[Cases.failure_log := File "npm run build"]>
      (files (snd ((let* plugins := member (of_json (JObj Sample.app_document)) "plugins" in
                    step0_5_managePlugins (Cases.failing_host "npm run build") plugins)
                     (snd (step0_updateConfig (Cases.failing_host "npm run build")
                             (started Cases.project_world)))))) /\
  commands (snd (run (Cases.failing_host "npm run build") Cases.project_world))
  = commands (snd ((let* plugins := member (of_json (JObj Sample.app_document)) "plugins" in
                    step0_5_managePlugins (Cases.failing_host "npm run build") plugins)
                     (snd (step0_updateConfig (Cases.failing_host "npm run build")
                             (started Cases.project_world)))))
    ++ ["npm run build"] /\
  stderr (snd (run (Cases.failing_host "npm run build") Cases.project_world))
  = stderr (snd ((let* plugins := member (of_json (JObj Sample.app_document)) "plugins" in
                  step0_5_managePlugins (Cases.failing_host "npm run build") plugins)
                   (snd (step0_updateConfig (Cases.failing_host "npm run build")
                           (started Cases.project_world)))))
    ++ [Line "Build Failed!"; Thrown (ExecError "npm run build")].
Proof.
  apply (failed_build_removes_nothing (Cases.failing_host "npm run build")
           Cases.project_world
           (snd (step0_updateConfig (Cases.failing_host "npm run build")
                   (started Cases.project_world)))
           _ (of_json (JObj Sample.app_document))).
  - vm_compute. reflexivity.
  - vm_compute. reflexivity.
  - reflexivity.
Defined.

Example failed_build_keeps_manifest :
  files (snd (run (Cases.failing_host "npm run build") Cases.project_world))
    !! MANIFEST Sample.json_host
  = Some (File Sample.manifest_text) /\
  files (snd (run (Cases.failing_host "npm run build") Cases.project_world))
    !! Cases.failure_log
  = Some (File "npm run build").
Proof. split; vm_compute; reflexivity. Qed.

(** * Computations that differ in what they print *)

Section Alike.

Lemma agree_refl (w : world) : agree w w.
Proof. now split. Qed.

Lemma alike_ret {A} (a : A) : alike (ret a) (ret a).
Proof. intros w1 w2 H. now split. Qed.

Lemma alike_throw {A} (e1 e2 : js_error) :
  exit_status e1 = 1 -> alike (throw e1 : M A) (throw e2).
Proof. intros E w1 w2 H. now split. Qed.

Lemma alike_mbind {A B} (m1 m2 : M A) (k1 k2 : A -> M B) :
  alike m1 m2 -> (forall a, alike (k1 a) (k2 a)) -> alike (m1 ≫= k1) (m2 ≫= k2).
Proof.
  intros Hm Hk w1 w2 H. unfold mbind, M_bind. specialize (Hm w1 w2 H).
  destruct (m1 w1) as [[a1|e1] w1'], (m2 w2) as [[a2|e2] w2'];
    destruct Hm as [Hw Hr]; simpl in *; try contradiction.
  - subst a2. now apply Hk.
  - now split.
Qed.

Lemma alike_bind {A B} (m1 m2 : M A) (k1 k2 : A -> M B) :
  alike m1 m2 -> (forall a, alike (k1 a) (k2 a)) -> alike (bind m1 k1) (bind m2 k2).
Proof. apply alike_mbind. Qed.

(** Printing on either side, to either stream, makes no difference. *)
Lemma alike_prints {A} (f1 f2 : world -> world) (m1 m2 : M A) :
  (forall w, agree (f1 w) w) -> (forall w, agree (f2 w) w) ->
  alike m1 m2 ->
  alike (fun w => m1 (f1 w)) (fun w => m2 (f2 w)).
Proof.
  intros H1 H2 Hm w1 w2 [Hf Hc]. apply Hm.
  destruct (H1 w1) as [F1 C1], (H2 w2) as [F2 C2]. split; congruence.
Qed.

Lemma alike_print_print (i j : log_item) : alike (print i) (print j).
Proof. intros w1 w2 H. now split. Qed.

Lemma alike_eprint_eprint (i j : log_item) : alike (eprint i) (eprint j).
Proof. intros w1 w2 H. now split. Qed.

Lemma alike_eprint_print (i j : log_item) : alike (eprint i) (print j).
Proof. intros w1 w2 H. now split. Qed.

Lemma alike_existsSync (p : string) : alike (existsSync p) (existsSync p).
Proof. intros w1 w2 [F C]. unfold existsSync. rewrite F. now repeat split. Qed.

Lemma alike_readFileSync (h : host) (p : string) :
  alike (readFileSync h p) (readFileSync h p).
Proof.
  intros w1 w2 [F C]. unfold readFileSync. rewrite F.
  destruct (files w2 !! p) as [[| |]|]; now repeat split.
Qed.

Lemma alike_writeFileSync (h : host) (p s : string) :
  alike (writeFileSync h p s) (writeFileSync h p s).
Proof.
  intros w1 w2 [F C]. unfold writeFileSync. rewrite F.
  destruct (files w2 !! p) as [[| |]|]; [| | |destruct (files w2 !! parent h p) as [[| |]|]];
    simpl; repeat split; simpl; congruence.
Qed.

Lemma alike_member (v : value) (k : string) : alike (member v k) (member v k).
Proof. intros w1 w2 H. destruct v; now split. Qed.

Lemma alike_assign_member (v : value) (k : string) (x : value) :
  alike (assign_member v k x) (assign_member v k x).
Proof. intros w1 w2 H. destruct v; now split. Qed.

Lemma alike_runs (h : host) (cmd : string) : alike (runs h cmd) (runs h cmd).
Proof.
  intros w1 w2 [F C]. unfold runs. rewrite F.
  destruct (exec h cmd (files w2)) as [[] fs']; simpl; repeat split; simpl; congruence.
Qed.

Lemma alike_rmSync (h : host) (dir : string) : alike (rmSync h dir) (rmSync h dir).
Proof. intros w1 w2 [F C]. unfold rmSync. simpl. rewrite F. now repeat split. Qed.

Lemma alike_forEach {A} (l : list A) (f : A -> M unit) :
  (forall a, alike (f a) (f a)) -> alike (forEach l f) (forEach l f).
Proof.
  intros Hf. induction l as [|a l IH]; simpl; [apply alike_ret|].
  apply alike_mbind; [apply Hf | intros _; exact IH].
Qed.

End Alike.

Ltac alike_step :=
  repeat match goal with
    | |- alike (bind _ _) (bind _ _) => apply alike_bind; [|intros ?]
    | |- alike (mbind _ _) (mbind _ _) => apply alike_mbind; [|intros ?]
    | |- alike (ret _) (ret _) => apply alike_ret
    | |- alike (log _) (log _) => apply alike_print_print
    | |- alike (error _) (error _) => apply alike_eprint_eprint
    | |- alike (error _) (log _) => apply alike_eprint_print
    | |- alike (print _) (print _) => apply alike_print_print
    | |- alike (existsSync _) (existsSync _) => apply alike_existsSync
    | |- alike (readFileSync _ _) (readFileSync _ _) => apply alike_readFileSync
    | |- alike (writeFileSync _ _ _) (writeFileSync _ _ _) => apply alike_writeFileSync
    | |- alike (runs _ _) (runs _ _) => apply alike_runs
    | |- alike (rmSync _ _) (rmSync _ _) => apply alike_rmSync
    | |- alike (member _ _) (member _ _) => apply alike_member
    | |- alike (assign_member _ _ _) (assign_member _ _ _) => apply alike_assign_member
    | |- alike (throw _) (throw _) => apply alike_throw; reflexivity
    | |- alike (if ?b then _ else _) (if ?b then _ else _) => destruct b
    | |- alike (match ?x with _ => _ end) (match ?x with _ => _ end) => destruct x
    end.

(** * The earlier run and the current one *)

Section OlderRunSame.

#[local] Arguments APP_CONFIG : simpl never.
#[local] Arguments CAP_CONFIG : simpl never.
#[local] Arguments PACKAGE_JSON : simpl never.
#[local] Arguments MANIFEST : simpl never.
#[local] Arguments LOCAL_PROPS : simpl never.
#[local] Arguments ANDROID : simpl never.
#[local] Arguments of_json : simpl never.
#[local] Arguments to_json : simpl never.
#[local] Arguments String.append : simpl never.
#[local] Arguments lastIndexOf : simpl never.
#[local] Arguments inject : simpl never.
#[local] Arguments forEach : simpl never.
#[local] Arguments dependency_table : simpl never.
#[local] Arguments escape_backslashes : simpl never.

Variable h : host.

Lemma alike_parseFile_readJson (p : string) :
  alike (Older.parseFile h p) (readJson h p).
Proof.
  intros w1 w2 [F C].
  unfold Older.parseFile, readJson, bind, mbind, M_bind, existsSync, readFileSync,
    ret, mret, M_ret, throw.
  simpl. rewrite F. destruct (files w2 !! p) as [[|text|bytes]|] eqn:E; simpl; rewrite ?E.
  - now repeat split.
  - destruct (JSON_parse h text); now repeat split.
  - destruct (JSON_parse h (utf8_decode h bytes)); now repeat split.
  - now repeat split.
Qed.

Lemma alike_manage_plugin (installed : Obj.t value) (e : string * value) :
  alike (manage_plugin h installed e) (manage_plugin h installed e).
Proof. unfold manage_plugin. alike_step. Qed.

Lemma alike_managePlugins (plugins : value) :
  alike (Older.managePlugins h plugins) (step0_5_managePlugins h plugins).
Proof.
  unfold Older.managePlugins, step0_5_managePlugins. alike_step.
  - apply alike_parseFile_readJson.
  - apply alike_forEach, alike_manage_plugin.
Qed.

Lemma alike_createLocalProperties :
  alike (OlderRun.createLocalProperties h) (step4_createLocalProperties h).
Proof.
  intros w1 w2 [F C].
  unfold OlderRun.createLocalProperties, step4_createLocalProperties, getenv, or_else,
    path_join_checked, nl, bind, mbind, M_bind, log, error, print, eprint, existsSync,
    writeFileSync, ret, mret, M_ret, throw, outcomes_agree, agree.
  fold (LOCAL_PROPS h).
  destruct (env h !! "ANDROID_HOME") as [[|c1 s1]|];
    destruct (env h !! "ANDROID_SDK_ROOT") as [[|c2 s2]|]; simpl; rewrite ?F;
    try (destruct (bool_decide _); simpl; rewrite ?F;
         try (destruct (files w2 !! LOCAL_PROPS h) as [[| |]|];
              [| | |destruct (files w2 !! parent h (LOCAL_PROPS h)) as [[| |]|]]; simpl);
         now repeat split);
    (destruct (String.eqb (platform h) "win32");
     [ destruct (env h !! "LOCALAPPDATA") as [d|]; simpl; [|now repeat split];
       destruct (path_join h [d; "Android"; "Sdk"]) as [|c s]; simpl; rewrite ?F;
       [now repeat split|];
       destruct (bool_decide _); simpl; rewrite ?F;
       try (destruct (files w2 !! LOCAL_PROPS h) as [[| |]|];
            [| | |destruct (files w2 !! parent h (LOCAL_PROPS h)) as [[| |]|]]; simpl);
       now repeat split
     | destruct (String.eqb (platform h) "darwin"); simpl; [|now repeat split];
       destruct (env h !! "HOME") as [d|]; simpl; [|now repeat split];
       destruct (path_join h [d; "Library"; "Android"; "sdk"]) as [|c s]; simpl;
       rewrite ?F; [now repeat split|];
       destruct (bool_decide _); simpl; rewrite ?F;
       try (destruct (files w2 !! LOCAL_PROPS h) as [[| |]|];
            [| | |destruct (files w2 !! parent h (LOCAL_PROPS h)) as [[| |]|]]; simpl);
       now repeat split ]).
Qed.

Lemma alike_injectPermissions (appConfig permissions : value) :
  (forall w0, member appConfig "permissions" w0 = (Ok permissions, w0)) ->
  alike (Older.injectPermissions h appConfig) (step5_injectPermissions h permissions).
Proof.
  intros Hperm w1 w2 [F C].
  unfold Older.injectPermissions, step5_injectPermissions, toInject, bind, mbind, M_bind,
    log, error, print, eprint, existsSync, readFileSync, writeFileSync,
    outcomes_agree, agree.
  simpl. rewrite F.
  destruct (files w2 !! MANIFEST h) as [[|content|bytes]|] eqn:E; simpl; rewrite ?F, ?E; simpl.
  - now repeat split.
  - destruct (lastIndexOf content closingTag =? -1); simpl; [now repeat split|].
    rewrite Hperm, permissionsToInject_map.
    destruct (0 <? _); simpl; rewrite ?F, ?E; now repeat split.
  - destruct (lastIndexOf (utf8_decode h bytes) closingTag =? -1); simpl;
      [now repeat split|].
    rewrite Hperm, permissionsToInject_map.
    destruct (0 <? _); simpl; rewrite ?F, ?E; now repeat split.
  - now repeat split.
Qed.

End OlderRunSame.

Section OlderRunSameUpdate.

#[local] Arguments APP_CONFIG : simpl never.
#[local] Arguments CAP_CONFIG : simpl never.
#[local] Arguments of_json : simpl never.
#[local] Arguments to_json : simpl never.
#[local] Arguments String.append : simpl never.

Variable h : host.

(** The earlier run updates the configuration and reads the app
    configuration again; the current one has step 0 return it. *)
Lemma alike_update {A} (k1 k2 : value -> M A) :
  (forall c, alike (k1 c) (k2 c)) ->
  alike (Older.updateConfig h;; let* c := Older.parseFile h (APP_CONFIG h) in k1 c)
        (let* c := step0_updateConfig h in k2 c).
Proof.
  intros Hk w1 w2 [F C].
  pose proof (APP_CONFIG_not_CAP_CONFIG h) as N.
  unfold Older.updateConfig, Older.parseFile, step0_updateConfig, readJson, writeJson,
    bind, mbind, M_bind, log, error, print, eprint, existsSync, readFileSync,
    writeFileSync, ret, mret, M_ret, throw.
  simpl. rewrite F.
  destruct (files w2 !! APP_CONFIG h) as [[|text|bytes]|] eqn:Ea; simpl;
    rewrite ?F, ?Ea; simpl;
    try (repeat split; simpl; congruence).
  all: match goal with
       | |- context [JSON_parse h ?t] => destruct (JSON_parse h t) as [j|] eqn:Pa
       end; simpl;
    try (repeat split; simpl; congruence).
  all: destruct (of_json j) as [| | b | z | s | l | o |] eqn:Ej; simpl;
    try (repeat split; simpl; congruence).
  all: destruct (files w2 !! CAP_CONFIG h) as [[|ctext|cbytes]|] eqn:Ec; simpl;
    repeat (progress (rewrite ?F, ?Ea, ?Ec, ?Pa, ?Ej; simpl));
    try (repeat split; simpl; congruence);
    try (apply Hk; split; simpl; congruence).
  all: match goal with
       | |- context [match JSON_parse h ?t with _ => _ end] =>
           destruct (JSON_parse h t) as [jc|]
       end; simpl;
    try (repeat split; simpl; congruence).
  all: destruct (of_json jc) as [| | bc | zc | sc | lc | oc |]; simpl;
    try (repeat split; simpl; congruence).
  all: repeat match goal with
         | |- context [if truthy ?v then _ else _] => destruct (truthy v); simpl
         end.
  all: repeat match goal with
         | |- context [match to_json ?v with _ => _ end] => destruct (to_json v); simpl
         end;
    try (repeat split; simpl; congruence).
  all: repeat (progress (rewrite ?F, ?lookup_insert_ne, ?Ea, ?Ec, ?Pa, ?Ej by exact N;
                         simpl));
    apply Hk; split; simpl; congruence.
Qed.

End OlderRunSameUpdate.

Section OlderRunTheorem.

#[local] Arguments of_json : simpl never.
#[local] Arguments String.append : simpl never.
#[local] Arguments forEach : simpl never.

Variable h : host.

Lemma alike_ret_bind_r {A B} (m1 : M B) (v : A) (k : A -> M B) :
  alike m1 (k v) -> alike m1 (bind (ret v) k).
Proof. intros H w1 w2 Hw. exact (H w1 w2 Hw). Qed.

Lemma alike_two_logs (a b c : string) : alike (log a;; log b) (log c).
Proof. intros w1 w2 H. now split. Qed.

(** What follows the configuration update, for a configuration that is
    not [null]. *)
Lemma alike_after_update (c : value) (permissions : value) :
  member c "permissions" = ret permissions ->
  forall plugins,
  alike
    (Older.managePlugins h plugins;;
     (log "Step 1: Building Web Assets (Vite)...";; runs h "npm run build");;
     (let* found := existsSync (ANDROID h) in
      if found then
        log "Step 2: Removing existing android directory...";; rmSync h (ANDROID h)
      else ret tt);;
     (log "Step 3: Generating fresh Android project...";; runs h "npx cap add android");;
     OlderRun.createLocalProperties h;;
     Older.injectPermissions h c;;
     (log "Step 6: Final Sync...";; runs h "npx cap sync");;
     (log "All Done! Project is ready.";;
      log ("Run " +:+ dq +:+ "npx cap run android" +:+ dq
           +:+ " to launch on device/emulator.")))
    (step0_5_managePlugins h plugins;;
     step1_buildWeb h;;
     step2_removeAndroid h;;
     step3_generateAndroid h;;
     step4_createLocalProperties h;;
     let* permissions := member c "permissions" in
     step5_injectPermissions h permissions;;
     step6_finalSync h;;
     log ("Build Successful! Run " +:+ dq +:+ "npx cap run android" +:+ dq
          +:+ " to launch.")).
Proof.
  intros Hperm plugins.
  apply alike_mbind; [apply alike_managePlugins | intros _].
  apply alike_mbind; [unfold step1_buildWeb; alike_step | intros _].
  apply alike_mbind; [unfold step2_removeAndroid; alike_step | intros _].
  apply alike_mbind; [unfold step3_generateAndroid; alike_step | intros _].
  apply alike_mbind; [apply alike_createLocalProperties | intros _].
  rewrite Hperm. apply alike_ret_bind_r.
  apply alike_mbind.
  - apply alike_injectPermissions. intros w0. now rewrite Hperm.
  - intros _. apply alike_mbind; [unfold step6_finalSync; alike_step | intros _].
    apply alike_two_logs.
Qed.

Lemma alike_build : alike (OlderRun.build h) (build h).
Proof.
  unfold OlderRun.build, build. apply alike_update. intros c.
  destruct c as [| | b | z | s | l | o |];
    try (intros w1 w2 Hw; now split).
  all: lazymatch goal with
       | |- alike (bind (member ?c _) _) _ =>
           apply alike_bind; [apply alike_member | intros plugins];
           apply (alike_after_update c _ eq_refl)
       end.
Qed.


End OlderRunTheorem.

Section OlderEdges.

#[local] Arguments APP_CONFIG : simpl never.
#[local] Arguments MANIFEST : simpl never.
#[local] Arguments String.append : simpl never.
#[local] Arguments lastIndexOf : simpl never.
#[local] Arguments inject : simpl never.

Variable h : host.

(** In the earlier version a missing app configuration ends the process
    from inside the configuration update: the exit status is 1 and the
    only thing printed to the error stream is that the file was not
    found, without the failure banner of [catch]; no file changes and no
    command is started. *)
Theorem older_run_missing_app_config (w : world) :
  files w !! APP_CONFIG h = None ->
  fst (OlderRun.run h w) = 1 /\
  stderr (snd (OlderRun.run h w)) = stderr w ++ [Line "app-config.json not found!"] /\
  files (snd (OlderRun.run h w)) = files w /\
  commands (snd (OlderRun.run h w)) = commands w.
Proof.
  intros Ha.
  unfold OlderRun.run, OlderRun.build, Older.updateConfig, bind, mbind, M_bind, log, error,
    print, eprint, existsSync, throw.
  simpl. rewrite Ha. rewrite bool_decide_eq_false_2 by (intros [x Hx]; discriminate).
  simpl. now repeat split.
Qed.

(** The earlier injection adds the configured permissions only: the
    list [REQUIRED_PERMISSIONS] is never read. On a manifest with the
    closing tag, a declaration of that list occurs after the injection
    as often as before it unless its permission is enabled in the app
    configuration: one that the manifest lacks is still lacking,
    whatever else is injected. (No enabled name contains a [<] or a
    double quote.) *)
Theorem older_injection_ignores_required_permissions
    (appConfig : value) (props : list (string * value)) (w : world) (content : string) :
  (forall w0, member appConfig "permissions" w0 = (Ok (VObj props), w0)) ->
  files w !! MANIFEST h = Some (File content) ->
  occurs_in "</manifest>" content ->
  (forall n v, In (n, v) props -> truthy v = true ->
               mem_char "<" n = false /\ mem_char (ascii_of_nat 34) n = false) ->
  forall tag, In tag OlderRun.REQUIRED_PERMISSIONS ->
    (forall n v, In (n, v) props -> truthy v = true -> declaration n <> tag) ->
    exists content',
      files (snd (Older.injectPermissions h appConfig w)) !! MANIFEST h
        = Some (File content') /\
      occurrences content' tag = occurrences content tag.
Proof.
  intros Hperm Hm Hocc Hnames tag Htag Hother.
  apply occurs_in_iff in Hocc.
  destruct (older_injectPermissions_same h appConfig (VObj props) w Hperm) as [_ ->].
  destruct (step5_on_mapping h w content (VObj props) props Hm Hocc eq_refl)
    as [k [Hlen [Hst [Hlast [_ Hfiles]]]]].
  exists (take k content +:+ inserted_text (to_declare content props) +:+ drop k content).
  split; [rewrite Hfiles; apply lookup_insert_eq|].
  assert (Hcut : startsWith (drop k content) "<" = true).
  { apply startsWith_iff in Hst as [r Hr]. apply startsWith_iff.
    exists ("/manifest>" +:+ r). now rewrite Hr. }
  assert (Hin : forall n, In n (to_declare content props) ->
                mem_char "<" n = false /\ mem_char (ascii_of_nat 34) n = false).
  { intros n Hn. apply in_to_declare in Hn as [[v [Hv Tv]] _]. now apply (Hnames n v). }
  assert (G : forall name, tag = declaration name -> mem_char "<" name = false ->
                occurrences (take k content +:+ inserted_text (to_declare content props)
                             +:+ drop k content) tag
                = occurrences content tag).
  { intros name -> Hlt. rewrite occurrences_inserted by assumption.
    rewrite (proj1 (count_occ_not_In string_dec (to_declare content props) name));
      [lia|].
    intros I. apply in_to_declare in I as [[v [Hv Tv]] _].
    now apply (Hother name v Hv Tv). }
  destruct Htag as [<-|[<-|[<-|[]]]].
  - now apply (G "android.permission.INTERNET").
  - now apply (G "android.permission.RECORD_AUDIO").
  - now apply (G "android.permission.MODIFY_AUDIO_SETTINGS").
Qed.

End OlderEdges.

Lemma older_run_missing_app_config_witness :
  fst (OlderRun.run Sample.quiet_host Sample.manifest_world) = 1 /\
  stderr (snd (OlderRun.run Sample.quiet_host Sample.manifest_world))
  = stderr Sample.manifest_world ++ [Line "app-config.json not found!"] /\
  files (snd (OlderRun.run Sample.quiet_host Sample.manifest_world))
  = files Sample.manifest_world /\
  commands (snd (OlderRun.run Sample.quiet_host Sample.manifest_world))
  = commands Sample.manifest_world.
Proof.
  apply (older_run_missing_app_config Sample.quiet_host Sample.manifest_world).
  vm_compute. reflexivity.
Defined.

Lemma older_injection_ignores_required_permissions_witness :
  exists content',
    files (snd (Older.injectPermissions Sample.quiet_host
                  (VObj [("permissions", VObj [(Sample.camera, VBool true)])])
                  Cases.bare_manifest_world)) !! MANIFEST Sample.quiet_host
      = Some (File content') /\
    occurrences content' (permission_tag "android.permission.INTERNET")
    = occurrences Cases.bare_manifest (permission_tag "android.permission.INTERNET").
Proof.
  apply (older_injection_ignores_required_permissions Sample.quiet_host
           (VObj [("permissions", VObj [(Sample.camera, VBool true)])])
           [(Sample.camera, VBool true)] Cases.bare_manifest_world Cases.bare_manifest).
  - intros w0. reflexivity.
  - vm_compute. reflexivity.
  - exists ("<manifest>" +:+ nl), nl. reflexivity.
  - intros n v [E|[]] _. injection E as <- _. split; reflexivity.
  - left. reflexivity.
  - intros n v [E|[]] _. injection E as <- _. discriminate.
Defined.

Example older_injection_sample :
  files (snd (Older.injectPermissions Sample.quiet_host
                (VObj [("permissions", VObj [(Sample.camera, VBool true)])])
                Cases.bare_manifest_world)) !! MANIFEST Sample.quiet_host
  = Some (File ("<manifest>" +:+ nl +:+
                nl +:+ "    <!-- Auto-injected permissions -->" +:+ nl +:+
                "    " +:+ declaration Sample.camera +:+ nl +:+
                "</manifest>" +:+ nl)).
Proof. vm_compute. reflexivity. Qed.

Lemma older_managePlugins_same_witness :
  Older.managePlugins Sample.json_host Sample.plugins Sample.config_world
  = step0_5_managePlugins Sample.json_host Sample.plugins Sample.config_world.
Proof.
  apply (older_managePlugins_same Sample.json_host Sample.plugins Sample.config_world).
  exists (File Sample.package_text). vm_compute. reflexivity.
Defined.

Lemma older_injectPermissions_same_witness :
  fst (Older.injectPermissions Sample.quiet_host
         (VObj [("permissions", Sample.permissions)]) Sample.manifest_world)
  = fst (step5_injectPermissions Sample.quiet_host Sample.permissions Sample.manifest_world) /\
  files (snd (Older.injectPermissions Sample.quiet_host
                (VObj [("permissions", Sample.permissions)]) Sample.manifest_world))
  = files (snd (step5_injectPermissions Sample.quiet_host Sample.permissions
                  Sample.manifest_world)).
Proof.
  apply (older_injectPermissions_same Sample.quiet_host
           (VObj [("permissions", Sample.permissions)]) Sample.permissions
           Sample.manifest_world).
  intros w0. reflexivity.
Defined.


(** * The SDK location line determines the location *)

Section EscapeInjective.

#[local] Arguments String.append : simpl nomatch.

Lemma escape_backslashes_inj (a b : string) :
  escape_backslashes a = escape_backslashes b -> a = b.
Proof.
  revert b. induction a as [|c a IH]; intros [|d b]; cbn [escape_backslashes].
  - reflexivity.
  - destruct (Ascii.eqb d (ascii_of_nat 92)); discriminate.
  - destruct (Ascii.eqb c (ascii_of_nat 92)); discriminate.
  - destruct (Ascii.eqb_spec c (ascii_of_nat 92)) as [->|Nc];
      destruct (Ascii.eqb_spec d (ascii_of_nat 92)) as [->|Nd]; intros E.
    + injection E as E. f_equal. now apply IH.
    + injection E as E1 E2. destruct b as [|d' b]; cbn [escape_backslashes] in E2.
      * discriminate.
      * congruence.
    + injection E as E1 E2. destruct a as [|c' a]; cbn [escape_backslashes] in E2.
      * discriminate.
      * congruence.
    + injection E as -> E. f_equal. now apply IH.
Qed.

(** Doubling the backslashes loses nothing: two locations with the same
    line in the SDK location file are the same location. *)
Theorem sdk_dir_line_inj (p q : string) :
  sdk_dir_line p = sdk_dir_line q <-> p = q.
Proof.
  split; [|now intros ->].
  unfold sdk_dir_line. intros E. apply String.app_inj in E.
  apply app_inj_r in E. now apply escape_backslashes_inj.
Qed.

End EscapeInjective.


(** * When the android project cannot be generated *)

Section FailedGeneration.

#[local] Arguments ANDROID : simpl never.
#[local] Arguments forEach : simpl never.

Variable h : host.

Lemma lookup_after_rmSync (fs : gmap string node) (dir q : string) :
  filter (fun kv : string * node => below h dir (fst kv) = false) fs !! q
  = if below h dir q then None else fs !! q.
Proof.
  destruct (below h dir q) eqn:B.
  - apply map_lookup_filter_None. right. intros x _. simpl. congruence.
  - destruct (fs !! q) as [x|] eqn:E.
    + apply map_lookup_filter_Some. now split.
    + apply map_lookup_filter_None. now left.
Qed.

(** The android directory is removed before the new one is generated.
    When the generation fails, the run ends with exit status 1, and the
    file system is what the failed command made of one without the
    android directory: the old manifest and everything else at or below
    that directory is gone, unless the failed command put something
    there; the failed command is the last one started. *)
Theorem failed_generation_leaves_no_android (w w0 w1 w2 : world) (config : value) :
  step0_updateConfig h (started w) = (Ok config, w0) ->
  (let* plugins := member config "plugins" in step0_5_managePlugins h plugins) w0
    = (Ok tt, w1) ->
  step1_buildWeb h w1 = (Ok tt, w2) ->
  is_Some (files w2 !! ANDROID h) ->
  fst (exec h "npx cap add android" (without h (ANDROID h) (files w2))) = false ->
  fst (run h w) = 1 /\
  files (snd (run h w))
  = snd (exec h "npx cap add android" (without h (ANDROID h) (files w2))) /\
  (forall q, without h (ANDROID h) (files w2) !! q
             = if below h (ANDROID h) q then None else files w2 !! q) /\
  (forall q, below h (ANDROID h) q = true ->
             snd (exec h "npx cap add android" (without h (ANDROID h) (files w2))) !! q
             = without h (ANDROID h) (files w2) !! q ->
             files (snd (run h w)) !! q = None) /\
  commands (snd (run h w)) = commands w2 ++ ["npx cap add android"].
Proof.
  intros E0 E1 E2 Ha Hx.
  assert (R : (log "Starting Mobile Maker Build Process...";; build h) w
              = build h (started w)) by reflexivity.
  assert (B : exists w',
             (let* config := step0_updateConfig h in
              forEach (later_steps h config) id;;
              log ("Build Successful! Run " +:+ dq +:+ "npx cap run android" +:+ dq
                   +:+ " to launch.")) (started w)
             = (Throw (ExecError "npx cap add android"), w') /\
             files w' = snd (exec h "npx cap add android"
                               (without h (ANDROID h) (files w2))) /\
             commands w' = commands w2 ++ ["npx cap add android"]).
  { unfold bind at 1. unfold mbind at 1. unfold M_bind at 1. rewrite E0.
    unfold later_steps. rewrite !forEach_cons. unfold id.
    unfold mbind at 1. unfold M_bind at 1.
    unfold mbind at 1. unfold M_bind at 1. rewrite E1.
    unfold mbind at 1. unfold M_bind at 1. rewrite E2.
    unfold without in Hx |- *.
    unfold step2_removeAndroid, step3_generateAndroid, bind, mbind, M_bind, existsSync,
      log, print, rmSync, runs.
    simpl. rewrite bool_decide_eq_true_2 by exact Ha. simpl. rewrite Hx.
    eexists. split; [reflexivity|]. now split. }
  destruct B as [w' [B [F C]]].
  unfold run. rewrite R, build_in_order, B. simpl.
  split; [reflexivity|]. split; [exact F|]. split; [|split; [|exact C]].
  - intros q. apply lookup_after_rmSync.
  - intros q Hq Hkept. rewrite F, Hkept. unfold without.
    rewrite lookup_after_rmSync. now rewrite Hq.
Qed.

End FailedGeneration.

Lemma failed_generation_leaves_no_android_witness :
  fst (run Cases.generation_fails Cases.project_world) = 1 /\
  files (snd (run Cases.generation_fails Cases.project_world))
  = snd (exec Cases.generation_fails "npx cap add android"
           (without Cases.generation_fails (ANDROID Cases.generation_fails)
              (files Cases.after_build))) /\
  (forall q, without Cases.generation_fails (ANDROID Cases.generation_fails)
               (files Cases.after_build) !! q
             = if below Cases.generation_fails (ANDROID Cases.generation_fails) q then None
               else files Cases.after_build !! q) /\
  (forall q, below Cases.generation_fails (ANDROID Cases.generation_fails) q = true ->
             snd (exec Cases.generation_fails "npx cap add android"
                    (without Cases.generation_fails (ANDROID Cases.generation_fails)
                       (files Cases.after_build))) !! q
             = without Cases.generation_fails (ANDROID Cases.generation_fails)
                 (files Cases.after_build) !! q ->
             files (snd (run Cases.generation_fails Cases.project_world)) !! q = None) /\
  commands (snd (run Cases.generation_fails Cases.project_world))
  = commands Cases.after_build ++ ["npx cap add android"].
Proof.
  apply (failed_generation_leaves_no_android Cases.generation_fails
           Cases.project_world
           (snd (step0_updateConfig Cases.generation_fails (started Cases.project_world)))
           (snd ((let* plugins := member (of_json (JObj Sample.app_document)) "plugins" in
                  step0_5_managePlugins Cases.generation_fails plugins)
                   (snd (step0_updateConfig Cases.generation_fails
                           (started Cases.project_world)))))
           Cases.after_build (of_json (JObj Sample.app_document))).
  - vm_compute. reflexivity.
  - vm_compute. reflexivity.
  - vm_compute. reflexivity.
  - exists Dir. vm_compute. reflexivity.
  - reflexivity.
Defined.

Example failed_generation_loses_manifest :
  files (snd (run Cases.generation_fails Cases.project_world))
    !! MANIFEST Sample.json_host = None /\
  files (snd (run Cases.generation_fails Cases.project_world))
    !! Cases.failure_log = Some (File "npx cap add android") /\
  commands (snd (run Cases.generation_fails Cases.project_world))
  = ["npm install @capacitor/camera"; "npm uninstall @capacitor/splash-screen";
     "npm run build"; "npx cap add android"].
Proof. repeat split; vm_compute; reflexivity. Qed.
